(** * PDF-Statement-Exporter: transaction recognizer and template engine

    A shallow embedding of [src/utils/pdfParser.ts] (transaction
    recognizer, date normalisation), [src/utils/code.ts] (the template
    service) and the category-feedback hook of the Excel exporter.

    Conventions.
    - A JavaScript string is a list of 8-bit code units ([list ascii]);
      code units above 255 are outside the model.
    - A JavaScript [number] is an IEEE-754 binary64 value ([PrimFloat.float]).
      Integer-valued counters ([usageCount], time values, array lengths) are
      kept in [Z]; they stay far below 2^53, where binary64 is exact.
    - Built-ins whose behaviour the language leaves to the host (the [Date]
      parser and clock, the AI completion service, [JSON.parse], the [RegExp]
      constructor) are fields of the class [Host].
    - A function that can throw returns [result]. *)

Set Warnings "-inexact-float,-register-all".
From Stdlib Require Import Ascii String Floats DecimalString.
From Stdlib Require Import Bool Arith ZArith NArith QArith Qcanon Lia.
From Stdlib Require Import List Permutation Sorted.
From Stdlib Require DecimalZ DecimalPos.
Import ListNotations.

Local Close Scope Qc_scope.
Local Close Scope Q_scope.
Local Open Scope nat_scope.
Local Open Scope bool_scope.
Local Open Scope list_scope.

(* ================================================================== *)
(** * JavaScript values and built-ins *)
(* ================================================================== *)

Module Js.

(** ** Completion records: a call returns a value or throws. *)

Inductive result (A : Type) : Type :=
| Ok (a : A)
| Throw (message : string).
Arguments Ok {A} a.
Arguments Throw {A} message.

Definition bind {A B} (m : result A) (f : A -> result B) : result B :=
  match m with
  | Ok a => f a
  | Throw e => Throw e
  end.

Definition result_map {A B} (f : A -> B) (m : result A) : result B :=
  match m with
  | Ok a => Ok (f a)
  | Throw e => Throw e
  end.

(** [try { body } catch (error) { handler }] *)
Definition try_catch {A} (body : result A) (handler : string -> result A) : result A :=
  match body with
  | Ok a => Ok a
  | Throw e => handler e
  end.

Notation "x <- m ;; k" := (bind m (fun x => k))
  (at level 61, m at next level, right associativity).

(** ** Strings *)

Definition jsstring := list ascii.

Definition txt (s : string) : jsstring := list_ascii_of_string s.

Definition code (c : ascii) : N := N_of_ascii c.

Definition in_range (lo hi : N) (c : ascii) : bool :=
  (lo <=? code c)%N && (code c <=? hi)%N.

Definition is_char (x : ascii) (c : ascii) : bool := (code c =? code x)%N.

(** [\d] *)
Definition isDigit : ascii -> bool := in_range 48 57.

(** [[A-Z]] *)
Definition isUpper : ascii -> bool := in_range 65 90.

(** [\s], also the characters removed by [trim] and skipped by
    [parseInt]/[parseFloat]: TAB, LF, VT, FF, CR, SP, NBSP. *)
Definition isSpace (c : ascii) : bool :=
  in_range 9 13 c || (code c =? 32)%N || (code c =? 160)%N.

(** [.] without the [s] flag: anything but a line terminator. *)
Definition isDot (c : ascii) : bool :=
  negb ((code c =? 10)%N || (code c =? 13)%N).

(** [String.prototype.toLowerCase] on Latin-1 code units. *)
Definition toLower (c : ascii) : ascii :=
  if isUpper c || (in_range 192 222 c && negb (code c =? 215)%N)
  then ascii_of_N (code c + 32) else c.

Definition toLowerCase (s : jsstring) : jsstring := map toLower s.

Definition ascii_eqb (a b : ascii) : bool := (code a =? code b)%N.

Fixpoint startsWith (s p : jsstring) : bool :=
  match p, s with
  | [], _ => true
  | _ :: _, [] => false
  | x :: p', c :: s' => ascii_eqb c x && startsWith s' p'
  end.

(** [s.includes(sub)] *)
Fixpoint includes (s sub : jsstring) : bool :=
  startsWith s sub ||
  match s with
  | [] => false
  | _ :: s' => includes s' sub
  end.

Fixpoint dropWhile (p : ascii -> bool) (s : jsstring) : jsstring :=
  match s with
  | c :: s' => if p c then dropWhile p s' else s
  | [] => []
  end.

Fixpoint takeWhile (p : ascii -> bool) (s : jsstring) : jsstring :=
  match s with
  | c :: s' => if p c then c :: takeWhile p s' else []
  | [] => []
  end.

(** [s.trim()] *)
Definition trim (s : jsstring) : jsstring :=
  rev (dropWhile isSpace (rev (dropWhile isSpace s))).

(** [s.substring(0, n)] *)
Definition substring0 (n : nat) (s : jsstring) : jsstring := firstn n s.

(** [s.split(sep)] for a separator that is one character, or a regular
    expression that is one character class ([/[\/\-]/]). *)
Fixpoint split (sep : ascii -> bool) (s : jsstring) : list jsstring :=
  match s with
  | [] => [[]]
  | c :: s' =>
      if sep c then [] :: split sep s'
      else match split sep s' with
           | h :: t => (c :: h) :: t
           | [] => [[c]]
           end
  end.

(** [s.replace(pat, rep)] with a string pattern: the first occurrence only.
    The replacement texts used by the sources contain no [$]. *)
Fixpoint replace_first (pat rep s : jsstring) : jsstring :=
  if startsWith s pat then rep ++ skipn (length pat) s
  else match s with
       | [] => []
       | c :: s' => c :: replace_first pat rep s'
       end.


(** The double-quote character as a string. *)
Definition dquote : jsstring := ["034"%char].

(** Template-literal rendering of an integer. *)
Definition Z_to_jsstring (z : Z) : jsstring :=
  txt (NilZero.string_of_int (Z.to_int z)).

(** ** Regular expressions

    The fragment the sources use: character classes, quantified character
    classes (greedy or lazy), concatenation, an optional group and capturing
    groups.  The matcher backtracks in the order ECMAScript prescribes; the
    continuation [k] is the rest of the pattern. *)

Inductive regex : Type :=
| Chr (p : ascii -> bool)
| Rep (p : ascii -> bool) (lo : nat) (hi : option nat) (lazy : bool)
| Cat (r1 r2 : regex)
| Opt (r : regex)
| Grp (r : regex).

Definition can_take (hi : option nat) : bool :=
  match hi with
  | Some 0 => false
  | _ => true
  end.

Definition one_less (hi : option nat) : option nat := option_map pred hi.

Fixpoint rep_greedy {R} (p : ascii -> bool) (lo : nat) (hi : option nat)
    (s : jsstring) (k : jsstring -> option R) {struct s} : option R :=
  match s with
  | c :: s' =>
      if p c && can_take hi then
        match rep_greedy p (pred lo) (one_less hi) s' k with
        | Some r => Some r
        | None => if (lo =? 0)%nat then k s else None
        end
      else if (lo =? 0)%nat then k s else None
  | [] => if (lo =? 0)%nat then k s else None
  end.

Fixpoint rep_lazy {R} (p : ascii -> bool) (lo : nat) (hi : option nat)
    (s : jsstring) (k : jsstring -> option R) {struct s} : option R :=
  match (if (lo =? 0)%nat then k s else None) with
  | Some r => Some r
  | None =>
      match s with
      | c :: s' =>
          if p c && can_take hi then rep_lazy p (pred lo) (one_less hi) s' k
          else None
      | [] => None
      end
  end.

Fixpoint exec {R} (r : regex) (s : jsstring) (k : jsstring -> option R)
    {struct r} : option R :=
  match r with
  | Chr p =>
      match s with
      | c :: s' => if p c then k s' else None
      | [] => None
      end
  | Rep p lo hi lazy =>
      if lazy then rep_lazy p lo hi s k else rep_greedy p lo hi s k
  | Cat r1 r2 => exec r1 s (fun s' => exec r2 s' k)
  | Opt r1 =>
      match exec r1 s k with
      | Some x => Some x
      | None => k s
      end
  | Grp r1 => exec r1 s k
  end.

(** A match anchored at the head of [s]: the text after the match. *)
Definition matchAt (r : regex) (s : jsstring) : option jsstring :=
  exec r s (fun rest => Some rest).

Definition matched (s rest : jsstring) : jsstring :=
  firstn (length s - length rest) s.

(** [s.match(r)] for a pattern without the [g] flag: element 0 of the match
    array (the leftmost match), or [None] for [null]. *)
Fixpoint match_first (r : regex) (s : jsstring) : option jsstring :=
  match matchAt r s with
  | Some rest => Some (matched s rest)
  | None =>
      match s with
      | [] => None
      | _ :: s' => match_first r s'
      end
  end.

(** [r.test(s)] for a pattern without the [g] flag. *)
Definition test (r : regex) (s : jsstring) : bool :=
  match match_first r s with
  | Some _ => true
  | None => false
  end.

(** [s.match(r)] for a pattern WITH the [g] flag: the array of all the
    matched substrings, left to right, capture groups dropped; the empty
    list stands for [null].  [skip] counts the characters of the last match
    still to be passed. *)
Fixpoint match_global_from (r : regex) (skip : nat) (s : jsstring)
    : list jsstring :=
  match skip with
  | S n =>
      match s with
      | _ :: s' => match_global_from r n s'
      | [] => []
      end
  | O =>
      match matchAt r s with
      | Some rest =>
          matched s rest ::
          match s with
          | _ :: s' => match_global_from r (pred (length s - length rest)) s'
          | [] => []
          end
      | None =>
          match s with
          | _ :: s' => match_global_from r 0 s'
          | [] => []
          end
      end
  end.

Definition match_global (r : regex) (s : jsstring) : list jsstring :=
  match_global_from r 0 s.

(** [s.replace(r, w)] for a pattern with the [g] flag. *)
Fixpoint replace_global_from (r : regex) (w : jsstring) (skip : nat)
    (s : jsstring) : jsstring :=
  match skip with
  | S n =>
      match s with
      | _ :: s' => replace_global_from r w n s'
      | [] => []
      end
  | O =>
      match matchAt r s with
      | Some rest =>
          w ++
          match (length s - length rest)%nat, s with
          | O, c :: s' => c :: replace_global_from r w 0 s'
          | S m, _ :: s' => replace_global_from r w m s'
          | _, [] => []
          end
      | None =>
          match s with
          | c :: s' => c :: replace_global_from r w 0 s'
          | [] => []
          end
      end
  end.

Definition replace_global (r : regex) (w s : jsstring) : jsstring :=
  replace_global_from r w 0 s.

(** ** Numbers

    The arithmetic of the template service is written once over the
    operations of [Number]; [binary64] is JavaScript's own arithmetic and
    [exact] reads the same expressions over the rationals. *)

Class Number (num : Type) : Type := {
  of_Z : Z -> num;
  lit : Q -> num;
  n_add : num -> num -> num;
  n_sub : num -> num -> num;
  n_mul : num -> num -> num;
  n_div : num -> num -> num;
  n_ltb : num -> num -> bool;
  n_leb : num -> num -> bool
}.

Declare Scope num_scope.
Delimit Scope num_scope with num.
Infix "+" := n_add : num_scope.
Infix "-" := n_sub : num_scope.
Infix "*" := n_mul : num_scope.
Infix "/" := n_div : num_scope.
Notation "x >? y" := (n_ltb y x) (at level 70) : num_scope.
Notation "x >=? y" := (n_leb y x) (at level 70) : num_scope.

(** The binary64 value nearest to a rational (round to nearest, ties to
    even), which is how a decimal literal and [parseFloat] read their digits. *)
Definition Q_to_float (q : Q) : float :=
  match Qnum q with
  | Z0 => PrimFloat.zero
  | Zpos p =>
      SF2Prim (SFdiv prec emax (S754_finite false p 0) (S754_finite false (Qden q) 0))
  | Zneg p =>
      SF2Prim (SFdiv prec emax (S754_finite true p 0) (S754_finite false (Qden q) 0))
  end.

#[export] Instance binary64 : Number float := {
  of_Z z := SF2Prim (binary_normalize prec emax z 0 false);
  lit := Q_to_float;
  n_add := PrimFloat.add;
  n_sub := PrimFloat.sub;
  n_mul := PrimFloat.mul;
  n_div := PrimFloat.div;
  n_ltb := PrimFloat.ltb;
  n_leb := PrimFloat.leb
}.

#[export] Instance exact : Number Qc := {
  of_Z z := Q2Qc (inject_Z z);
  lit := Q2Qc;
  n_add := Qcplus;
  n_sub := Qcminus;
  n_mul := Qcmult;
  n_div := Qcdiv;
  n_ltb x y := negb (Qle_bool (this y) (this x));
  n_leb x y := Qle_bool (this x) (this y)
}.

(** ** [parseInt] and [parseFloat] *)

Local Open Scope char_scope.

Definition digit_value (c : ascii) : option N :=
  if isDigit c then Some (code c - 48)%N
  else if in_range 97 122 c then Some (code c - 87)%N
  else if in_range 65 90 c then Some (code c - 55)%N
  else None.

Definition isDigitIn (radix : N) (c : ascii) : bool :=
  match digit_value c with
  | Some v => (v <? radix)%N
  | None => false
  end.

Definition digits_value (radix : N) (ds : jsstring) : N :=
  fold_left
    (fun acc c => (acc * radix + match digit_value c with Some v => v | None => 0 end)%N)
    ds 0%N.

Definition strip_sign (s : jsstring) : bool * jsstring :=
  match s with
  | c :: t =>
      if is_char "-" c then (true, t)
      else if is_char "+" c then (false, t)
      else (false, s)
  | [] => (false, [])
  end.

(** [parseInt(s)] with no radix argument; [None] is [NaN].  A [0x] prefix
    selects radix 16; the sign of a zero is not kept. *)
Definition parseInt (s : jsstring) : option Z :=
  let '(neg, s1) := strip_sign (dropWhile isSpace s) in
  let '(radix, s2) :=
    match s1 with
    | z :: x :: t =>
        if is_char "0" z && (is_char "x" x || is_char "X" x)
        then (16%N, t) else (10%N, s1)
    | _ => (10%N, s1)
    end in
  match takeWhile (isDigitIn radix) s2 with
  | [] => None
  | ds =>
      let v := Z.of_N (digits_value radix ds) in
      Some (if neg then (- v)%Z else v)
  end.

(** [m * 10^e10], rounded to binary64. *)
Definition decimal_to_float (neg : bool) (m : N) (e10 : Z) : float :=
  match m with
  | N0 => if neg then PrimFloat.neg_zero else PrimFloat.zero
  | Npos p =>
      SF2Prim
        match e10 with
        | Zneg k =>
            SFdiv prec emax (S754_finite neg p 0)
                  (S754_finite false (Pos.pow 10 k) 0)
        | _ => binary_round prec emax neg (p * Z.to_pos (10 ^ e10)) 0
        end
  end.

(** The exponent part [e[+-]digits] of a decimal literal, if present. *)
Definition exponent_part (s : jsstring) : Z :=
  match s with
  | e :: t =>
      if is_char "e" e || is_char "E" e then
        let '(neg, t1) := strip_sign t in
        match takeWhile isDigit t1 with
        | [] => 0%Z
        | ds =>
            let v := Z.of_N (digits_value 10 ds) in
            if neg then (- v)%Z else v
        end
      else 0%Z
  | [] => 0%Z
  end.

(** [parseFloat(s)]: the longest prefix that is a decimal literal. *)
Definition parseFloat (s : jsstring) : float :=
  let '(neg, s1) := strip_sign (dropWhile isSpace s) in
  if startsWith s1 (txt "Infinity")
  then (if neg then PrimFloat.neg_infinity else PrimFloat.infinity)
  else
    let ip := takeWhile isDigit s1 in
    let r1 := skipn (length ip) s1 in
    let '(fp, r2) :=
      match r1 with
      | c :: t =>
          if is_char "." c
          then (takeWhile isDigit t, skipn (length (takeWhile isDigit t)) t)
          else ([], r1)
      | [] => ([], r1)
      end in
    match ip ++ fp with
    | [] => PrimFloat.nan
    | ds =>
        decimal_to_float neg (digits_value 10 ds)
                         (exponent_part r2 - Z.of_nat (length fp))
    end.

Local Close Scope char_scope.

(** ** [Array.prototype.sort]

    [gt a b] is the test [comparefn(a, b) > 0] (false when the comparator
    returns [NaN], which the sort reads as [+0]).  The sort is stable
    (ECMAScript 2019); for a consistent comparator the result is the one
    stable ordering, computed here by insertion. *)

Section Sort.
Context {A : Type} (gt : A -> A -> bool).

Fixpoint insert (x : A) (l : list A) : list A :=
  match l with
  | [] => [x]
  | y :: l' => if gt x y then y :: insert x l' else x :: l
  end.

Fixpoint sort (l : list A) : list A :=
  match l with
  | [] => []
  | x :: l' => insert x (sort l')
  end.

End Sort.

(** On the elements of [l] the comparator is the comparison of an integer
    rank: [comparefn(a, b) > 0] exactly when [a] ranks above [b]. *)
Definition RankedOn {A} (gt : A -> A -> bool) (rank : A -> Z) (l : list A) : Prop :=
  forall a b, In a l -> In b l -> gt a b = (rank b <? rank a)%Z.

(** ** JSON values *)

Inductive json : Type :=
| JNull
| JBool (b : bool)
| JNum (x : float)
| JStr (s : jsstring)
| JArr (items : list json)
| JObj (fields : list (jsstring * json)).

Fixpoint assoc {V} (k : jsstring) (l : list (jsstring * V)) : option V :=
  match l with
  | [] => None
  | (k', v) :: l' => if list_eq_dec ascii_dec k k' then Some v else assoc k l'
  end.

(** [v.name] for a value produced by [JSON.parse] and a property name that
    is no array index or [length]: a [TypeError] on [null], [undefined]
    ([None]) on anything that is not an object holding the key. *)
Definition get_prop (v : json) (name : jsstring) : result (option json) :=
  match v with
  | JNull => Throw "TypeError: Cannot read properties of null"
  | JObj fields => Ok (assoc name fields)
  | _ => Ok None
  end.

End Js.

(* ================================================================== *)
(** * The host *)
(* ================================================================== *)

Import Js.

Class Host : Type := {
  (** [new Date(s).getTime()]; [None] is the Invalid Date *)
  Date_parse : jsstring -> option Z;
  (** [new Date(year, month, day).getTime()] on finite arguments *)
  Date_fromYMD : Z -> Z -> Z -> option Z;
  (** [date.toISOString()] of a date with this time value *)
  Date_toISOString : Z -> jsstring;
  (** [(await ai.models.generateContent({model, contents})).text] *)
  generateContent : jsstring -> result (option jsstring);
  (** [JSON.parse] *)
  JSON_parse : jsstring -> result json;
  (** [new RegExp(source)], as the predicate its [test] decides *)
  RegExp_new : jsstring -> result (jsstring -> bool)
}.

(* ================================================================== *)
(** * utils/pdfParser.ts: the transaction recognizer *)
(* ================================================================== *)

Module PdfParser.

Local Open Scope string_scope.

Inductive TxType : Type := debit | credit.

(** [category] and [confidence] hold whatever the AI answer carried
    ([None] is [undefined]); [currency] only exists on the records of the
    AI extraction variant and is never set by the recognizer. *)
Record ParsedTransaction : Type := {
  date : jsstring;
  description : jsstring;
  amount : float;
  balance : option float;
  type : TxType;
  category : option json;
  confidence : option json;
  currency : option jsstring
}.

Record BankStatementData : Type := {
  bankName : jsstring;
  accountNumber : jsstring;
  statementPeriod : jsstring;
  transactions : list ParsedTransaction;
  openingBalance : option float;
  closingBalance : option float
}.

(** *** The patterns of [BANK_PATTERNS.generic] and of the windowed scan *)

Infix "+++" := Cat (at level 60, right associativity).

Definition slashDash (c : ascii) : bool := is_char "/" c || is_char "-" c.

(** [[\-\$\d,\.]] *)
Definition amountChar (c : ascii) : bool :=
  is_char "-" c || is_char "$" c || isDigit c || is_char "," c || is_char "." c.

(** [[\$\d,\.]] *)
Definition balanceChar (c : ascii) : bool :=
  is_char "$" c || isDigit c || is_char "," c || is_char "." c.

(** [[\$,]] *)
Definition dollarComma (c : ascii) : bool := is_char "$" c || is_char "," c.

(** [[\-\$]] *)
Definition dashDollar (c : ascii) : bool := is_char "-" c || is_char "$" c.

(** [[\d,]] *)
Definition digitComma (c : ascii) : bool := isDigit c || is_char "," c.

(** [(\d{1,2}[\/\-]\d{1,2}[\/\-]\d{2,4})] *)
Definition datePattern : regex :=
  Grp (Rep isDigit 1 (Some 2) false +++ Chr slashDash +++
       Rep isDigit 1 (Some 2) false +++ Chr slashDash +++
       Rep isDigit 2 (Some 4) false).

(** [/(\d{1,2}[\/\-]\d{1,2}[\/\-]\d{2,4})\s+(.+?)\s+([\-\$\d,\.]+)(?:\s+([\$\d,\.]+))?/g];
    the [g] flag is part of the literal and decides how [match] answers. *)
Definition transactionPattern : regex :=
  datePattern +++ Rep isSpace 1 None false +++
  Grp (Rep isDot 1 None true) +++ Rep isSpace 1 None false +++
  Grp (Rep amountChar 1 None false) +++
  Opt (Rep isSpace 1 None false +++ Grp (Rep balanceChar 1 None false)).

(** [/([\-\$]?[\d,]+\.[\d]{2})/g] *)
Definition amountToken : regex :=
  Grp (Rep dashDollar 0 (Some 1) false +++ Rep digitComma 1 None false +++
       Chr (is_char ".") +++ Rep isDigit 2 (Some 2) false).

(** [s.replace(/[\$,]/g, "")] *)
Definition stripMoney (s : jsstring) : jsstring :=
  replace_global (Chr dollarComma) [] s.

(** *** [categorizeTransaction]: the keyword classifier *)

Definition any_of (desc : jsstring) (keywords : list string) : bool :=
  existsb (fun k => includes desc (txt k)) keywords.

Definition categorizeTransaction (description : jsstring) : jsstring :=
  let desc := toLowerCase description in
  if any_of desc ["deposit"; "salary"; "payroll"; "direct dep"] then txt "Income"
  else if any_of desc ["grocery"; "food"; "restaurant"; "dining"] then txt "Food & Dining"
  else if any_of desc ["gas"; "fuel"; "transport"; "uber"; "lyft"] then txt "Transportation"
  else if any_of desc ["atm"; "withdrawal"] then txt "Cash & ATM"
  else if any_of desc ["transfer"] then txt "Transfers"
  else if any_of desc ["fee"; "charge"] then txt "Fees & Charges"
  else if any_of desc ["payment"; "bill"; "utility"; "electric"; "water"; "internet"]
       then txt "Bills & Utilities"
  else if any_of desc ["shopping"; "store"; "amazon"; "walmart"; "target"] then txt "Shopping"
  else if any_of desc ["medical"; "pharmacy"; "doctor"; "hospital"] then txt "Healthcare"
  else txt "Other".

Section WithHost.
Context `{Host}.

(** *** The AI helpers *)

(** [callAI]: an empty or missing answer is an error; the [catch] logs and
    rethrows. *)
Definition callAI (prompt : jsstring) : result jsstring :=
  try_catch
    (content <- generateContent prompt ;;
     match content with
     | Some (c :: s) => Ok (c :: s)
     | _ => Throw "No response from AI API"
     end)
    (fun error => Throw error).

Definition categorizeTransactionAI (description : jsstring) : result json :=
  response <- callAI (txt "Categorize this transaction description: " ++ dquote ++
                      description ++ dquote ++
                      txt ". Return the category (like Food, Travel, Income) and confidence score between 0 and 1 as JSON.")%list ;;
  JSON_parse response.

(** The [try]/[catch] around the AI call, then the two property reads of
    the object literal pushed by the caller (outside the [try]). *)
Definition categoryInfo (description : jsstring)
    : result (option json * option json) :=
  match categorizeTransactionAI description with
  | Ok info =>
      cat <- get_prop info (txt "category") ;;
      conf <- get_prop info (txt "confidence") ;;
      Ok (cat, conf)
  | Throw _ =>
      Ok (Some (JStr (categorizeTransaction description)), Some (JNum 0.5%float))
  end.

(** *** [normalizeDate] *)

(** [date.toISOString().split("T")[0]] *)
Definition isoDate (t : Z) : jsstring :=
  hd [] (split (is_char "T") (Date_toISOString t)).

(** [new Date(year, month, day)] when an argument may be [NaN]. *)
Definition newDate (year month day : option Z) : option Z :=
  match year, month, day with
  | Some y, Some m, Some d => Date_fromYMD y m d
  | _, _, _ => None
  end.

(** The second attempt: [parsedDate.getTime()] of the date built from the
    three parts, [None] when there are not three parts or the date is
    invalid. *)
Definition fromParts (dateStr : jsstring) : option Z :=
  match split slashDash dateStr with
  | [p0; p1; p2] =>
      let yearPart := parseInt p2 in
      let yearPart :=
        option_map
          (fun y => if (y <? 100)%Z
                    then (y + (if (y <? 50)%Z then 2000 else 1900))%Z
                    else y)
          yearPart in
      let month := option_map (fun m => (m - 1)%Z) (parseInt p0) in
      let day := parseInt p1 in
      let year := yearPart in
      newDate year month day
  | _ => None
  end.

(** Neither constructor throws and [toISOString] is only called on a valid
    date, so the [catch] is never entered. *)
Definition normalizeDate (dateStr : jsstring) : jsstring :=
  match Date_parse dateStr with
  | Some t => isoDate t
  | None =>
      match fromParts dateStr with
      | Some t => isoDate t
      | None => dateStr
      end
  end.

(** *** The final sort: [(a, b) => new Date(a.date).getTime() - new Date(b.date).getTime()] *)

Definition laterThan (a b : ParsedTransaction) : bool :=
  match Date_parse (date a), Date_parse (date b) with
  | Some ta, Some tb => (0 <? ta - tb)%Z
  | _, _ => false
  end.

Definition sortByDate (l : list ParsedTransaction) : list ParsedTransaction :=
  sort laterThan l.

(** *** The primary (line-pattern) strategy *)

(** A destructured element that passes the [!x] guard: defined and not
    the empty string. *)
Definition present (x : option jsstring) : option jsstring :=
  match x with
  | Some (c :: s) => Some (c :: s)
  | _ => None
  end.

(** The body of the [for (const line of lines)] loop:
    [const [, date, description, amount, balance] = match] reads the
    elements 1 to 4 of the array [match] returned. *)
Definition primaryLine (line : jsstring) : result (list ParsedTransaction) :=
  match match_global transactionPattern line with
  | [] => Ok []
  | m =>
      match present (nth_error m 1), present (nth_error m 2),
            present (nth_error m 3) with
      | Some date, Some description, Some amount =>
          let cleanAmountStr := stripMoney amount in
          let cleanAmount := parseFloat cleanAmountStr in
          let cleanBalance :=
            option_map (fun b => parseFloat (stripMoney b))
                       (present (nth_error m 4)) in
          if PrimFloat.is_nan cleanAmount then Ok []
          else
            info <- categoryInfo description ;;
            Ok [ {| date := normalizeDate date;
                    description := trim description;
                    amount := PrimFloat.abs cleanAmount;
                    balance := cleanBalance;
                    type := if PrimFloat.ltb cleanAmount 0 then debit else credit;
                    category := fst info;
                    confidence := snd info;
                    currency := None |} ]
      | _, _, _ => Ok []
      end
  end.

Fixpoint primaryLines (lines : list jsstring) : result (list ParsedTransaction) :=
  match lines with
  | [] => Ok []
  | line :: rest =>
      ts <- primaryLine line ;;
      more <- primaryLines rest ;;
      Ok (ts ++ more)%list
  end.

(** *** The alternative (windowed) strategy *)

(** The inner loop over [lines[i + j]], [j < 3]: description, amount and
    balance when it ends. *)
Fixpoint lookahead (dateMatch0 description : jsstring) (window : list jsstring)
    : jsstring * float * option float :=
  match window with
  | [] => (description, 0%float, None)
  | currentLine :: window' =>
      match match_global amountToken currentLine with
      | a0 :: more =>
          (trim (replace_first dateMatch0 []
                   (replace_global amountToken [] currentLine)),
           parseFloat (stripMoney a0),
           match more with
           | a1 :: _ => Some (parseFloat (stripMoney a1))
           | [] => None
           end)
      | [] =>
          lookahead dateMatch0
            (description ++ txt " " ++ trim (replace_first dateMatch0 [] currentLine))%list
            window'
      end
  end.

(** The body of the outer loop at index [i]; [from_i] is [lines.slice(i)].
    Group 1 of the date pattern spans the whole match. *)
Definition alternativeAt (from_i : list jsstring) : result (list ParsedTransaction) :=
  match from_i with
  | [] => Ok []
  | line_i :: _ =>
      match match_first datePattern (trim line_i) with
      | None => Ok []
      | Some date =>
          let '(description, amount, balance) := lookahead date [] (firstn 3 from_i) in
          if negb (PrimFloat.is_nan amount) && negb (PrimFloat.eqb amount 0)
             && negb (match trim description with [] => true | _ => false end)
          then
            info <- categoryInfo description ;;
            Ok [ {| date := normalizeDate date;
                    description := trim description;
                    amount := PrimFloat.abs amount;
                    balance := balance;
                    type := if PrimFloat.ltb amount 0 then debit else credit;
                    category := fst info;
                    confidence := snd info;
                    currency := None |} ]
          else Ok []
      end
  end.

Fixpoint alternativeLines (lines : list jsstring) : result (list ParsedTransaction) :=
  match lines with
  | [] => Ok []
  | line :: rest =>
      ts <- alternativeAt (line :: rest) ;;
      more <- alternativeLines rest ;;
      Ok (ts ++ more)%list
  end.

Definition lines_of (text : jsstring) : list jsstring := split (is_char "010") text.

Definition parseTransactionsAlternative (text : jsstring)
    : result (list ParsedTransaction) :=
  transactions <- alternativeLines (lines_of text) ;;
  Ok (sortByDate transactions).

(** [parseTransactions(text, columns)]; [columns] is not read. *)
Definition parseTransactions (text : jsstring) : result (list ParsedTransaction) :=
  transactions <- primaryLines (lines_of text) ;;
  match transactions with
  | [] => parseTransactionsAlternative text
  | _ => Ok (sortByDate transactions)
  end.







End WithHost.
End PdfParser.

(* ================================================================== *)
(** * The Excel exporter: the category-feedback hook *)
(* ================================================================== *)

Module ExcelExporter.
Section WithHost.
Context `{Host}.

(** The exporter declares its own copy of [callAI]. *)
Definition callAI (prompt : jsstring) : result jsstring :=
  try_catch
    (content <- generateContent prompt ;;
     match content with
     | Some (c :: s) => Ok (c :: s)
     | _ => Throw "No response from AI API"
     end)
    (fun error => Throw error).




End WithHost.
End ExcelExporter.

(* ================================================================== *)
(** * utils/code.ts: the template service *)
(* ================================================================== *)

Module TemplateService.

Record TransactionIndicators : Type := {
  creditKeywords : list jsstring;
  debitKeywords : list jsstring
}.

(** [accountNumberPattern] is the one pattern the service tests; it is
    built by [new RegExp] and kept as the predicate its [test] decides.  The
    other pattern fields are stored and never read: they keep their source
    text. *)
Record Parsing : Type := {
  dateFormats : list jsstring;
  amountPatterns : list jsstring;
  descriptionPatterns : list jsstring;
  balancePatterns : list jsstring;
  accountNumberPattern : jsstring -> bool;
  statementPeriodPattern : jsstring;
  transactionIndicators : TransactionIndicators
}.

Record AiInstructions : Type := {
  extractionPrompt : jsstring;
  validationRules : list jsstring;
  categoryMappings : list (jsstring * json)
}.

Record Metadata (num : Type) : Type := {
  supportedFormats : list jsstring;
  language : jsstring;
  region : jsstring;
  currency : jsstring;
  avgAccuracy : num;
  sampleStatements : list jsstring
}.
Arguments supportedFormats {num}.
Arguments language {num}.
Arguments region {num}.
Arguments currency {num}.
Arguments avgAccuracy {num}.
Arguments sampleStatements {num}.

Record BankTemplate (num : Type) : Type := {
  id : jsstring;
  bankName : jsstring;
  templateName : jsstring;
  version : jsstring;
  createdAt : Z;
  updatedAt : Z;
  createdBy : jsstring;
  usageCount : Z;
  isVerified : bool;
  parsing : Parsing;
  aiInstructions : AiInstructions;
  metadata : Metadata num
}.
Arguments id {num}.
Arguments bankName {num}.
Arguments templateName {num}.
Arguments version {num}.
Arguments createdAt {num}.
Arguments updatedAt {num}.
Arguments createdBy {num}.
Arguments usageCount {num}.
Arguments isVerified {num}.
Arguments parsing {num}.
Arguments aiInstructions {num}.
Arguments metadata {num}.

Record TemplateMatchResult (num : Type) : Type := {
  template : BankTemplate num;
  confidence : num;
  matchedFeatures : list jsstring
}.
Arguments template {num}.
Arguments confidence {num}.
Arguments matchedFeatures {num}.

(** The two persistence methods only log; the calls are recorded. *)
Inductive DbCall : Type :=
| SavedTemplate (id : jsstring)
| UpdatedTemplateInDB (id : jsstring).

(** [templates] is a [Map]: iteration follows the order in which the keys
    were first set. *)
Record Service (num : Type) : Type := {
  templates : list (jsstring * BankTemplate num);
  dbCalls : list DbCall
}.
Arguments templates {num}.
Arguments dbCalls {num}.

(** What one call of [createTemplateFromAI] reads from the clock and from
    [Math.random().toString(36)]. *)
Record Entropy : Type := {
  Date_now : Z;
  random36 : jsstring;
  createdNow : Z;
  updatedNow : Z
}.

Fixpoint Map_set {V} (k : jsstring) (v : V) (m : list (jsstring * V))
    : list (jsstring * V) :=
  match m with
  | [] => [(k, v)]
  | (k', v') :: m' =>
      if list_eq_dec ascii_dec k k' then (k', v) :: m'
      else (k', v') :: Map_set k v m'
  end.

Definition Map_get {V} (k : jsstring) (m : list (jsstring * V)) : option V :=
  assoc k m.

Definition Map_values {V} (m : list (jsstring * V)) : list V := map snd m.

Local Open Scope string_scope.

(** [/\d{1,2}\/\d{1,2}\/\d{4}/] *)
Definition slashDate : regex :=
  Cat (Rep isDigit 1 (Some 2) false)
   (Cat (Chr (is_char "/"))
    (Cat (Rep isDigit 1 (Some 2) false)
     (Cat (Chr (is_char "/")) (Rep isDigit 4 (Some 4) false)))).

(** [/\d{4}-\d{1,2}-\d{1,2}/] *)
Definition isoLikeDate : regex :=
  Cat (Rep isDigit 4 (Some 4) false)
   (Cat (Chr (is_char "-"))
    (Cat (Rep isDigit 1 (Some 2) false)
     (Cat (Chr (is_char "-")) (Rep isDigit 1 (Some 2) false)))).

(** [patterns[format] || patterns["MM/DD/YYYY"]] over the three keys of
    the literal. *)
Definition dateFormatToRegex (format : jsstring) : regex :=
  if list_eq_dec ascii_dec format (txt "MM/DD/YYYY") then slashDate
  else if list_eq_dec ascii_dec format (txt "DD/MM/YYYY") then slashDate
  else if list_eq_dec ascii_dec format (txt "YYYY-MM-DD") then isoLikeDate
  else slashDate.

(** [/\d{4,}/g] *)
Definition longNumber : regex := Rep isDigit 4 None false.

Definition upperOrDigit (c : ascii) : bool := isUpper c || isDigit c.

(** [/[A-Z]{2}\d{2}[A-Z\d]+/g] *)
Definition accountLike : regex :=
  Cat (Rep isUpper 2 (Some 2) false)
   (Cat (Rep isDigit 2 (Some 2) false) (Rep upperOrDigit 1 None false)).

Definition anonymizeStatement (text : jsstring) : jsstring :=
  substring0 500
    (replace_global accountLike (txt "XXXXXXXX")
       (replace_global longNumber (txt "XXXX") text)).

Definition detectDateFormats : list jsstring :=
  [txt "MM/DD/YYYY"; txt "DD/MM/YYYY"; txt "YYYY-MM-DD"].

Definition detectAmountPatterns : list jsstring :=
  [txt "/\$?([\d,]+\.?\d{0,2})/g"; txt "/€([\d,]+\.?\d{0,2})/g";
   txt "/£([\d,]+\.?\d{0,2})/g"].

Definition detectDescriptionPatterns : list jsstring := [txt "/^[A-Z\s\d\-\.]+$/"].

Definition detectRegion : jsstring := txt "US".

(** [transactions[0]?.currency || "USD"] *)
Definition detectCurrency (transactions : list PdfParser.ParsedTransaction) : jsstring :=
  match transactions with
  | t :: _ =>
      match PdfParser.currency t with
      | Some (c :: s) => c :: s
      | _ => txt "USD"
      end
  | [] => txt "USD"
  end.

(** [s.replace(/\d/g, w)] *)
Definition replaceDigits (w s : jsstring) : jsstring :=
  replace_global (Chr isDigit) w s.

Definition nl : jsstring := ["010"%char].

Definition generateExtractionPrompt (data : PdfParser.BankStatementData) : jsstring :=
  (nl ++ txt "      Extract bank statement data for " ++ PdfParser.bankName data ++
   txt ". " ++ nl ++
   txt "      Expected format includes account number pattern similar to " ++
   replaceDigits (txt "X") (PdfParser.accountNumber data) ++ txt "." ++ nl ++
   txt "      Statement period format: " ++ PdfParser.statementPeriod data ++
   txt "." ++ nl ++
   txt "      Typical transaction count: " ++
   Z_to_jsstring (Z.of_nat (length (PdfParser.transactions data))) ++ txt "." ++ nl ++
   txt "    ")%list.

Definition generateValidationRules (data : PdfParser.BankStatementData)
    : list jsstring :=
  [ (txt "Bank name should be " ++ dquote ++ PdfParser.bankName data ++ dquote)%list;
    (txt "Account number should match pattern: " ++
     replaceDigits (txt "X") (PdfParser.accountNumber data))%list;
    txt "Transactions should have dates in statement period";
    txt "All amounts should be positive numbers";
    txt "Transaction types should be either 'credit' or 'debit'" ].

(** The truth value of an optional JSON value. *)
Definition truthy (v : option json) : bool :=
  match v with
  | None | Some JNull => false
  | Some (JBool b) => b
  | Some (JNum x) => negb (PrimFloat.is_nan x || PrimFloat.eqb x 0)
  | Some (JStr s) => match s with [] => false | _ => true end
  | Some (JArr _) | Some (JObj _) => true
  end.

Definition generateCategoryMappings (transactions : list PdfParser.ParsedTransaction)
    : list (jsstring * json) :=
  fold_left
    (fun mappings t =>
       match PdfParser.category t, PdfParser.description t with
       | Some c, _ :: _ =>
           if truthy (Some c)
           then Map_set (substring0 20 (toLowerCase (PdfParser.description t))) c mappings
           else mappings
       | _, _ => mappings
       end)
    transactions [].

(** [`template_${Date.now()}_${Math.random().toString(36).substr(2, 9)}`] *)
Definition generateTemplateId (e : Entropy) : jsstring :=
  (txt "template_" ++ Z_to_jsstring (Date_now e) ++ txt "_" ++
   firstn 9 (skipn 2 (random36 e)))%list.

Section WithHost.
Context `{Host} {num : Type} `{Number num}.

Local Open Scope num_scope.

Definition extractParsingPatterns (text : jsstring) (data : PdfParser.BankStatementData)
    : result Parsing :=
  accountTest <- RegExp_new (replaceDigits (txt "\d") (PdfParser.accountNumber data)) ;;
  Ok {| dateFormats := detectDateFormats;
        amountPatterns := detectAmountPatterns;
        descriptionPatterns := detectDescriptionPatterns;
        balancePatterns := [txt "/balance.*?[\$\€\£]?([\d,]+\.?\d*)/gi"];
        accountNumberPattern := accountTest;
        statementPeriodPattern :=
          txt "/statement period.*?(\d{1,2}\/\d{1,2}\/\d{4}).*?(\d{1,2}\/\d{1,2}\/\d{4})/gi";
        transactionIndicators :=
          {| creditKeywords :=
               [txt "deposit"; txt "credit"; txt "transfer in"; txt "salary"; txt "refund"];
             debitKeywords :=
               [txt "withdrawal"; txt "debit"; txt "purchase"; txt "payment"; txt "fee"] |} |}.

Definition saveTemplate (t : BankTemplate num) (s : Service num) : Service num :=
  {| templates := templates s; dbCalls := (dbCalls s ++ [SavedTemplate (id t)])%list |}.

Definition updateTemplateInDB (t : BankTemplate num) (s : Service num) : Service num :=
  {| templates := templates s; dbCalls := (dbCalls s ++ [UpdatedTemplateInDB (id t)])%list |}.

(** [fetchTemplatesFromDB] returns the empty array. *)
Definition fetchTemplatesFromDB : list (BankTemplate num) := [].

Definition loadTemplates (s : Service num) : Service num :=
  fold_left
    (fun s t => {| templates := Map_set (id t) t (templates s); dbCalls := dbCalls s |})
    fetchTemplatesFromDB s.

Definition createTemplateFromAI (bankStatementData : PdfParser.BankStatementData)
    (originalText userId : jsstring) (e : Entropy) (s : Service num)
    : result (BankTemplate num * Service num) :=
  patterns <- extractParsingPatterns originalText bankStatementData ;;
  let template :=
    {| id := generateTemplateId e;
       bankName := PdfParser.bankName bankStatementData;
       templateName := (PdfParser.bankName bankStatementData ++ txt " - Auto Generated")%list;
       version := txt "1.0.0";
       createdAt := createdNow e;
       updatedAt := updatedNow e;
       createdBy := userId;
       usageCount := 1;
       isVerified := false;
       parsing := patterns;
       aiInstructions :=
         {| extractionPrompt := generateExtractionPrompt bankStatementData;
            validationRules := generateValidationRules bankStatementData;
            categoryMappings :=
              generateCategoryMappings (PdfParser.transactions bankStatementData) |};
       metadata :=
         {| supportedFormats := [txt "pdf"];
            language := txt "en";
            region := detectRegion;
            currency := detectCurrency (PdfParser.transactions bankStatementData);
            avgAccuracy := lit (85 # 100);
            sampleStatements := [anonymizeStatement originalText] |} |} in
  let s := saveTemplate template s in
  Ok (template,
      {| templates := Map_set (id template) template (templates s);
         dbCalls := dbCalls s |}).

(** [updateTemplateMetrics(templateId, accuracy)] at clock reading [now]. *)
Definition updateTemplateMetrics (templateId : jsstring) (accuracy : num) (now : Z)
    (s : Service num) : Service num :=
  match Map_get templateId (templates s) with
  | None => s
  | Some template =>
      let usageCount' := (usageCount template + 1)%Z in
      let avgAccuracy' :=
        (avgAccuracy (metadata template) * of_Z (usageCount' - 1) + accuracy)
        / of_Z usageCount' in
      let isVerified' :=
        if (10 <=? usageCount')%Z && (avgAccuracy' >=? lit (9 # 10))
        then true else isVerified template in
      let template' :=
        {| id := id template;
           bankName := bankName template;
           templateName := templateName template;
           version := version template;
           createdAt := createdAt template;
           updatedAt := now;
           createdBy := createdBy template;
           usageCount := usageCount';
           isVerified := isVerified';
           parsing := parsing template;
           aiInstructions := aiInstructions template;
           metadata :=
             {| supportedFormats := supportedFormats (metadata template);
                language := language (metadata template);
                region := region (metadata template);
                currency := currency (metadata template);
                avgAccuracy := avgAccuracy';
                sampleStatements := sampleStatements (metadata template) |} |} in
      let s := updateTemplateInDB template' s in
      {| templates := Map_set templateId template' (templates s);
         dbCalls := dbCalls s |}
  end.

Definition hasKeyword (statementText : jsstring) (keywords : list jsstring) : bool :=
  existsb (fun keyword => includes (toLowerCase statementText) (toLowerCase keyword))
          keywords.

Definition calculateTemplateMatch (statementText : jsstring) (template : BankTemplate num)
    : num :=
  let score := of_Z 0 in
  let maxScore := of_Z 0 in
  let maxScore := maxScore + of_Z 30 in
  let score :=
    if includes (toLowerCase statementText) (toLowerCase (bankName template))
    then score + of_Z 30 else score in
  let maxScore := maxScore + of_Z 20 in
  let score :=
    if accountNumberPattern (parsing template) statementText
    then score + of_Z 20 else score in
  let maxScore := maxScore + of_Z 25 in
  let dateMatches :=
    existsb (fun format => test (dateFormatToRegex format) statementText)
            (dateFormats (parsing template)) in
  let score := if dateMatches then score + of_Z 25 else score in
  let maxScore := maxScore + of_Z 25 in
  let hasCredits :=
    hasKeyword statementText (creditKeywords (transactionIndicators (parsing template))) in
  let hasDebits :=
    hasKeyword statementText (debitKeywords (transactionIndicators (parsing template))) in
  let score :=
    if hasCredits && hasDebits then score + of_Z 25
    else if hasCredits || hasDebits then score + of_Z 15
    else score in
  if maxScore >? of_Z 0 then score / maxScore else of_Z 0.

Definition getMatchedFeatures (statementText : jsstring) (template : BankTemplate num)
    : list jsstring :=
  ((if includes (toLowerCase statementText) (toLowerCase (bankName template))
    then [txt "Bank Name"] else []) ++
   (if accountNumberPattern (parsing template) statementText
    then [txt "Account Number Format"] else []))%list.

(** The candidates pushed by the loop over [this.templates.values()]. *)
Definition candidatesFor (statementText : jsstring) (s : Service num)
    : list (TemplateMatchResult num) :=
  flat_map
    (fun template =>
       let confidence := calculateTemplateMatch statementText template in
       if confidence >? lit (3 # 10)
       then [ {| template := template;
                 confidence := confidence;
                 matchedFeatures := getMatchedFeatures statementText template |} ]
       else [])
    (Map_values (templates s)).

(** [candidates.sort((a, b) => b.confidence - a.confidence)[0] || null] *)
Definition findBestTemplate (statementText : jsstring) (s : Service num)
    : option (TemplateMatchResult num) :=
  hd_error
    (sort (fun a b => (confidence b - confidence a) >? of_Z 0)
          (candidatesFor statementText s)).

(** [Array.from(this.templates.values()).sort((a, b) => b.usageCount - a.usageCount)] *)
Definition getAvailableTemplates (s : Service num) : list (BankTemplate num) :=
  sort (fun a b => (0 <? usageCount b - usageCount a)%Z) (Map_values (templates s)).

Definition getTemplatesByBank (name : jsstring) (s : Service num)
    : list (BankTemplate num) :=
  sort (fun a b => (avgAccuracy (metadata b) - avgAccuracy (metadata a)) >? of_Z 0)
       (filter (fun template =>
                  includes (toLowerCase (bankName template)) (toLowerCase name))
               (Map_values (templates s))).

(** The operations the service offers, with their inputs. *)
Inductive Op : Type :=
| OpLoadTemplates
| OpGetAvailableTemplates
| OpGetTemplatesByBank (name : jsstring)
| OpFindBestTemplate (statementText : jsstring)
| OpCreateTemplateFromAI (data : PdfParser.BankStatementData)
    (originalText userId : jsstring) (e : Entropy)
| OpUpdateTemplateMetrics (templateId : jsstring) (accuracy : num) (now : Z).

(** The catalogue after one operation; a [createTemplateFromAI] that throws
    leaves it as it was. *)
Definition step (s : Service num) (op : Op) : Service num :=
  match op with
  | OpLoadTemplates => loadTemplates s
  | OpGetAvailableTemplates => s
  | OpGetTemplatesByBank _ => s
  | OpFindBestTemplate _ => s
  | OpCreateTemplateFromAI data text user e =>
      match createTemplateFromAI data text user e s with
      | Ok (_, s') => s'
      | Throw _ => s
      end
  | OpUpdateTemplateMetrics templateId accuracy now =>
      updateTemplateMetrics templateId accuracy now s
  end.

Definition run (ops : list Op) (s : Service num) : Service num :=
  fold_left step ops s.

(** Calls of [updateTemplateMetrics] on one template, each with its observed
    accuracy and clock reading. *)
Definition updates (templateId : jsstring) (calls : list (num * Z)) : list Op :=
  map (fun c => OpUpdateTemplateMetrics templateId (fst c) (snd c)) calls.


End WithHost.

(** The four signals of [calculateTemplateMatch]. *)
Record Signals : Type := {
  bankNameFound : bool;
  accountNumberFound : bool;
  dateFormatFound : bool;
  creditWordFound : bool;
  debitWordFound : bool
}.

Definition signalsOf {num} (statementText : jsstring) (template : BankTemplate num)
    : Signals :=
  {| bankNameFound :=
       includes (toLowerCase statementText) (toLowerCase (bankName template));
     accountNumberFound := accountNumberPattern (parsing template) statementText;
     dateFormatFound :=
       existsb (fun format => test (dateFormatToRegex format) statementText)
               (dateFormats (parsing template));
     creditWordFound :=
       hasKeyword statementText
         (creditKeywords (transactionIndicators (parsing template)));
     debitWordFound :=
       hasKeyword statementText
         (debitKeywords (transactionIndicators (parsing template))) |}.

(** The points a set of signals earns, out of 100. *)
Definition points (g : Signals) : Z :=
  (if bankNameFound g then 30 else 0) +
  (if accountNumberFound g then 20 else 0) +
  (if dateFormatFound g then 25 else 0) +
  (if creditWordFound g && debitWordFound g then 25
   else if creditWordFound g || debitWordFound g then 15 else 0).



End TemplateService.

(* ================================================================== *)
(** * A reference host

    One host that ECMA-262 allows, used to run the code on concrete
    inputs.  Its [Date] parser reads the date-only ISO form (as UTC) and the
    US numeric form [M/D/YYYY] (as local time) and rejects every other
    string; local time is UTC plus [tz] minutes.  The AI service is
    unreachable, [JSON.parse] is never reached, and the [RegExp] constructor
    takes sources made of [\d] and of letters, digits and spaces. *)
(* ================================================================== *)

Module RefHost.

Local Open Scope Z_scope.

Definition msPerDay : Z := 86400000.

(** The day number within a 400-year era, from the year of the era
    (counted from 1 March), the month and the day. *)
Definition doe_of (yoe m d : Z) : Z :=
  yoe * 365 + yoe / 4 - yoe / 100
  + ((153 * (if 2 <? m then m - 3 else m + 9) + 2) / 5 + d - 1).

(** Days since 1970-01-01 of a proleptic Gregorian date, [m] in 1..12. *)
Definition days_from_civil (y m d : Z) : Z :=
  let y := if m <=? 2 then y - 1 else y in
  let era := y / 400 in
  era * 146097 + doe_of (y - era * 400) m d - 719468.

(** Year of the era (counted from 1 January), month and day of a day
    number within an era. *)
Definition civil_of_doe (doe : Z) : Z * Z * Z :=
  let yoe := (doe - doe / 1460 + doe / 36524 - doe / 146096) / 365 in
  let doy := doe - (365 * yoe + yoe / 4 - yoe / 100) in
  let mp := (5 * doy + 2) / 153 in
  let d := doy - (153 * mp + 2) / 5 + 1 in
  let m := if mp <? 10 then mp + 3 else mp - 9 in
  ((if m <=? 2 then yoe + 1 else yoe), m, d).

Definition civil_from_days (z : Z) : Z * Z * Z :=
  let z := z + 719468 in
  let era := z / 146097 in
  let '(y, m, d) := civil_of_doe (z - era * 146097) in
  (y + era * 400, m, d).

(** [P] holds of the [n] integers from [z] on. *)
Fixpoint all_from (P : Z -> bool) (n : nat) (z : Z) : bool :=
  match n with
  | O => true
  | S n' => P z && all_from P n' (z + 1)
  end.

Definition isLeap (y : Z) : bool :=
  ((y mod 4 =? 0) && negb (y mod 100 =? 0)) || (y mod 400 =? 0).

Definition daysInMonth (y m : Z) : Z :=
  if m =? 2 then (if isLeap y then 29 else 28)
  else if (m =? 4) || (m =? 6) || (m =? 9) || (m =? 11) then 30
  else 31.

Definition inTimeRange (t : Z) : option Z :=
  if (Z.abs t <=? 8640000000000000) then Some t else None.

Definition allDigits (s : jsstring) : bool := forallb isDigit s.

Definition num_of (s : jsstring) : Z := Z.of_N (digits_value 10 s).

Definition validDay (y m d : Z) : bool :=
  (1 <=? m) && (m <=? 12) && (1 <=? d) && (d <=? daysInMonth y m).

(** The sign of an expanded year, if there is one, and the text after it. *)
Definition signedBody (s : jsstring) : option bool * jsstring :=
  match s with
  | c :: t =>
      if is_char "+" c then (Some false, t)
      else if is_char "-" c then (Some true, t)
      else (None, s)
  | [] => (None, s)
  end.

Definition parseIsoBody (sign : option bool) (body : jsstring) : option Z :=
  match split (is_char "-") body with
  | [y; m; d] =>
      let year :=
        match sign with
        | Some true => - num_of y
        | _ => num_of y
        end in
      if allDigits y && allDigits m && allDigits d
         && (length y =? match sign with Some _ => 6 | None => 4 end)%nat
         && (length m =? 2)%nat && (length d =? 2)%nat
         && negb (match sign with Some true => num_of y =? 0 | _ => false end)
         && validDay year (num_of m) (num_of d)
      then inTimeRange (days_from_civil year (num_of m) (num_of d) * msPerDay)
      else None
  | _ => None
  end.

(** The date-only ISO form [YYYY-MM-DD] or [+YYYYYY-MM-DD] / [-YYYYYY-MM-DD]. *)
Definition parseIsoDate (s : jsstring) : option Z :=
  parseIsoBody (fst (signedBody s)) (snd (signedBody s)).

(** The US numeric form [M/D/YYYY], a local time. *)
Definition parseUsDate (tz : Z) (s : jsstring) : option Z :=
  match split (is_char "/") s with
  | [m; d; y] =>
      if allDigits y && allDigits m && allDigits d
         && (length y =? 4)%nat
         && (1 <=? length m)%nat && (length m <=? 2)%nat
         && (1 <=? length d)%nat && (length d <=? 2)%nat
         && validDay (num_of y) (num_of m) (num_of d)
      then inTimeRange (days_from_civil (num_of y) (num_of m) (num_of d) * msPerDay
                        - tz * 60000)
      else None
  | _ => None
  end.

Definition parseDate (tz : Z) (s : jsstring) : option Z :=
  match parseIsoDate s with
  | Some t => Some t
  | None => parseUsDate tz s
  end.

(** [new Date(year, month, day)]: months overflow into years, days into
    months, a year in 0..99 means 1900 + year; the result is a local time. *)
Definition fromYMD (tz : Z) (year month day : Z) : option Z :=
  let year := if (0 <=? year) && (year <=? 99) then 1900 + year else year in
  let ym := year + month / 12 in
  let mn := month mod 12 in
  inTimeRange ((days_from_civil ym (mn + 1) 1 + day - 1) * msPerDay - tz * 60000).

Definition digitChar (v : Z) : ascii := ascii_of_N (48 + Z.to_N v).

(** The last [width] decimal digits of [z]. *)
Fixpoint digitsFixed (width : nat) (z : Z) : jsstring :=
  match width with
  | O => []
  | S w => (digitsFixed w (z / 10) ++ [digitChar (z mod 10)])%list
  end.

(** The date part of [toISOString]: four digits for the years 0 to 9999,
    a sign and six digits for the others. *)
Definition isoDatePart (y m d : Z) : jsstring :=
  ((if (0 <=? y) && (y <=? 9999) then digitsFixed 4 y
    else (if y <? 0 then txt "-" else txt "+") ++ digitsFixed 6 (Z.abs y)) ++
   txt "-" ++ digitsFixed 2 m ++ txt "-" ++ digitsFixed 2 d)%list.

Definition toISOString (t : Z) : jsstring :=
  let day := t / msPerDay in
  let ms := t mod msPerDay in
  let '(y, m, d) := civil_from_days day in
  (isoDatePart y m d ++
   txt "T" ++ digitsFixed 2 (ms / 3600000) ++ txt ":" ++
   digitsFixed 2 (ms / 60000 mod 60) ++ txt ":" ++
   digitsFixed 2 (ms / 1000 mod 60) ++ txt "." ++
   digitsFixed 3 (ms mod 1000) ++ txt "Z")%list.

Definition plainChar (c : ascii) : bool :=
  isDigit c || isUpper c || in_range 97 122 c || is_char " " c.

(** The pattern of a source made of [\d] and plain characters. *)
Fixpoint compile (source : jsstring) : option regex :=
  match source with
  | [] => Some (Rep isDigit 0 (Some 0%nat) false)
  | c :: rest =>
      if is_char "\" c then
        match rest with
        | d :: rest' =>
            if is_char "d" d
            then option_map (Cat (Chr isDigit)) (compile rest')
            else None
        | [] => None
        end
      else if plainChar c
      then option_map (Cat (Chr (is_char c))) (compile rest)
      else None
  end.

Definition newRegExp (source : jsstring) : result (jsstring -> bool) :=
  match compile source with
  | Some r => Ok (test r)
  | None => Throw "SyntaxError: Invalid regular expression"
  end.

Definition host (tz : Z) : Host := {|
  Date_parse := parseDate tz;
  Date_fromYMD := fromYMD tz;
  Date_toISOString := toISOString;
  generateContent := fun _ => Throw "fetch failed";
  JSON_parse := fun _ => Throw "SyntaxError: Unexpected token";
  RegExp_new := newRegExp
|}.

End RefHost.

(* ================================================================== *)
(** * Sample inputs *)
(* ================================================================== *)

Module Sample.
Import TemplateService.

Definition statement : PdfParser.BankStatementData := {|
  PdfParser.bankName := txt "Acme Bank";
  PdfParser.accountNumber := txt "12345678";
  PdfParser.statementPeriod := txt "01/01/2024 - 01/31/2024";
  PdfParser.transactions := [];
  PdfParser.openingBalance := None;
  PdfParser.closingBalance := None
|}.

Definition entropy : Entropy := {|
  Date_now := 1710460800000;
  random36 := txt "0.4fzyo82mvyr";
  createdNow := 1710460800000;
  updatedNow := 1710460800000
|}.

Definition emptyService {num} : Service num := {| templates := []; dbCalls := [] |}.

Definition templateId : jsstring := txt "template_1710460800000_4fzyo82mv".

(** The service after [createTemplateFromAI(statement, "Acme Bank statement", "user-1")]
    on the reference host; a call that throws leaves it empty. *)
Definition serviceWithTemplate {num} `{Number num} : Service num :=
  step (H := RefHost.host 0) emptyService
       (OpCreateTemplateFromAI statement (txt "Acme Bank statement") (txt "user-1") entropy).

(** Nine more uses with accuracy 1 bring the sample template to
    [usageCount = 10] and a mean of 0.985. *)
Definition verifiedService : Service float :=
  run (H := RefHost.host 0) (updates templateId (repeat (1%float, 1710460800001%Z) 9))
      serviceWithTemplate.

Definition laterEntropy : Entropy := {|
  Date_now := 1710460800002;
  random36 := txt "0.k3j9x0q1zab";
  createdNow := 1710460800002;
  updatedNow := 1710460800002
|}.


(** Two templates of the same bank, registered one after the other. *)
Definition twoTemplates : Service float :=
  run (H := RefHost.host 0)
      [ OpCreateTemplateFromAI statement (txt "Acme Bank statement") (txt "user-1") entropy;
        OpCreateTemplateFromAI statement (txt "Acme Bank statement") (txt "user-2") laterEntropy ]
      emptyService.

(** The line of the specification's scenario. *)
Definition starbucksLine : jsstring := txt "03/15/2024 STARBUCKS COFFEE -5.75".

(** Three statement lines, out of date order, two of them of one day. *)
Definition statementText : jsstring :=
  (txt "03/15/2024 STARBUCKS COFFEE -5.75" ++ nl ++
   txt "03/14/2024 DEPOSIT 50.00" ++ nl ++
   txt "03/15/2024 GROCERY 20.00")%list.


End Sample.

(* ================================================================== *)
(** * Regular expressions with capture groups

    The patterns of the statement header carry capture groups,
    alternatives and the end-of-input assertion.  The matcher is the
    backtracking matcher of [Js], with the captures recorded so far passed
    along; a group records the text between the position where it was
    entered and the position where it was left. *)
(* ================================================================== *)

Module Re.

Inductive pattern : Type :=
| Empty
| Class (p : ascii -> bool)
| Repeat (p : ascii -> bool) (lo : nat) (hi : option nat) (lazy : bool)
| Then (r1 r2 : pattern)
| Or (r1 r2 : pattern)
| Capture (index : nat) (r : pattern)
| EndOfInput.

(** The captures of a match, the last one recorded first. *)
Definition captures : Type := list (nat * jsstring).

Fixpoint exec {R} (r : pattern) (s : jsstring) (caps : captures)
    (k : jsstring -> captures -> option R) {struct r} : option R :=
  match r with
  | Empty => k s caps
  | Class p =>
      match s with
      | c :: s' => if p c then k s' caps else None
      | [] => None
      end
  | Repeat p lo hi lazy =>
      if lazy then rep_lazy p lo hi s (fun rest => k rest caps)
      else rep_greedy p lo hi s (fun rest => k rest caps)
  | Then r1 r2 => exec r1 s caps (fun s' caps' => exec r2 s' caps' k)
  | Or r1 r2 =>
      match exec r1 s caps k with
      | Some x => Some x
      | None => exec r2 s caps k
      end
  | Capture index r1 =>
      exec r1 s caps (fun rest caps' => k rest ((index, matched s rest) :: caps'))
  | EndOfInput =>
      match s with
      | [] => k s caps
      | _ :: _ => None
      end
  end.

(** The array [s.match(r)] returns for a pattern without the [g] flag:
    element 0 and the captures. *)
Record found : Type := {
  whole : jsstring;
  groups : captures
}.

Definition matchAt (r : pattern) (s : jsstring) : option found :=
  exec r s [] (fun rest caps => Some {| whole := matched s rest; groups := caps |}).

(** [s.match(r)]: the leftmost match, [None] for [null]. *)
Fixpoint search (r : pattern) (s : jsstring) : option found :=
  match matchAt r s with
  | Some m => Some m
  | None =>
      match s with
      | [] => None
      | _ :: s' => search r s'
      end
  end.

(** [m[index]]; [None] is [undefined]. *)
Fixpoint lookup (index : nat) (caps : captures) : option jsstring :=
  match caps with
  | [] => None
  | (i, text) :: caps' => if (i =? index)%nat then Some text else lookup index caps'
  end.

Definition group (m : found) (index : nat) : option jsstring :=
  lookup index (groups m).

(** One character under the [i] flag: both letter cases of it. *)
Definition noCase (x : ascii) (c : ascii) : bool := ascii_eqb (toLower c) (toLower x).

(** A literal text under the [i] flag. *)
Fixpoint word (s : jsstring) : pattern :=
  match s with
  | [] => Empty
  | x :: rest => Then (Class (noCase x)) (word rest)
  end.

(** [\w] *)
Definition isWord (c : ascii) : bool :=
  isDigit c || isUpper c || in_range 97 122 c || is_char "_" c.

End Re.

(* ================================================================== *)
(** * utils/pdfParser.ts: reading a statement file *)
(* ================================================================== *)

Module Statement.
Import PdfParser Re.

Local Open Scope string_scope.

Infix ">>>" := Then (at level 60, right associativity).

(** The text items of one page, as [page.getTextContent()] lists them; an
    item may have no [str]. *)
Definition PdfPage : Type := list (option jsstring).

(** [parts.join(sep)] *)
Fixpoint join (sep : jsstring) (parts : list jsstring) : jsstring :=
  match parts with
  | [] => []
  | [p] => p
  | p :: rest => (p ++ sep ++ join sep rest)%list
  end.

(** [textContent.items.map((item) => item.str || "").join(" ")] *)
Definition pageText (page : PdfPage) : jsstring :=
  join (txt " ")
       (map (fun item => match item with Some str => str | None => [] end) page).

(** The loop over the pages: [fullText += pageText + "\n"]. *)
Definition fullTextOf (pages : list PdfPage) : jsstring :=
  fold_left (fun fullText page => (fullText ++ pageText page ++ TemplateService.nl)%list)
            pages [].

(** [/date|description|amount|balance/i] *)
Definition headerPattern : pattern :=
  Or (word (txt "date"))
     (Or (word (txt "description")) (Or (word (txt "amount")) (word (txt "balance")))).

(** On page 1:
    [lines.find((line) => line.match(/date|description|amount|balance/i)) || ""] *)
Definition headerLineOf (pages : list PdfPage) : jsstring :=
  match pages with
  | page1 :: _ =>
      match find (fun line => match search headerPattern line with
                              | Some _ => true
                              | None => false
                              end)
                 (split (is_char "010") (pageText page1)) with
      | Some line => line
      | None => []
      end
  | [] => []
  end.

(** [[\s#:]] *)
Definition spaceHashColon (c : ascii) : bool :=
  isSpace c || is_char "#" c || is_char ":" c.

(** [[:\s]] *)
Definition colonSpace (c : ascii) : bool := is_char ":" c || isSpace c.

(** [/(?:Account|Acct)[\s#:]+(\d+)/i] *)
Definition accountPattern : pattern :=
  Or (word (txt "Account")) (word (txt "Acct")) >>>
  Repeat spaceHashColon 1 None false >>>
  Capture 1 (Repeat isDigit 1 None false).

(** [\d{1,2}\/\d{1,2}\/\d{2,4}] *)
Definition slashDate : pattern :=
  Repeat isDigit 1 (Some 2) false >>> Class (is_char "/") >>>
  Repeat isDigit 1 (Some 2) false >>> Class (is_char "/") >>>
  Repeat isDigit 2 (Some 4) false.

(** [\w+\s+\d{1,2},?\s+\d{4}] *)
Definition longDate : pattern :=
  Repeat isWord 1 None false >>> Repeat isSpace 1 None false >>>
  Repeat isDigit 1 (Some 2) false >>> Repeat (is_char ",") 0 (Some 1) false >>>
  Repeat isSpace 1 None false >>> Repeat isDigit 4 (Some 4) false.

(** [(.+?)(?:\n|$)] *)
Definition restOfLine : pattern :=
  Capture 1 (Repeat isDot 1 None true) >>> Or (Class (is_char "010")) EndOfInput.

Definition periodPatterns : list pattern :=
  [ (* /Statement\s+Period[:\s]+(.+?)(?:\n|$)/i *)
    word (txt "Statement") >>> Repeat isSpace 1 None false >>> word (txt "Period") >>>
    Repeat colonSpace 1 None false >>> restOfLine;
    (* /Period[:\s]+(.+?)(?:\n|$)/i *)
    word (txt "Period") >>> Repeat colonSpace 1 None false >>> restOfLine;
    (* /From\s+(\d{1,2}\/\d{1,2}\/\d{2,4})\s+to\s+(\d{1,2}\/\d{1,2}\/\d{2,4})/i *)
    word (txt "From") >>> Repeat isSpace 1 None false >>> Capture 1 slashDate >>>
    Repeat isSpace 1 None false >>> word (txt "to") >>> Repeat isSpace 1 None false >>>
    Capture 2 slashDate;
    (* /(\w+\s+\d{1,2},?\s+\d{4})\s+through\s+(\w+\s+\d{1,2},?\s+\d{4})/i *)
    Capture 1 longDate >>> Repeat isSpace 1 None false >>> word (txt "through") >>>
    Repeat isSpace 1 None false >>> Capture 2 longDate ].

(** The loop [for (const pattern of patterns)] up to the first pattern that
    matches. *)
Fixpoint firstMatch (patterns : list pattern) (text : jsstring) : option found :=
  match patterns with
  | [] => None
  | r :: rest =>
      match search r text with
      | Some m => Some m
      | None => firstMatch rest text
      end
  end.

(** The text of a group every match of the pattern has. *)
Definition groupText (m : found) (index : nat) : jsstring :=
  match group m index with
  | Some text => text
  | None => txt "undefined"
  end.

(** [match[1] + (match[2] ? ` - ${match[2]}` : "")], or ["Unknown Period"]. *)
Definition extractStatementPeriod (text : jsstring) : jsstring :=
  match firstMatch periodPatterns text with
  | Some m =>
      (groupText m 1 ++
       match present (group m 2) with
       | Some to => txt " - " ++ to
       | None => []
       end)%list
  | None => txt "Unknown Period"
  end.

(** [/<Name>\s+Balance[:\s]+([\$\d,\.]+)/i] *)
Definition balancePattern (name : string) : pattern :=
  word (txt name) >>> Repeat isSpace 1 None false >>> word (txt "Balance") >>>
  Repeat colonSpace 1 None false >>> Capture 1 (Repeat balanceChar 1 None false).

Definition openingPatterns : list pattern :=
  map balancePattern ["Beginning"; "Opening"; "Previous"; "Starting"].

Definition closingPatterns : list pattern :=
  map balancePattern ["Ending"; "Closing"; "Current"; "Final"].

(** One of the two loops of [extractBalances]: the value of the first
    pattern that matches with a capture [parseFloat] reads as a number. *)
Fixpoint firstBalance (patterns : list pattern) (text : jsstring) : option float :=
  match patterns with
  | [] => None
  | r :: rest =>
      match search r text with
      | Some m =>
          let balance := parseFloat (stripMoney (groupText m 1)) in
          if PrimFloat.is_nan balance then firstBalance rest text else Some balance
      | None => firstBalance rest text
      end
  end.

Definition extractBalances (text : jsstring) : option float * option float :=
  (firstBalance openingPatterns text, firstBalance closingPatterns text).

(** The message of the error [parsePDFStatement] throws for a caught error
    with message [message]. *)
Definition failedToParse (message : string) : string :=
  "Failed to parse PDF statement: " ++ message ++
  ". Please ensure the file is a valid bank statement.".

Section WithHost.
Context `{Host}.

Definition detectBankNameAI (text : jsstring) : result jsstring :=
  callAI (txt "Extract the bank name from the following PDF text:" ++
          TemplateService.nl ++ TemplateService.nl ++ text ++
          TemplateService.nl ++ TemplateService.nl ++
          txt "Only respond with the bank name.")%list.

Definition inferColumnsAI (headerLine : jsstring) : result json :=
  response <- callAI (txt "Given this table header from a bank statement: " ++ dquote ++
                      headerLine ++ dquote ++
                      txt ", map each column to a standard data type (date, text, amount, balance). Respond as JSON with keys: name, dataType, confidence (0-1).")%list ;;
  JSON_parse response.

Definition column (name dataType : string) (confidence : float) : json :=
  JObj [(txt "name", JStr (txt name)); (txt "dataType", JStr (txt dataType));
        (txt "confidence", JNum confidence)].

(** [columns], which [parseTransactions] receives and does not read. *)
Definition columnsFor (headerLine : jsstring) : result json :=
  match headerLine with
  | [] => Ok (JArr [])
  | _ :: _ =>
      try_catch (inferColumnsAI headerLine)
        (fun error =>
           Ok (JArr [column "Date" "date" 0.9; column "Description" "text" 0.9;
                     column "Amount" "amount" 0.9; column "Balance" "balance" 0.8]))
  end.

(** [parsePDFStatement(file)]; [pdf] is what reading the file with pdf.js
    gives: the pages, or the error one of its steps threw.  A thrown value
    is an [Error] with a message. *)
Definition parsePDFStatement (pdf : result (list PdfPage)) : result BankStatementData :=
  try_catch
    (pages <- pdf ;;
     let fullText := fullTextOf pages in
     let headerLine := headerLineOf pages in
     bankName <- detectBankNameAI fullText ;;
     let accountNumber :=
       match search accountPattern fullText with
       | Some accountMatch => groupText accountMatch 1
       | None => txt "Unknown"
       end in
     let statementPeriod := extractStatementPeriod fullText in
     columns <- columnsFor headerLine ;;
     transactions <- parseTransactions fullText ;;
     let '(openingBalance, closingBalance) := extractBalances fullText in
     Ok {| bankName := bankName;
           accountNumber := accountNumber;
           statementPeriod := statementPeriod;
           transactions := transactions;
           openingBalance := openingBalance;
           closingBalance := closingBalance |})
    (fun error => Throw (failedToParse error)).

End WithHost.
End Statement.

(* ================================================================== *)
(** * utils/code.ts: the parser with template selection *)
(* ================================================================== *)

Module EnhancedPDFParser.
Import TemplateService.

(** What [parseWithTemplateSelection] returns. *)
Record Parsed (num : Type) : Type := {
  data : PdfParser.BankStatementData;
  templateUsed : option (BankTemplate num);
  isNewTemplate : bool
}.
Arguments data {num}.
Arguments templateUsed {num}.
Arguments isNewTemplate {num}.

Section WithHost.
Context `{Host} {num : Type} `{Number num}.

(** [extractBankStatementData], the AI extraction the parser calls (its
    answers are taken to have the declared type), and [JSON.stringify] on
    the category mappings. *)
Variable extractBankStatementData : jsstring -> result PdfParser.BankStatementData.
Variable JSON_stringify : list (jsstring * json) -> jsstring.

(** [initialize()] *)
Definition initialize (s : Service num) : Service num := loadTemplates s.

(** The template literal bound to [enhancedPrompt]. *)
Definition enhancedPrompt (text : jsstring) (template : BankTemplate num) : jsstring :=
  (nl ++ txt "      " ++ extractionPrompt (aiInstructions template) ++ nl ++
   txt "      " ++ nl ++
   txt "      Use these validation rules:" ++ nl ++
   txt "      " ++ Statement.join nl (validationRules (aiInstructions template)) ++ nl ++
   txt "      " ++ nl ++
   txt "      Known category mappings:" ++ nl ++
   txt "      " ++ JSON_stringify (categoryMappings (aiInstructions template)) ++ nl ++
   txt "      " ++ nl ++
   txt "      Parse the following bank statement:" ++ nl ++
   txt "      " ++ text ++ nl ++
   txt "    ")%list.

Definition callEnhancedAI (prompt : jsstring) : result PdfParser.BankStatementData :=
  extractBankStatementData prompt.

Definition parseWithTemplate (text : jsstring) (template : BankTemplate num)
    : result PdfParser.BankStatementData :=
  callEnhancedAI (enhancedPrompt text template).

Definition parseWithAI (text : jsstring) : result PdfParser.BankStatementData :=
  extractBankStatementData text.

(** [availableTemplates.find((t) => t.id === selectedTemplateId) || null],
    when [selectedTemplateId] is given and not empty. *)
Definition selectedTemplate (selectedTemplateId : option jsstring) (s : Service num)
    : option (BankTemplate num) :=
  match PdfParser.present selectedTemplateId with
  | Some selected =>
      find (fun t => if list_eq_dec ascii_dec (id t) selected then true else false)
           (getAvailableTemplates s)
  | None => None
  end.

(** The template the parse goes on with: the selected one, or else the
    best match. *)
Definition chosenTemplate (fullText : jsstring) (selectedTemplateId : option jsstring)
    (s : Service num) : option (BankTemplate num) :=
  match selectedTemplate selectedTemplateId s with
  | Some t => Some t
  | None => option_map template (findBestTemplate fullText s)
  end.

(** [parseWithTemplateSelection(file, selectedTemplateId, userId)]; [pdf] is
    what reading the file gives, [now] and [e] what the clock and the random
    generator give.  The service is returned with the outcome; a call that
    throws has changed nothing.  The catalogue holds each template under its
    id, so the template found is the object [updateTemplateMetrics] updates,
    and [templateUsed] shows it updated. *)
Definition parseWithTemplateSelection (pdf : result (list Statement.PdfPage))
    (selectedTemplateId userId : option jsstring) (now : Z) (e : Entropy)
    (s : Service num) : result (Parsed num * Service num) :=
  pages <- pdf ;;
  let fullText := Statement.fullTextOf pages in
  match chosenTemplate fullText selectedTemplateId s with
  | Some t =>
      match parseWithTemplate fullText t with
      | Ok bankStatementData =>
          let s' := updateTemplateMetrics (id t) (lit (9 # 10)) now s in
          Ok ({| data := bankStatementData;
                 templateUsed :=
                   match Map_get (id t) (templates s') with
                   | Some t' => Some t'
                   | None => Some t
                   end;
                 isNewTemplate := false |}, s')
      | Throw _ =>
          bankStatementData <- parseWithAI fullText ;;
          Ok ({| data := bankStatementData;
                 templateUsed := Some t;
                 isNewTemplate := false |}, s)
      end
  | None =>
      bankStatementData <- parseWithAI fullText ;;
      match PdfParser.present userId, PdfParser.transactions bankStatementData with
      | Some user, _ :: _ =>
          created <- createTemplateFromAI bankStatementData fullText user e s ;;
          Ok ({| data := bankStatementData;
                 templateUsed := Some (fst created);
                 isNewTemplate := true |}, snd created)
      | _, _ =>
          Ok ({| data := bankStatementData;
                 templateUsed := None;
                 isNewTemplate := false |}, s)
      end
  end.

(** [searchTemplates(bankName)] *)
Definition searchTemplates (bankName : jsstring) (s : Service num)
    : list (BankTemplate num) :=
  getTemplatesByBank bankName s.

End WithHost.
End EnhancedPDFParser.

(* ================================================================== *)
(** * A host whose AI service answers [null]

    The completion service answers every prompt with the JSON text [null],
    which [JSON.parse] reads as the value [null]; dates and patterns are
    those of the reference host at UTC. *)
(* ================================================================== *)

Module NullAnswerHost.

Definition parse (s : jsstring) : result json :=
  if list_eq_dec ascii_dec s (txt "null") then Ok JNull
  else Throw "SyntaxError: Unexpected token".

Definition host : Host := {|
  Date_parse := RefHost.parseDate 0;
  Date_fromYMD := RefHost.fromYMD 0;
  Date_toISOString := RefHost.toISOString;
  generateContent := fun _ => Ok (Some (txt "null"));
  JSON_parse := parse;
  RegExp_new := RefHost.newRegExp
|}.

End NullAnswerHost.

(* ================================================================== *)
(** * A host whose AI service only names the bank

    The completion service answers the bank-name request and is out of
    reach for every other prompt; the rest is the reference host at UTC. *)
(* ================================================================== *)

Module BankNameHost.

Definition answer (prompt : jsstring) : result (option jsstring) :=
  if startsWith prompt (txt "Extract the bank name")
  then Ok (Some (txt "Acme Bank"))
  else Throw "fetch failed".

Definition host : Host := {|
  Date_parse := RefHost.parseDate 0;
  Date_fromYMD := RefHost.fromYMD 0;
  Date_toISOString := RefHost.toISOString;
  generateContent := answer;
  JSON_parse := fun _ => Throw "SyntaxError: Unexpected token";
  RegExp_new := RefHost.newRegExp
|}.

End BankNameHost.

(* ================================================================== *)
(** * More sample inputs *)
(* ================================================================== *)

Module Inputs.

(** A date written [MM/DD/YYYY]. *)
Definition usDate (y m d : Z) : jsstring :=
  RefHost.digitsFixed 2 m ++ txt "/" ++ RefHost.digitsFixed 2 d ++ txt "/" ++
  RefHost.digitsFixed 4 y.

(** A date written [MM/DD/YY]. *)
Definition shortDate (yy m d : Z) : jsstring :=
  RefHost.digitsFixed 2 m ++ txt "/" ++ RefHost.digitsFixed 2 d ++ txt "/" ++
  RefHost.digitsFixed 2 yy.

(** A two-page statement. *)
Definition pages : list Statement.PdfPage :=
  [ [Some (txt "Acme Bank"); Some (txt "Account: 12345678"); None;
     Some (txt "Statement Period: 01/01/2024 - 01/31/2024");
     Some (txt "Opening Balance: $1,000.00")];
    [Some (txt "03/15/2024 STARBUCKS COFFEE -5.75"); Some (txt "Closing Balance: $994.25")] ].

(** What the AI extraction might answer for it. *)
Definition extracted : PdfParser.BankStatementData := {|
  PdfParser.bankName := txt "Acme Bank";
  PdfParser.accountNumber := txt "12345678";
  PdfParser.statementPeriod := txt "01/01/2024 - 01/31/2024";
  PdfParser.transactions :=
    [ {| PdfParser.date := txt "2024-03-15";
         PdfParser.description := txt "STARBUCKS COFFEE";
         PdfParser.amount := 5.75%float;
         PdfParser.balance := None;
         PdfParser.type := PdfParser.debit;
         PdfParser.category := Some (JStr (txt "Food"));
         PdfParser.confidence := None;
         PdfParser.currency := Some (txt "USD") |} ];
  PdfParser.openingBalance := Some 1000%float;
  PdfParser.closingBalance := Some 994.25%float
|}.

End Inputs.

(* ================================================================== *)
(** * hooks/useFileProcessor: the processing run

    The hook keeps its state with [useState]; every update is a function of
    the previous state, so a run of [processFiles] is the composition of its
    updates in order.  The state after the run is modelled, not the moments
    in between, and nothing else updates the state during the run. *)
(* ================================================================== *)

Module FileProcessor.

Local Open Scope string_scope.

Inductive FileStatus : Type := uploading | ready | processing | completed | error.

(** [file] is what pdf.js gives when the file is read. *)
Record UploadedFile : Type := {
  id : jsstring;
  file : result (list Statement.PdfPage);
  status : FileStatus;
  progress : Z;
  bankDetected : option jsstring
}.

Inductive StepStatus : Type := Pending | Processing | Completed | Failed.

Record ProcessingStep : Type := {
  stepId : jsstring;
  title : jsstring;
  stepStatus : StepStatus;
  description : option jsstring
}.

Record State : Type := {
  uploadedFiles : list UploadedFile;
  processingSteps : list ProcessingStep;
  bankData : option PdfParser.BankStatementData;
  isProcessing : bool;
  isComplete : bool;
  errorMessage : option string
}.

Definition newStep (i t : string) (s : StepStatus) (d : string) : ProcessingStep :=
  {| stepId := txt i; title := txt t; stepStatus := s; description := Some (txt d) |}.

(** The array [initializeSteps] sets and returns. *)
Definition initializeSteps : list ProcessingStep :=
  [ newStep "upload" "File Upload" Completed "PDF files uploaded successfully";
    newStep "extract" "Text Extraction" Pending "Extracting text content from PDF";
    newStep "detect" "Bank Detection" Pending "Identifying bank format and structure";
    newStep "parse" "Transaction Parsing" Pending "Extracting transaction data";
    newStep "categorize" "Data Categorization" Pending
            "Categorizing transactions and cleaning data";
    newStep "validate" "Data Validation" Pending "Validating extracted data" ].

Definition same (a b : jsstring) : bool :=
  if list_eq_dec ascii_dec a b then true else false.

(** [prev.map(step => step.id === stepId
      ? { ...step, status, description: description || step.description } : step)] *)
Definition updateStep (i : string) (s : StepStatus) (d : option string)
    (steps : list ProcessingStep) : list ProcessingStep :=
  map (fun step =>
         if same (stepId step) (txt i)
         then {| stepId := stepId step;
                 title := title step;
                 stepStatus := s;
                 description :=
                   match PdfParser.present (option_map txt d) with
                   | Some text => Some text
                   | None => description step
                   end |}
         else step)
      steps.

Definition withStatus (s : FileStatus) (f : UploadedFile) : UploadedFile :=
  {| id := id f; file := file f; status := s; progress := progress f;
     bankDetected := bankDetected f |}.

Section WithHost.
Context `{Host}.

(** The state after [processFiles()] has run to its end from state [st]. *)
Definition processFiles (st : State) : State :=
  match uploadedFiles st with
  | [] => st
  | first :: _ =>
      let steps := initializeSteps in
      let files :=
        map (fun f => if same (id f) (id first) then withStatus processing f else f)
            (uploadedFiles st) in
      let shown :=
        updateStep "parse" Processing (Some "Extracting transactions...")
          (updateStep "detect" Completed None
             (updateStep "detect" Processing (Some "Analyzing bank format...")
                (updateStep "extract" Completed None
                   (updateStep "extract" Processing (Some "Reading PDF content...")
                      steps)))) in
      match Statement.parsePDFStatement (file first) with
      | Ok parsedData =>
          {| uploadedFiles :=
               map (fun f =>
                      if same (id f) (id first)
                      then {| id := id f; file := file f; status := completed;
                              progress := 100; bankDetected := bankDetected f |}
                      else f)
                   (map (fun f =>
                           if same (id f) (id first)
                           then {| id := id f; file := file f; status := status f;
                                   progress := progress f;
                                   bankDetected := Some (PdfParser.bankName parsedData) |}
                           else f)
                        files);
             processingSteps :=
               updateStep "validate" Completed (Some "Data validation complete")
                 (updateStep "validate" Processing (Some "Validating data integrity...")
                    (updateStep "categorize" Completed None
                       (updateStep "categorize" Processing
                          (Some "Categorizing transactions...")
                          (updateStep "parse" Completed None shown))));
             bankData := Some parsedData;
             isProcessing := false;
             isComplete := true;
             errorMessage := None |}
      | Throw message =>
          {| uploadedFiles :=
               map (fun f => match status f with
                             | processing => withStatus error f
                             | _ => f
                             end) files;
             processingSteps :=
               match find (fun step => match stepStatus step with
                                       | Processing => true
                                       | _ => false
                                       end) steps with
               | Some currentStep =>
                   map (fun step =>
                          if same (stepId step) (stepId currentStep)
                          then {| stepId := stepId step;
                                  title := title step;
                                  stepStatus := Failed;
                                  description := Some (txt message) |}
                          else step)
                       shown
               | None => shown
               end;
             bankData := None;
             isProcessing := false;
             isComplete := false;
             errorMessage := Some message |}
      end
  end.

End WithHost.
End FileProcessor.

(* ================================================================== *)
(** * The Excel exporter: the transactions sheet

    [createTransactionsSheet] and the categorisation pass of
    [exportToExcel].  What the host formats is a parameter:
    [toLocaleDateString], [toFixed] and the conversion of a number to text.
    So is [formatCurrency], whose currency symbols lie outside the Latin-1
    strings of this development and whose digits are [toLocaleString]'s.
    A sheet is the array of rows handed to [XLSX.utils.aoa_to_sheet] with
    the column widths stored under ["!cols"]; the styling of the header
    cells is left out. *)
(* ================================================================== *)

Module TransactionsSheet.

Import PdfParser.

Record ExportOptions : Type := {
  includeCategories : bool;
  includeBalance : bool;
  dateFormat : jsstring;
  currency : jsstring;
  groupByMonth : bool;
  includeSummary : bool;
  (** optional; [false] when absent *)
  useAICategorization : bool
}.

Record WorkSheet : Type := {
  cells : list (list json);
  cols : list Z
}.

Section WithHost.
Context `{Host}.

(** [date.toLocaleDateString(locale)]; no locale is [None], the Invalid
    Date is the time value [None]. *)
Variable toLocaleDateString : option jsstring -> option Z -> jsstring.

(** [formatCurrency(amount, currency)] *)
Variable formatCurrency : float -> jsstring -> jsstring.

(** [x.toFixed(2)] *)
Variable toFixed2 : float -> jsstring.

(** [String(x)] for a number [x]. *)
Variable Number_toString : float -> jsstring.

(** The text a template literal gives for a value [JSON.parse] produced. *)
Fixpoint String_of (v : json) : jsstring :=
  match v with
  | JNull => txt "null"
  | JBool true => txt "true"
  | JBool false => txt "false"
  | JNum x => Number_toString x
  | JStr s => s
  | JArr items =>
      Statement.join (txt ",")
        (map (fun item => match item with
                          | JNull => []
                          | _ => String_of item
                          end) items)
  | JObj _ => txt "[object Object]"
  end.

Definition interpolated (v : option json) : jsstring :=
  match v with
  | Some x => String_of x
  | None => txt "undefined"
  end.

(** The exporter's own copy of [categorizeTransactionAI]. *)
Definition categorizeTransactionAI (description : jsstring) : result json :=
  response <- ExcelExporter.callAI
                (txt "Categorize this transaction description: " ++ dquote ++
                 description ++ dquote ++
                 txt ". Return the category (like Food, Travel, Income) and confidence score between 0 and 1 as JSON.")%list ;;
  JSON_parse response.

Definition refineCategoryName (category : option json) (description : jsstring)
    : result jsstring :=
  ExcelExporter.callAI
    (txt "Given the transaction description " ++ dquote ++ description ++ dquote ++
     txt " and its initial category " ++ dquote ++ interpolated category ++ dquote ++
     txt ", suggest a more specific or user-friendly category name. Return only the category name.")%list.

(** The function [exportToExcel] maps over the transactions when
    [options.useAICategorization] is set: the destructuring of the AI's
    answer and the second AI call sit in its [try], whose [catch] returns
    the transaction as it was. *)
Definition recategorized (t : ParsedTransaction) : ParsedTransaction :=
  match
    (info <- categorizeTransactionAI (description t) ;;
     category <- get_prop info (txt "category") ;;
     confidence <- get_prop info (txt "confidence") ;;
     refinedCategory <- refineCategoryName category (description t) ;;
     Ok {| date := date t;
           description := description t;
           amount := amount t;
           balance := balance t;
           type := type t;
           category := Some (JStr refinedCategory);
           confidence := confidence;
           PdfParser.currency := PdfParser.currency t |})
  with
  | Ok t' => t'
  | Throw _ => t
  end.

(** [transactions], as [exportToExcel] hands it to the sheets. *)
Definition exportedTransactions (data : BankStatementData) (options : ExportOptions)
    : list ParsedTransaction :=
  if useAICategorization options then map recategorized (transactions data)
  else transactions data.

Definition formatDate (dateStr format : jsstring) : result jsstring :=
  let date := Date_parse dateStr in
  if list_eq_dec ascii_dec format (txt "MM/DD/YYYY")
  then Ok (toLocaleDateString (Some (txt "en-US")) date)
  else if list_eq_dec ascii_dec format (txt "DD/MM/YYYY")
  then Ok (toLocaleDateString (Some (txt "en-GB")) date)
  else if list_eq_dec ascii_dec format (txt "YYYY-MM-DD")
  then match date with
       | Some t => Ok (isoDate t)
       | None => Throw "RangeError: Invalid time value"
       end
  else Ok (toLocaleDateString None date).

Definition headers (options : ExportOptions) : list json :=
  map JStr
    ([txt "Date"; txt "Description"; txt "Amount"; txt "Type"] ++
     (if includeBalance options then [txt "Balance"] else []) ++
     (if includeCategories options
      then txt "Category" ::
           (if useAICategorization options then [txt "Confidence"] else [])
      else [])).

(** [transaction.confidence.toFixed(2)] on a confidence that is not
    [undefined]. *)
Definition confidenceCell (confidence : json) : result json :=
  match confidence with
  | JNum x => Ok (JStr (toFixed2 x))
  | JNull => Throw "TypeError: Cannot read properties of null"
  | _ => Throw "TypeError: transaction.confidence.toFixed is not a function"
  end.

(** The body of [transactions.forEach]: one row. *)
Definition row (options : ExportOptions) (transaction : ParsedTransaction)
    : result (list json) :=
  day <- formatDate (date transaction) (dateFormat options) ;;
  let base :=
    [JStr day; JStr (description transaction);
     JStr (formatCurrency (amount transaction) (currency options));
     JStr (match type transaction with
           | credit => txt "Credit"
           | debit => txt "Debit"
           end)] in
  let balanceCells :=
    if includeBalance options
    then match balance transaction with
         | Some b => [JStr (formatCurrency b (currency options))]
         | None => [JStr []]
         end
    else [] in
  categoryCells <-
    (if includeCategories options
     then
       let named :=
         match category transaction with
         | Some c => if TemplateService.truthy (Some c) then c
                     else JStr (txt "Uncategorized")
         | None => JStr (txt "Uncategorized")
         end in
       match useAICategorization options, confidence transaction with
       | true, Some c => cell <- confidenceCell c ;; Ok [named; cell]
       | _, _ => Ok [named]
       end
     else Ok []) ;;
  Ok (base ++ balanceCells ++ categoryCells).

Fixpoint rows (options : ExportOptions) (transactions : list ParsedTransaction)
    : result (list (list json)) :=
  match transactions with
  | [] => Ok []
  | transaction :: rest =>
      r <- row options transaction ;;
      more <- rows options rest ;;
      Ok (r :: more)
  end.

Definition colWidths (options : ExportOptions) : list Z :=
  ([12; 40; 15; 10] ++
   (if includeBalance options then [15] else []) ++
   (if includeCategories options
    then 20 :: (if useAICategorization options then [10] else [])
    else []))%Z.

Definition createTransactionsSheet (transactions : list ParsedTransaction)
    (options : ExportOptions) : result WorkSheet :=
  data <- rows options transactions ;;
  Ok {| cells := headers options :: data; cols := colWidths options |}.

End WithHost.

End TransactionsSheet.

(** Export options and stand-ins for the host's formatting, for the
    examples. *)
Module SheetInputs.

Definition options : TransactionsSheet.ExportOptions := {|
  TransactionsSheet.includeCategories := true;
  TransactionsSheet.includeBalance := true;
  TransactionsSheet.dateFormat := txt "YYYY-MM-DD";
  TransactionsSheet.currency := txt "USD";
  TransactionsSheet.groupByMonth := false;
  TransactionsSheet.includeSummary := false;
  TransactionsSheet.useAICategorization := true
|}.

Definition toLocaleDateString (locale : option jsstring) (time : option Z) : jsstring :=
  match time with
  | Some t => PdfParser.isoDate (H := RefHost.host 0) t
  | None => txt "Invalid Date"
  end.

Definition formatCurrency (amount : float) (currency : jsstring) : jsstring :=
  txt "$0.00".

Definition toFixed2 (x : float) : jsstring := txt "0.00".

End SheetInputs.

(* ================================================================== *)
(** * Properties of the template service *)
(* ================================================================== *)

Section TemplateServiceFacts.
Import TemplateService.

(** A call that computes to a value passing a test returned that value. *)
Lemma returns_holds {A} (P : A -> bool) (r : result A) :
  match r with Ok a => P a | Throw _ => false end = true ->
  exists a, r = Ok a /\ P a = true.
Proof. destruct r as [a|msg]; [now exists a|discriminate]. Qed.

(** A lookup that computes to an entry passing a test yields that entry. *)
Lemma lookup_holds {V} (P : V -> bool) (o : option V) :
  match o with Some t => P t | None => false end = true ->
  exists t, o = Some t /\ P t = true.
Proof. destruct o as [t|]; [now exists t|discriminate]. Qed.

Lemma Map_get_set_same {V} (k : jsstring) (v : V) m :
  Map_get k (Map_set k v m) = Some v.
Proof.
  unfold Map_get.
  induction m as [|[k' v'] m IH]; simpl.
  - destruct (list_eq_dec ascii_dec k k); congruence.
  - destruct (list_eq_dec ascii_dec k k') as [E|N]; simpl.
    + destruct (list_eq_dec ascii_dec k k'); congruence.
    + destruct (list_eq_dec ascii_dec k k'); congruence.
Qed.

Lemma Map_get_set_other {V} (k k0 : jsstring) (v : V) m :
  k <> k0 -> Map_get k0 (Map_set k v m) = Map_get k0 m.
Proof.
  intro N. unfold Map_get.
  induction m as [|[k' v'] m IH]; simpl.
  - destruct (list_eq_dec ascii_dec k0 k); congruence.
  - destruct (list_eq_dec ascii_dec k k') as [E|N']; simpl.
    + subst k'. destruct (list_eq_dec ascii_dec k0 k); congruence.
    + destruct (list_eq_dec ascii_dec k0 k'); congruence.
Qed.

Lemma loadTemplates_id {num} (s : Service num) : loadTemplates s = s.
Proof. reflexivity. Qed.

(** What a successful [createTemplateFromAI] adds. *)
Lemma createTemplateFromAI_Ok `{Host} {num} `{Number num}
    data text user e (s : Service num) t s' :
  createTemplateFromAI data text user e s = Ok (t, s') ->
  id t = generateTemplateId e /\ isVerified t = false /\ usageCount t = 1%Z /\
  avgAccuracy (metadata t) = lit (85 # 100) /\
  templates s' = Map_set (id t) t (templates s) /\
  dbCalls s' = dbCalls s ++ [SavedTemplate (id t)].
Proof.
  unfold createTemplateFromAI.
  destruct (extractParsingPatterns text data) as [patterns|msg]; simpl; [|discriminate].
  intro E. injection E as <- <-. simpl. repeat split.
Qed.

(** The template an [updateTemplateMetrics] call leaves under its id. *)
Lemma updateTemplateMetrics_found {num} `{Number num}
    templateId accuracy now (s : Service num) t :
  Map_get templateId (templates s) = Some t ->
  exists t',
    Map_get templateId (templates (updateTemplateMetrics templateId accuracy now s)) = Some t' /\
    templates (updateTemplateMetrics templateId accuracy now s) = Map_set templateId t' (templates s) /\
    id t' = id t /\
    usageCount t' = (usageCount t + 1)%Z /\
    avgAccuracy (metadata t') =
      ((avgAccuracy (metadata t) * of_Z (usageCount t' - 1) + accuracy)
       / of_Z (usageCount t'))%num /\
    isVerified t' =
      (if (10 <=? usageCount t')%Z && (avgAccuracy (metadata t') >=? lit (9 # 10))%num
       then true else isVerified t).
Proof.
  intro G. unfold updateTemplateMetrics. rewrite G.
  eexists. split; [apply Map_get_set_same|].
  simpl. repeat split.
Qed.

Lemma updateTemplateMetrics_other {num} `{Number num}
    templateId accuracy now (s : Service num) k :
  k <> templateId ->
  Map_get k (templates (updateTemplateMetrics templateId accuracy now s)) =
  Map_get k (templates s).
Proof.
  intro N. unfold updateTemplateMetrics.
  destruct (Map_get templateId (templates s)); [|reflexivity].
  simpl. apply Map_get_set_other. congruence.
Qed.

(** C9: [updateTemplateMetrics] with an id the catalogue does not hold
    returns the service as it was: every template and the record of
    persistence calls are unchanged, and nothing is thrown. *)
Theorem updateTemplateMetrics_unknown_id {num} `{Number num}
    (s : Service num) (templateId : jsstring) (accuracy : num) (now : Z) :
  Map_get templateId (templates s) = None ->
  updateTemplateMetrics templateId accuracy now s = s.
Proof.
  intro G. unfold updateTemplateMetrics. now rewrite G.
Qed.



End TemplateServiceFacts.


(* ------------------------------------------------------------------ *)
(** ** The running mean *)

Section RunningMean.
Import TemplateService.

Lemma run_snoc `{Host} {num} `{Number num} ops op (s : Service num) :
  run (ops ++ [op]) s = step (run ops s) op.
Proof. unfold run. now rewrite fold_left_app. Qed.








End RunningMean.


(* ------------------------------------------------------------------ *)
(** ** Witnesses on the sample catalogue *)

Section CatalogueWitnesses.
Import TemplateService.

(** An id that the verified sample catalogue does not hold. *)
Lemma updateTemplateMetrics_unknown_id_witness :
  updateTemplateMetrics (txt "template_0_missing") 0.9%float 1710460800003%Z
    Sample.verifiedService = Sample.verifiedService.
Proof.
  apply updateTemplateMetrics_unknown_id. vm_compute. reflexivity.
Defined.


End CatalogueWitnesses.

(* ------------------------------------------------------------------ *)
(** ** The match score *)

Section MatchScore.
Import TemplateService.

Lemma points_range (g : Signals) : (0 <= points g <= 100)%Z.
Proof.
  unfold points.
  destruct (bankNameFound g), (accountNumberFound g), (dateFormatFound g),
    (creditWordFound g), (debitWordFound g); simpl; lia.
Qed.

(** The sums and the quotient of [calculateTemplateMatch] are exact on
    these integers: the score is [points / 100] rounded once. *)
Lemma calculateTemplateMatch_points (statementText : jsstring)
    (template : BankTemplate float) :
  calculateTemplateMatch statementText template =
  (of_Z (points (signalsOf statementText template)) / of_Z 100)%num.
Proof.
  unfold calculateTemplateMatch, points, signalsOf.
  cbn [bankNameFound accountNumberFound dateFormatFound creditWordFound debitWordFound].
  destruct (includes _ _), (accountNumberPattern _ _), (existsb _ _),
    (hasKeyword _ (creditKeywords _)), (hasKeyword _ (debitKeywords _));
    vm_compute; reflexivity.
Qed.



End MatchScore.


(* ================================================================== *)
(** * Properties of the sort

    On a list whose comparator is the comparison of an integer rank, the
    sort is a stable sort by that rank. *)
(* ================================================================== *)

Section SortFacts.
Context {A : Type} (gt : A -> A -> bool) (rank : A -> Z).

Local Abbreviation RankedOn := (RankedOn gt rank).

Lemma RankedOn_tail x l : RankedOn (x :: l) -> RankedOn l.
Proof. intros R a b Ia Ib. apply R; now right. Qed.

Lemma insert_perm x l : Permutation (insert gt x l) (x :: l).
Proof.
  induction l as [|y l IH]; simpl; [reflexivity|].
  destruct (gt x y); [|reflexivity].
  rewrite IH. apply perm_swap.
Qed.

Lemma sort_perm l : Permutation (sort gt l) l.
Proof.
  induction l as [|x l IH]; simpl; [reflexivity|].
  rewrite insert_perm. now constructor.
Qed.

Lemma sort_In l x : In x (sort gt l) <-> In x l.
Proof.
  split; apply Permutation_in; [|symmetry]; apply sort_perm.
Qed.

Lemma insert_sorted x l :
  (forall y, In y l -> gt x y = (rank y <? rank x)%Z) ->
  StronglySorted (fun a b => (rank a <= rank b)%Z) l ->
  StronglySorted (fun a b => (rank a <= rank b)%Z) (insert gt x l).
Proof.
  intros R S. induction S as [|y l S IH F]; simpl.
  - repeat constructor.
  - rewrite (R y (or_introl eq_refl)).
    destruct (rank y <? rank x)%Z eqn:C.
    + apply Z.ltb_lt in C.
      constructor.
      * apply IH. intros z Iz. apply R. now right.
      * apply Forall_forall. intros z Iz.
        apply (Permutation_in _ (insert_perm x l)) in Iz.
        destruct Iz as [<-|Iz]; [lia|].
        rewrite Forall_forall in F. now apply F.
    + apply Z.ltb_ge in C.
      constructor; [now constructor|].
      constructor; [exact C|].
      rewrite Forall_forall in F |- *. intros z Iz.
      specialize (F z Iz). lia.
Qed.

Lemma sort_sorted l :
  RankedOn l -> StronglySorted (fun a b => (rank a <= rank b)%Z) (sort gt l).
Proof.
  induction l as [|x l IH]; intro R; simpl; [constructor|].
  apply insert_sorted.
  - intros y Iy. apply R; [now left|right; now apply sort_In].
  - apply IH. now apply RankedOn_tail in R.
Qed.

Lemma insert_filter (p : A -> bool) x l :
  (forall y, In y l -> gt x y = true -> p x = true -> p y = false) ->
  filter p (insert gt x l) = filter p (x :: l).
Proof.
  induction l as [|y l IH]; intro D; [reflexivity|].
  simpl insert. destruct (gt x y) eqn:G; [|reflexivity].
  simpl filter at 1. rewrite IH by (intros z Iz; apply D; now right).
  pose proof (D y (or_introl eq_refl) G) as Dy.
  simpl. destruct (p x); [|reflexivity].
  now rewrite Dy.
Qed.

(** Stability: the elements of each rank keep their order. *)
Lemma sort_stable l (d : Z) :
  RankedOn l ->
  filter (fun a => (rank a =? d)%Z) (sort gt l) = filter (fun a => (rank a =? d)%Z) l.
Proof.
  induction l as [|x l IH]; intro R; [reflexivity|].
  simpl sort. rewrite insert_filter.
  - simpl. rewrite IH; [reflexivity|]. now apply RankedOn_tail in R.
  - intros y Iy G Px. apply (proj1 (sort_In l y)) in Iy.
    rewrite (R x y (or_introl eq_refl) (or_intror Iy)) in G.
    apply Z.ltb_lt in G. apply Z.eqb_eq in Px. apply Z.eqb_neq. lia.
Qed.

(** The head of the sorted list is the first element of least rank. *)
Lemma sort_head l x :
  RankedOn l ->
  hd_error (sort gt l) = Some x ->
  exists before after,
    l = before ++ x :: after /\
    (forall y, In y before -> (rank x < rank y)%Z) /\
    (forall y, In y after -> (rank x <= rank y)%Z).
Proof.
  revert x. induction l as [|a l IH]; intros x R E; [discriminate|].
  simpl in E.
  destruct (sort gt l) as [|y l'] eqn:S.
  - assert (l = []).
    { destruct l as [|z l0]; [reflexivity|].
      assert (In z (sort gt (z :: l0))) by (apply sort_In; now left).
      rewrite S in H. destruct H. }
    subst l. simpl in E. injection E as <-.
    exists [], []. repeat split; intros y [].
  - destruct (IH y (RankedOn_tail _ _ R) eq_refl) as (before & after & El & B & Af).
    assert (Iy : In y l) by (rewrite El; apply in_elt).
    simpl in E. rewrite (R a y (or_introl eq_refl) (or_intror Iy)) in E.
    destruct (rank y <? rank a)%Z eqn:C; simpl in E; injection E as <-.
    + apply Z.ltb_lt in C.
      exists (a :: before), after. rewrite El. repeat split.
      * intros z [<-|Iz]; [exact C|now apply B].
      * exact Af.
    + apply Z.ltb_ge in C.
      exists [], l. repeat split; [intros z []|].
      intros z Iz. rewrite El in Iz. apply in_app_or in Iz.
      destruct Iz as [Iz|[<-|Iz]]; [specialize (B z Iz)|exact C|specialize (Af z Iz)]; lia.
Qed.

Lemma sort_nil l : sort gt l = [] -> l = [].
Proof.
  intro E. destruct l as [|z l0]; [reflexivity|].
  assert (I : In z (sort gt (z :: l0))) by (apply sort_In; now left).
  rewrite E in I. destruct I.
Qed.

End SortFacts.


(* ------------------------------------------------------------------ *)
(** ** The best template *)

Section BestTemplate.
Import TemplateService.

Local Abbreviation score k := (of_Z k / of_Z 100)%num (only parsing).

(** On the hundred and one possible scores the binary64 comparisons agree
    with the comparisons of the points, and 0.3 is the score of 30 points. *)
Lemma score_table :
  forallb
    (fun i =>
       Bool.eqb (PrimFloat.ltb (lit (3 # 10)) (score i)) (30 <? i)%Z &&
       forallb
         (fun j =>
            Bool.eqb (PrimFloat.ltb (score i) (score j)) (i <? j)%Z &&
            Bool.eqb (PrimFloat.leb (score i) (score j)) (i <=? j)%Z &&
            Bool.eqb (PrimFloat.ltb (of_Z 0) (PrimFloat.sub (score j) (score i)))
                     (i <? j)%Z)
         (map Z.of_nat (seq 0 101)))
    (map Z.of_nat (seq 0 101)) = true.
Proof. vm_compute. reflexivity. Qed.

Lemma in_scores (i : Z) : (0 <= i <= 100)%Z -> In i (map Z.of_nat (seq 0 101)).
Proof.
  intro R. apply in_map_iff. exists (Z.to_nat i).
  split; [lia|]. apply in_seq. lia.
Qed.

Lemma score_compare (i j : Z) :
  (0 <= i <= 100)%Z -> (0 <= j <= 100)%Z ->
  PrimFloat.ltb (lit (3 # 10)) (score i) = (30 <? i)%Z /\
  PrimFloat.ltb (score i) (score j) = (i <? j)%Z /\
  PrimFloat.leb (score i) (score j) = (i <=? j)%Z /\
  PrimFloat.ltb (of_Z 0) (PrimFloat.sub (score j) (score i)) = (i <? j)%Z.
Proof.
  intros Ri Rj.
  pose proof score_table as T.
  rewrite forallb_forall in T. specialize (T i (in_scores i Ri)).
  apply andb_prop in T. destruct T as [T0 T].
  rewrite forallb_forall in T. specialize (T j (in_scores j Rj)).
  apply andb_prop in T. destruct T as [T T3].
  apply andb_prop in T. destruct T as [T1 T2].
  apply Bool.eqb_prop in T0, T1, T2, T3.
  repeat split; assumption.
Qed.

(** The candidate list is the catalogue, in its order, without the
    templates whose score is not above 0.3. *)
Lemma candidatesFor_map_filter (text : jsstring) (s : Service float) :
  candidatesFor text s =
  map (fun t => {| template := t;
                   confidence := calculateTemplateMatch text t;
                   matchedFeatures := getMatchedFeatures text t |})
      (filter (fun t => (calculateTemplateMatch text t >? lit (3 # 10))%num)
              (Map_values (templates s))).
Proof.
  unfold candidatesFor.
  induction (Map_values (templates s)) as [|t l IH]; [reflexivity|].
  cbn [flat_map filter]. cbv zeta.
  destruct ((calculateTemplateMatch text t >? lit (3 # 10))%num).
  - cbn [app map]. now rewrite IH.
  - exact IH.
Qed.

Lemma candidatesFor_filter (text : jsstring) (s : Service float) :
  map template (candidatesFor text s) =
  filter (fun t => (calculateTemplateMatch text t >? lit (3 # 10))%num)
         (Map_values (templates s)) /\
  Forall (fun c => confidence c = calculateTemplateMatch text (template c))
         (candidatesFor text s).
Proof.
  rewrite candidatesFor_map_filter. split.
  - rewrite map_map. cbn [template]. apply map_id.
  - apply Forall_forall. intros c I. apply in_map_iff in I.
    now destruct I as (t & <- & _).
Qed.

Lemma candidates_ranked (text : jsstring) (s : Service float) :
  RankedOn (fun a b => (confidence b - confidence a >? of_Z 0)%num)
           (fun c => (- points (signalsOf text (template c)))%Z)
           (candidatesFor text s).
Proof.
  intros a b Ia Ib.
  destruct (candidatesFor_filter text s) as [_ F].
  rewrite Forall_forall in F.
  rewrite (F a Ia), (F b Ib), !calculateTemplateMatch_points.
  destruct (score_compare _ _ (points_range (signalsOf text (template a)))
                              (points_range (signalsOf text (template b))))
    as (_ & _ & _ & C).
  cbn [n_ltb n_sub binary64]. rewrite C.
  destruct (points (signalsOf text (template a)) <? points (signalsOf text (template b)))%Z eqn:E.
  - symmetry. apply Z.ltb_lt. apply Z.ltb_lt in E. lia.
  - symmetry. apply Z.ltb_ge. apply Z.ltb_ge in E. lia.
Qed.

(** Splitting a filtered and mapped list at one of its elements. *)
Lemma map_filter_split {X Y} (mk : X -> Y) (q : X -> bool) (l : list X) :
  forall before c after,
    map mk (filter q l) = before ++ c :: after ->
    exists earlier t later,
      l = earlier ++ t :: later /\ mk t = c /\ q t = true /\
      map mk (filter q earlier) = before /\ map mk (filter q later) = after.
Proof.
  induction l as [|x l IH]; intros before c after E.
  - destruct before; discriminate.
  - cbn [filter] in E. destruct (q x) eqn:Q.
    + destruct before as [|c0 before]; cbn [map app] in E; injection E as E0 E.
      * exists [], x, l. now repeat split.
      * destruct (IH _ _ _ E) as (earlier & t & later & El & Et & Qt & B & Af).
        exists (x :: earlier), t, later. rewrite El. repeat split; try assumption.
        cbn [filter]. rewrite Q. cbn [map]. now rewrite E0, B.
    + destruct (IH _ _ _ E) as (earlier & t & later & El & Et & Qt & B & Af).
      exists (x :: earlier), t, later. rewrite El. repeat split; try assumption.
      cbn [filter]. now rewrite Q.
Qed.

(** C5 (amended): [findBestTemplate] drops exactly the templates whose
    score is not above 0.3 (a score of exactly 0.3 is dropped too), answers
    none when nothing is left, and otherwise answers the first template, in
    catalogue order, of the highest score: every kept template before it
    scores strictly less and every kept template after it scores at most as
    much. *)
Theorem findBestTemplate_first_best (text : jsstring) (s : Service float) :
  let conf := calculateTemplateMatch text in
  let kept t := (conf t >? lit (3 # 10))%num in
  map template (candidatesFor text s) = filter kept (Map_values (templates s)) /\
  match findBestTemplate text s with
  | None => forall t, In t (Map_values (templates s)) -> kept t = false
  | Some best =>
      confidence best = conf (template best) /\
      kept (template best) = true /\
      exists earlier later,
        Map_values (templates s) = earlier ++ template best :: later /\
        (forall t, In t earlier -> kept t = true ->
           PrimFloat.ltb (conf t) (conf (template best)) = true) /\
        (forall t, In t later -> kept t = true ->
           PrimFloat.leb (conf t) (conf (template best)) = true)
  end.
Proof.
  intros conf kept.
  destruct (candidatesFor_filter text s) as [M F].
  split; [exact M|].
  unfold findBestTemplate.
  destruct (hd_error _) as [best|] eqn:E.
  - destruct (sort_head _ _ _ _ (candidates_ranked text s) E)
      as (before & after & Ec & B & Af).
    rewrite Forall_forall in F.
    assert (Ib : In best (candidatesFor text s)) by (rewrite Ec; apply in_elt).
    split; [now apply F|].
    assert (K : kept (template best) = true).
    { assert (I : In (template best) (map template (candidatesFor text s)))
        by now apply in_map.
      rewrite M in I. now apply filter_In in I. }
    split; [exact K|].
    rewrite candidatesFor_map_filter in Ec.
    destruct (map_filter_split _ _ _ _ _ _ Ec)
      as (earlier & tb & later & El & Eb & _ & Be & Afe).
    assert (Etb : tb = template best) by now rewrite <- Eb.
    subst tb.
    exists earlier, later. split; [exact El|].
    split; intros t I Q.
    + assert (Ic : In {| template := t;
                         confidence := calculateTemplateMatch text t;
                         matchedFeatures := getMatchedFeatures text t |} before).
      { rewrite <- Be. apply in_map_iff. exists t.
        split; [reflexivity|]. apply filter_In. now split. }
      specialize (B _ Ic). cbn [template] in B. unfold conf.
      rewrite !calculateTemplateMatch_points.
      destruct (score_compare _ _ (points_range (signalsOf text t))
                                  (points_range (signalsOf text (template best))))
        as (_ & C & _ & _).
      cbn [of_Z n_div binary64] in C |- *. rewrite C. apply Z.ltb_lt. lia.
    + assert (Ic : In {| template := t;
                         confidence := calculateTemplateMatch text t;
                         matchedFeatures := getMatchedFeatures text t |} after).
      { rewrite <- Afe. apply in_map_iff. exists t.
        split; [reflexivity|]. apply filter_In. now split. }
      specialize (Af _ Ic). cbn [template] in Af. unfold conf.
      rewrite !calculateTemplateMatch_points.
      destruct (score_compare _ _ (points_range (signalsOf text t))
                                  (points_range (signalsOf text (template best))))
        as (_ & _ & C & _).
      cbn [of_Z n_div binary64] in C |- *. rewrite C. apply Z.leb_le. lia.
  - intros t I.
    destruct (sort _ (candidatesFor text s)) eqn:S; [|discriminate].
    apply sort_nil in S.
    rewrite S in M. cbn [map] in M.
    destruct (kept t) eqn:K; [|reflexivity].
    assert (I' : In t (filter (fun t => (calculateTemplateMatch text t >? lit (3 # 10))%num)
                              (Map_values (templates s))))
      by (apply filter_In; now split).
    rewrite <- M in I'. destruct I'.
Qed.

(** Two templates of one bank registered one after the other: both score
    0.5 on the text and the first one is the answer. *)
Lemma findBestTemplate_first_best_witness :
  map template (candidatesFor (txt "ACME BANK account 00112233") Sample.twoTemplates) =
    filter (fun t => (calculateTemplateMatch (txt "ACME BANK account 00112233") t
                      >? lit (3 # 10))%num)
           (Map_values (templates Sample.twoTemplates)) /\
  map (calculateTemplateMatch (txt "ACME BANK account 00112233"))
      (Map_values (templates Sample.twoTemplates)) = [0.5%float; 0.5%float] /\
  map id (Map_values (templates Sample.twoTemplates)) =
    [Sample.templateId; generateTemplateId Sample.laterEntropy] /\
  option_map (fun best => id (template best))
    (findBestTemplate (txt "ACME BANK account 00112233") Sample.twoTemplates)
  = Some Sample.templateId.
Proof.
  split.
  - exact (proj1 (findBestTemplate_first_best
                    (txt "ACME BANK account 00112233") Sample.twoTemplates)).
  - vm_compute. repeat split.
Defined.

(** C5 as stated fails at the threshold: the sample template scores exactly
    0.3 on the text "acme bank" (bank name only, 30 points), which is not
    below 0.3, and it is dropped. *)
Lemma findBestTemplate_drops_score_of_0_3 :
  map (calculateTemplateMatch (txt "acme bank"))
      (Map_values (templates (Sample.serviceWithTemplate (num := float))))
    = [0.3%float] /\
  PrimFloat.ltb 0.3%float 0.3%float = false /\
  candidatesFor (txt "acme bank") (Sample.serviceWithTemplate (num := float)) = [] /\
  findBestTemplate (txt "acme bank") (Sample.serviceWithTemplate (num := float)) = None.
Proof. vm_compute. repeat split. Qed.

End BestTemplate.


(* ================================================================== *)
(** * The category-feedback hook *)
(* ================================================================== *)

Section Feedback.
Import ExcelExporter.


End Feedback.

(* ================================================================== *)
(** * Anonymized samples *)
(* ================================================================== *)

Section Anonymize.
Import TemplateService.











End Anonymize.


(* ================================================================== *)
(** * Properties of the recognizer *)
(* ================================================================== *)

Section Recognizer.
Import PdfParser.


(** ** Date normalisation *)



(** What [normalizeDate] answers on the reference host: an ISO date, a US
    date, a two-digit year on each side of the pivot, a string that is no
    date, and a string of ISO shape that names no day, which the second
    attempt reads as month/day/year. *)
Example normalizeDate_samples :
  map (normalizeDate (H := RefHost.host 0))
      [txt "2024-03-15"; txt "03/15/2024"; txt "3-5-49"; txt "3-5-50";
       txt "hello"; txt "2024-13-45"]
  = [txt "2024-03-15"; txt "2024-03-15"; txt "2049-03-05"; txt "1950-03-05";
     txt "hello"; txt "2213-08-13"].
Proof. vm_compute. reflexivity. Qed.

(** ** The final sort *)







(** ** The scenario line *)

(** C3: on the line "03/15/2024 STARBUCKS COFFEE -5.75" [match] with the
    [g]-flagged pattern returns the one matched text and no capture group,
    so [date] is undefined and the primary strategy pushes nothing, on every
    host; [parseTransactions] hands the text to the alternative strategy.
    On the reference host that strategy yields the transaction of the
    scenario when local time is UTC, and dates it the day before when local
    time is one hour ahead of UTC. *)
Theorem primary_strategy_skips_scenario_line :
  (forall H : Host,
     match_global transactionPattern Sample.starbucksLine = [Sample.starbucksLine] /\
     primaryLines (lines_of Sample.starbucksLine) = Ok [] /\
     parseTransactions Sample.starbucksLine =
       parseTransactionsAlternative Sample.starbucksLine)
  /\
  (let out := parseTransactionsAlternative (H := RefHost.host 0) Sample.starbucksLine in
   result_map (map (fun t => (date t, description t, amount t, type t))) out =
   Ok [(txt "2024-03-15", txt "STARBUCKS COFFEE", 5.75%float, debit)])
  /\
  (let out := parseTransactionsAlternative (H := RefHost.host 60) Sample.starbucksLine in
   result_map (map (fun t => (date t, description t, amount t, type t))) out =
   Ok [(txt "2024-03-14", txt "STARBUCKS COFFEE", 5.75%float, debit)]).
Proof.
  split; [|split; vm_compute; reflexivity].
  intro H.
  assert (P : primaryLines (lines_of Sample.starbucksLine) = Ok [])
    by (vm_compute; reflexivity).
  split; [vm_compute; reflexivity|]. split; [exact P|].
  unfold parseTransactions. now rewrite P.
Qed.

End Recognizer.


(* ================================================================== *)
(** * The reference host reads back its ISO dates *)
(* ================================================================== *)

Section ReferenceCalendar.
Import RefHost.
Local Open Scope Z_scope.

Lemma all_from_spec (P : Z -> bool) (n : nat) :
  forall z, all_from P n z = true ->
  forall k, z <= k < z + Z.of_nat n -> P k = true.
Proof.
  induction n as [|n IH]; intros z A k R; [lia|].
  cbn [all_from] in A. apply andb_prop in A. destruct A as [Pz A].
  destruct (Z.eq_dec k z) as [->|N]; [exact Pz|].
  apply (IH (z + 1) A). lia.
Qed.



Lemma isLeap_era (y era : Z) : isLeap (y + era * 400) = isLeap y.
Proof.
  unfold isLeap.
  replace (y + era * 400) with (y + (era * 100) * 4) at 1 by lia.
  replace (y + era * 400) with (y + (era * 4) * 100) at 1 by lia.
  now rewrite !Z.mod_add by lia.
Qed.

Lemma validDay_era (y m d era : Z) : validDay (y + era * 400) m d = validDay y m d.
Proof. unfold validDay, daysInMonth. now rewrite isLeap_era. Qed.


(** Every valid date of an era maps to a day number that maps back to it. *)
Lemma era_dates_checked :
  all_from
    (fun yoe =>
       all_from
         (fun m =>
            all_from
              (fun d =>
                 let y := if m <=? 2 then yoe + 1 else yoe in
                 let doe := doe_of yoe m d in
                 negb (validDay y m d) ||
                 ((0 <=? doe) && (doe <? 146097) &&
                  let '(y', m', d') := civil_of_doe doe in
                  (y' =? y) && (m' =? m) && (d' =? d)))
              31 1)
         12 1)
    400 0 = true.
Proof. vm_compute. reflexivity. Qed.

Lemma doe_of_valid (yoe m d : Z) :
  0 <= yoe < 400 ->
  validDay (if m <=? 2 then yoe + 1 else yoe) m d = true ->
  0 <= doe_of yoe m d < 146097 /\
  civil_of_doe (doe_of yoe m d) = ((if m <=? 2 then yoe + 1 else yoe), m, d).
Proof.
  intros Ry V.
  assert (Rm : 1 <= m <= 12 /\ 1 <= d <= 31).
  { unfold validDay in V.
    apply andb_prop in V. destruct V as [V V4].
    apply andb_prop in V. destruct V as [V V3].
    apply andb_prop in V. destruct V as [V1 V2].
    apply Z.leb_le in V1, V2, V3, V4.
    assert (daysInMonth (if m <=? 2 then yoe + 1 else yoe) m <= 31).
    { unfold daysInMonth.
      destruct (m =? 2); [destruct (isLeap _); lia|].
      destruct (_ || _); lia. }
    lia. }
  pose proof (all_from_spec _ _ _ era_dates_checked yoe ltac:(lia)) as T.
  cbv beta in T.
  pose proof (all_from_spec _ _ _ T m ltac:(lia)) as Tm. cbv beta in Tm.
  pose proof (all_from_spec _ _ _ Tm d ltac:(lia)) as Td. cbv beta zeta in Td.
  rewrite V in Td. cbn [negb orb] in Td.
  apply andb_prop in Td. destruct Td as [Td Tc].
  apply andb_prop in Td. destruct Td as [T1 T2].
  apply Z.leb_le in T1. apply Z.ltb_lt in T2.
  split; [lia|].
  destruct (civil_of_doe (doe_of yoe m d)) as [[y' m'] d'].
  apply andb_prop in Tc. destruct Tc as [Tc T5].
  apply andb_prop in Tc. destruct Tc as [T3 T4].
  apply Z.eqb_eq in T3, T4, T5. now subst.
Qed.

(** [days_from_civil] of a valid date maps back to the date. *)
Lemma days_from_civil_valid (y m d : Z) :
  validDay y m d = true ->
  civil_from_days (days_from_civil y m d) = (y, m, d).
Proof.
  intro V. unfold days_from_civil.
  set (y' := if m <=? 2 then y - 1 else y).
  set (era := y' / 400). cbv zeta.
  assert (Ry : 0 <= y' - era * 400 < 400).
  { pose proof (Z.mod_pos_bound y' 400 ltac:(lia)) as B.
    rewrite Z.mod_eq in B by lia. unfold era. lia. }
  set (yoe := y' - era * 400) in *.
  assert (Ey : y = (if m <=? 2 then yoe + 1 else yoe) + era * 400)
    by (unfold yoe, y'; destruct (m <=? 2); lia).
  rewrite Ey in V. rewrite validDay_era in V.
  destruct (doe_of_valid yoe m d Ry V) as [Rd C].
  unfold civil_from_days.
  replace (era * 146097 + doe_of yoe m d - 719468 + 719468)
    with (doe_of yoe m d + era * 146097) by lia.
  rewrite Z.div_add by lia. rewrite Z.div_small by lia.
  cbv zeta.
  replace (doe_of yoe m d + era * 146097 - (0 + era) * 146097)
    with (doe_of yoe m d) by lia.
  rewrite C. now rewrite Ey.
Qed.

End ReferenceCalendar.


Section ReferenceDates.
Import RefHost PdfParser.
Local Open Scope Z_scope.

(** *** Fixed-width decimal digits *)

Lemma digitChar_digit (v : Z) :
  0 <= v <= 9 ->
  isDigit (digitChar v) = true /\ digit_value (digitChar v) = Some (Z.to_N v).
Proof.
  intro R.
  assert (C : v = 0 \/ v = 1 \/ v = 2 \/ v = 3 \/ v = 4 \/ v = 5 \/ v = 6 \/
              v = 7 \/ v = 8 \/ v = 9) by lia.
  repeat (destruct C as [->|C]; [now split|]). subst v. now split.
Qed.

Lemma digits_value_snoc (l : jsstring) (c : ascii) :
  digits_value 10 (l ++ [c]) =
  (digits_value 10 l * 10 + match digit_value c with Some v => v | None => 0 end)%N.
Proof. unfold digits_value. now rewrite fold_left_app. Qed.

Lemma digitsFixed_spec (w : nat) : forall z,
  length (digitsFixed w z) = w /\
  forallb isDigit (digitsFixed w z) = true /\
  num_of (digitsFixed w z) = z mod 10 ^ Z.of_nat w.
Proof.
  induction w as [|w IH]; intro z.
  - cbn [digitsFixed]. repeat split. unfold num_of. cbn. now rewrite Z.mod_1_r.
  - destruct (IH (z / 10)) as (L & D & N).
    pose proof (Z.mod_pos_bound z 10 ltac:(lia)) as B.
    destruct (digitChar_digit (z mod 10) ltac:(lia)) as [Dc Vc].
    cbn [digitsFixed]. split; [|split].
    + rewrite length_app, L. cbn [length]. lia.
    + rewrite forallb_app, D. cbn [forallb]. now rewrite Dc.
    + unfold num_of in N |- *. rewrite digits_value_snoc, Vc.
      rewrite N2Z.inj_add, N2Z.inj_mul, N, Z2N.id by lia.
      rewrite Nat2Z.inj_succ, Z.pow_succ_r by lia.
      rewrite Z.rem_mul_r by lia. change (Z.of_N 10) with 10. lia.
Qed.

Lemma digitsFixed_small (w : nat) (z : Z) :
  0 <= z < 10 ^ Z.of_nat w -> num_of (digitsFixed w z) = z.
Proof.
  intro R. destruct (digitsFixed_spec w z) as (_ & _ & N).
  rewrite N. now apply Z.mod_small.
Qed.

Lemma digit_not_char (x c : ascii) :
  isDigit x = false -> isDigit c = true -> is_char x c = false.
Proof.
  unfold is_char. intros Nx Dc.
  destruct (code c =? code x)%N eqn:E; [|reflexivity].
  apply N.eqb_eq in E. unfold isDigit, in_range in *. rewrite E in Dc. congruence.
Qed.

(** *** Splitting at a separator *)

Lemma split_no_sep (sep : ascii -> bool) (s : jsstring) :
  forallb (fun c => negb (sep c)) s = true -> split sep s = [s].
Proof.
  induction s as [|c s IH]; intro F; [reflexivity|].
  cbn [forallb] in F. apply andb_prop in F. destruct F as [Fc F].
  apply negb_true_iff in Fc. cbn [split]. rewrite Fc, (IH F). reflexivity.
Qed.

Lemma split_at_sep (sep : ascii -> bool) (s rest : jsstring) (x : ascii) :
  forallb (fun c => negb (sep c)) s = true -> sep x = true ->
  split sep (s ++ x :: rest) = s :: split sep rest.
Proof.
  intros F Sx. induction s as [|c s IH].
  - cbn [app split]. now rewrite Sx.
  - cbn [forallb] in F. apply andb_prop in F. destruct F as [Fc F].
    apply negb_true_iff in Fc. cbn [app split]. rewrite Fc, (IH F). reflexivity.
Qed.

Lemma digits_no_sep (x : ascii) (s : jsstring) :
  isDigit x = false -> forallb isDigit s = true ->
  forallb (fun c => negb (is_char x c)) s = true.
Proof.
  intros Nx D. rewrite forallb_forall in D |- *. intros c I.
  now rewrite (digit_not_char x c Nx (D c I)).
Qed.

(** *** Printing and reading a date *)

Lemma validDay_bounds (y m d : Z) :
  validDay y m d = true -> 1 <= m <= 12 /\ 1 <= d <= 31.
Proof.
  unfold validDay. intro V.
  apply andb_prop in V. destruct V as [V V4].
  apply andb_prop in V. destruct V as [V V3].
  apply andb_prop in V. destruct V as [V1 V2].
  apply Z.leb_le in V1, V2, V3, V4.
  assert (daysInMonth y m <= 31).
  { unfold daysInMonth.
    destruct (m =? 2); [destruct (isLeap _); lia|].
    destruct (_ || _); lia. }
  lia.
Qed.



(** The date part is what stands before the [T]. *)
Lemma isoDate_is_date_part (tz t : Z) :
  isoDate (H := host tz) t =
  let '(y, m, d) := civil_from_days (t / msPerDay) in isoDatePart y m d.
Proof.
  unfold isoDate. cbn [Date_toISOString host]. unfold toISOString. cbv zeta.
  destruct (civil_from_days (t / msPerDay)) as [[y m] d].
  change (txt "T") with ["T"%char]. cbn [app].
  rewrite split_at_sep; [reflexivity| |reflexivity].
  unfold isoDatePart.
  destruct (digitsFixed_spec 2 m) as (_ & Dm & _).
  destruct (digitsFixed_spec 2 d) as (_ & Dd & _).
  rewrite !forallb_app.
  rewrite (digits_no_sep "T" (digitsFixed 2 m)), (digits_no_sep "T" (digitsFixed 2 d))
    by (try reflexivity; assumption).
  destruct ((0 <=? y) && (y <=? 9999)).
  - destruct (digitsFixed_spec 4 y) as (_ & Dy & _).
    now rewrite (digits_no_sep "T" (digitsFixed 4 y)).
  - destruct (digitsFixed_spec 6 (Z.abs y)) as (_ & Dy & _).
    rewrite forallb_app.
    rewrite (digits_no_sep "T" (digitsFixed 6 (Z.abs y))) by (try reflexivity; assumption).
    now destruct (y <? 0).
Qed.






Lemma days_from_civil_bound (y m d : Z) :
  0 <= y <= 9999 -> validDay y m d = true ->
  -1000000 <= days_from_civil y m d <= 4000000.
Proof.
  intros Ry V. destruct (validDay_bounds y m d V) as [Rm Rd].
  unfold days_from_civil, doe_of. cbv zeta.
  destruct (m <=? 2); destruct (2 <? m); cbv beta iota;
    Z.div_mod_to_equations; lia.
Qed.


End ReferenceDates.

(* ================================================================== *)
(** * Date normalisation is idempotent *)
(* ================================================================== *)

Section DateNormalisation.
Import RefHost PdfParser.
Local Open Scope Z_scope.



End DateNormalisation.

(* ================================================================== *)
(** * The catalogue views *)
(* ================================================================== *)

Section CatalogueViews.
Import TemplateService.

(** X1: [getAvailableTemplates]: every catalogued template once, the most used
    first, templates of equal use in registration order.  The catalogue
    itself is not reordered. *)
Theorem getAvailableTemplates_by_usage {num} (s : Service num) :
  Permutation (getAvailableTemplates s) (Map_values (templates s)) /\
  StronglySorted (fun a b => (usageCount b <= usageCount a)%Z)
                 (getAvailableTemplates s) /\
  (forall n : Z,
     filter (fun t => (usageCount t =? n)%Z) (getAvailableTemplates s) =
     filter (fun t => (usageCount t =? n)%Z) (Map_values (templates s))).
Proof.
  unfold getAvailableTemplates.
  set (gt := fun a b : BankTemplate num => (0 <? usageCount b - usageCount a)%Z).
  set (l := Map_values (templates s)).
  assert (R : RankedOn gt (fun t => (- usageCount t)%Z) l).
  { intros a b _ _. unfold gt.
    destruct (Z.ltb_spec 0 (usageCount b - usageCount a));
      destruct (Z.ltb_spec (- usageCount b) (- usageCount a)); trivial; lia. }
  split; [apply sort_perm|split].
  - pose proof (sort_sorted gt _ l R) as S0.
    induction S0 as [|a rest _ IH F]; constructor; trivial.
    eapply Forall_impl; [|exact F]. cbv beta. intros; lia.
  - intro n.
    pose proof (sort_stable gt _ l (- n) R) as E.
    erewrite filter_ext; [erewrite E; apply filter_ext|];
      intro t; cbv beta;
      destruct (Z.eqb_spec (usageCount t) n);
      destruct (Z.eqb_spec (- usageCount t) (- n)); trivial; lia.
Qed.


End CatalogueViews.

(* ================================================================== *)
(** * The catalogue under the service's operations *)
(* ================================================================== *)

Section CatalogueOperations.
Import TemplateService.

Lemma Map_set_keys_found {V} (k : jsstring) (v v0 : V) m :
  Map_get k m = Some v0 -> map fst (Map_set k v m) = map fst m.
Proof.
  unfold Map_get.
  induction m as [|[k' v'] m IH]; cbn [assoc Map_set map fst]; [discriminate|].
  destruct (list_eq_dec ascii_dec k k') as [E|N]; [reflexivity|].
  intro G. cbn [map fst]. now rewrite IH.
Qed.

Lemma Map_set_keys_fresh {V} (k : jsstring) (v : V) m :
  Map_get k m = None -> map fst (Map_set k v m) = map fst m ++ [k].
Proof.
  unfold Map_get.
  induction m as [|[k' v'] m IH]; cbn [assoc Map_set map fst app]; [reflexivity|].
  destruct (list_eq_dec ascii_dec k k') as [E|N]; [discriminate|].
  intro G. cbn [map fst]. now rewrite IH.
Qed.

Lemma Map_get_In {V} (k : jsstring) (v : V) m :
  Map_get k m = Some v -> In (k, v) m.
Proof.
  unfold Map_get.
  induction m as [|[k' v'] m IH]; cbn [assoc]; [discriminate|].
  destruct (list_eq_dec ascii_dec k k') as [E|N].
  - intro G. injection G as ->. subst k'. now left.
  - intro G. right. now apply IH.
Qed.

Lemma Map_get_None {V} (k : jsstring) (m : list (jsstring * V)) :
  Map_get k m = None <-> ~ In k (map fst m).
Proof.
  unfold Map_get.
  induction m as [|[k' v'] m IH]; cbn [assoc map fst In]; [tauto|].
  destruct (list_eq_dec ascii_dec k k') as [E|N].
  - subst k'. split; [discriminate|tauto].
  - rewrite IH. split; [intros A [B|B]; [congruence|tauto]|tauto].
Qed.

Lemma Map_set_In {V} (k : jsstring) (v : V) m kv :
  In kv (Map_set k v m) -> kv = (k, v) \/ In kv m.
Proof.
  induction m as [|[k' v'] m IH]; cbn [Map_set In].
  - intros [E|[]]. now left.
  - destruct (list_eq_dec ascii_dec k k') as [E|N]; cbn [In].
    + subst k'. intros [E|I]; [now left|now right; right].
    + intros [E|I]; [now right; left|].
      destruct (IH I) as [E|I']; [now left|now right; right].
Qed.

Lemma Map_set_NoDup {V} (k : jsstring) (v : V) m :
  NoDup (map fst m) -> NoDup (map fst (Map_set k v m)).
Proof.
  intro N. destruct (Map_get k m) as [v0|] eqn:G.
  - now rewrite (Map_set_keys_found k v v0 m G).
  - rewrite (Map_set_keys_fresh k v m G).
    apply NoDup_rev in N. rewrite <- (rev_involutive (_ ++ _)).
    apply NoDup_rev. rewrite rev_app_distr. cbn [rev app].
    constructor; [|exact N].
    rewrite <- in_rev. now apply Map_get_None.
Qed.

(** X3: A successful [createTemplateFromAI] stores the template it returns
    under the template's id, changes no other entry of the catalogue, and
    records one save; the call fails exactly when the [RegExp] constructor
    rejects the account-number pattern, with the constructor's error. *)
Theorem createTemplateFromAI_stores `{Host} {num} `{Number num}
    (data : PdfParser.BankStatementData) (text user : jsstring) (e : Entropy)
    (s : Service num) :
  match createTemplateFromAI data text user e s with
  | Ok (t, s') =>
      Map_get (id t) (templates s') = Some t /\
      (forall k, k <> id t -> Map_get k (templates s') = Map_get k (templates s)) /\
      dbCalls s' = dbCalls s ++ [SavedTemplate (id t)] /\
      id t = generateTemplateId e /\
      bankName t = PdfParser.bankName data /\
      createdBy t = user /\
      sampleStatements (metadata t) = [anonymizeStatement text] /\
      exists accountTest,
        RegExp_new (replaceDigits (txt "\d") (PdfParser.accountNumber data)) = Ok accountTest /\
        accountNumberPattern (parsing t) = accountTest
  | Throw message =>
      RegExp_new (replaceDigits (txt "\d") (PdfParser.accountNumber data)) = Throw message
  end.
Proof.
  unfold createTemplateFromAI, extractParsingPatterns.
  destruct (RegExp_new _) as [accountTest|message]; cbn [bind]; [|reflexivity].
  cbn [id templates dbCalls saveTemplate bankName createdBy metadata
       sampleStatements parsing accountNumberPattern].
  split; [apply Map_get_set_same|].
  split; [intros k N; apply Map_get_set_other; congruence|].
  repeat split. now exists accountTest.
Qed.

Lemma updateTemplateMetrics_keys {num} `{Number num}
    (templateId : jsstring) (accuracy : num) (now : Z) (s : Service num)
    (t : BankTemplate num) :
  Map_get templateId (templates s) = Some t ->
  map fst (templates (updateTemplateMetrics templateId accuracy now s))
    = map fst (templates s) /\
  dbCalls (updateTemplateMetrics templateId accuracy now s)
    = dbCalls s ++ [UpdatedTemplateInDB (id t)].
Proof.
  intro G. unfold updateTemplateMetrics. rewrite G.
  cbn [templates dbCalls updateTemplateInDB id]. split; [|reflexivity].
  now apply Map_set_keys_found with (v0 := t).
Qed.

(** X4: [updateTemplateMetrics] on a catalogued id keeps the ids of the
    catalogue and their order, touches no other template, records one
    update, and changes nothing of the template but its use count, its mean
    accuracy, its update time and its verified flag. *)
Theorem updateTemplateMetrics_frame {num} `{Number num}
    (templateId : jsstring) (accuracy : num) (now : Z) (s : Service num)
    (t : BankTemplate num) :
  Map_get templateId (templates s) = Some t ->
  let s' := updateTemplateMetrics templateId accuracy now s in
  map fst (templates s') = map fst (templates s) /\
  (forall k, k <> templateId -> Map_get k (templates s') = Map_get k (templates s)) /\
  dbCalls s' = dbCalls s ++ [UpdatedTemplateInDB (id t)] /\
  exists t',
    Map_get templateId (templates s') = Some t' /\
    id t' = id t /\ bankName t' = bankName t /\ templateName t' = templateName t /\
    version t' = version t /\ createdAt t' = createdAt t /\
    createdBy t' = createdBy t /\ parsing t' = parsing t /\
    aiInstructions t' = aiInstructions t /\
    supportedFormats (metadata t') = supportedFormats (metadata t) /\
    language (metadata t') = language (metadata t) /\
    region (metadata t') = region (metadata t) /\
    currency (metadata t') = currency (metadata t) /\
    sampleStatements (metadata t') = sampleStatements (metadata t) /\
    updatedAt t' = now /\
    usageCount t' = (usageCount t + 1)%Z.
Proof.
  intros G s'. subst s'.
  destruct (updateTemplateMetrics_keys templateId accuracy now s t G) as [KS DB].
  split; [exact KS|].
  split; [intros k N; now apply updateTemplateMetrics_other|].
  split; [exact DB|].
  unfold updateTemplateMetrics. rewrite G. cbn [templates updateTemplateInDB].
  eexists. split; [apply Map_get_set_same|].
  cbn. repeat split.
Qed.

(** What every operation keeps. *)
Lemma step_keeps_catalogue `{Host} {num} `{Number num} (s : Service num) (op : Op)
    (P := fun s : Service num =>
       NoDup (map fst (templates s)) /\
       Forall (fun kv => fst kv = id (snd kv) /\ (1 <= usageCount (snd kv))%Z /\
                         (isVerified (snd kv) = true -> (10 <= usageCount (snd kv))%Z))
              (templates s) /\
       Forall (fun call => In (match call with
                               | SavedTemplate i | UpdatedTemplateInDB i => i
                               end) (map fst (templates s)))
              (dbCalls s)) :
  P s -> P (step s op).
Proof.
  subst P. cbv beta. intros (ND & F & D).
  destruct op as [| | | |data text user e|templateId accuracy now]; cbn [step];
    try (now rewrite ?loadTemplates_id).
  - pose proof (createTemplateFromAI_Ok data text user e s) as C.
    destruct (createTemplateFromAI data text user e s) as [[t s']|msg]; [|now repeat split].
    destruct (C t s' eq_refl) as (_ & V & U & _ & T & DB).
    rewrite T, DB. split; [now apply Map_set_NoDup|]. split.
    + apply Forall_forall. intros kv I.
      destruct (Map_set_In _ _ _ _ I) as [->|I'].
      * cbn [fst snd]. rewrite U, V. repeat split; [lia|discriminate].
      * now apply (proj1 (Forall_forall _ _) F).
    + assert (K : forall k, In k (map fst (templates s)) ->
                            In k (map fst (Map_set (id t) t (templates s)))).
      { intros k I. destruct (Map_get (id t) (templates s)) as [v0|] eqn:G.
        - now rewrite (Map_set_keys_found _ _ v0 _ G).
        - rewrite (Map_set_keys_fresh _ _ _ G). apply in_or_app. now left. }
      apply Forall_app. split.
      * eapply Forall_impl; [|exact D]. intros call I. now apply K.
      * constructor; [|constructor].
        destruct (Map_get (id t) (templates s)) as [v0|] eqn:G.
        -- rewrite (Map_set_keys_found _ _ v0 _ G).
           apply Map_get_In in G. now apply (in_map fst) in G.
        -- rewrite (Map_set_keys_fresh _ _ _ G). apply in_or_app. right. now left.
  - destruct (Map_get templateId (templates s)) as [t|] eqn:G.
    + pose proof (Map_get_In _ _ _ G) as I.
      destruct (proj1 (Forall_forall _ _) F _ I) as (K & U & V). cbn [fst snd] in K, U, V.
      destruct (updateTemplateMetrics_keys templateId accuracy now s t G) as [KS DB].
      destruct (updateTemplateMetrics_found templateId accuracy now s t G)
        as (t' & _ & T & I' & U' & _ & V').
      rewrite KS, DB. split; [exact ND|]. split.
      * rewrite T. apply Forall_forall. intros kv J.
        destruct (Map_set_In _ _ _ _ J) as [->|J'].
        -- cbn [fst snd]. rewrite I', U'. split; [congruence|]. split; [lia|].
           rewrite V'. destruct (10 <=? usageCount t')%Z eqn:C.
           ++ intros _. apply Z.leb_le in C. lia.
           ++ cbn [andb]. intro W. specialize (V W). lia.
        -- now apply (proj1 (Forall_forall _ _) F).
      * apply Forall_app. split; [exact D|].
        constructor; [|constructor]. rewrite <- K. now apply (in_map fst) in I.
    + unfold updateTemplateMetrics. rewrite G. now repeat split.
Qed.

Lemma run_keeps_catalogue `{Host} {num} `{Number num} (ops : list Op) :
  let s : Service num := run ops Sample.emptyService in
  NoDup (map fst (templates s)) /\
  Forall (fun kv => fst kv = id (snd kv) /\ (1 <= usageCount (snd kv))%Z /\
                    (isVerified (snd kv) = true -> (10 <= usageCount (snd kv))%Z))
         (templates s) /\
  Forall (fun call => In (match call with
                          | SavedTemplate i | UpdatedTemplateInDB i => i
                          end) (map fst (templates s)))
         (dbCalls s).
Proof.
  cbv zeta. induction ops as [|op ops IH] using rev_ind.
  - cbn. repeat split; constructor.
  - rewrite run_snoc. now apply step_keeps_catalogue.
Qed.

(** In a catalogue that holds every template under its id, each template is
    what a lookup of its id gives. *)
Lemma stored_under_id {num} (m : list (jsstring * BankTemplate num)) t :
  Forall (fun kv => fst kv = id (snd kv)) m ->
  NoDup (map fst m) ->
  In t (Map_values m) -> Map_get (id t) m = Some t.
Proof.
  unfold Map_values, Map_get.
  induction m as [|[k v] m IH]; intros F ND I; [contradiction|].
  inversion F as [|? ? K F']; subst. inversion ND as [|? ? NI ND']; subst.
  cbn [fst snd] in K. cbn [map snd In] in I. cbn [assoc].
  destruct (list_eq_dec ascii_dec (id t) k) as [E|N].
  - destruct I as [->|I]; [reflexivity|].
    exfalso. apply NI. apply in_map_iff in I. destruct I as ([k' v'] & <- & I).
    apply in_map_iff. exists (k', v'). split; [|exact I].
    cbn [fst snd] in *. rewrite <- E.
    now apply (proj1 (Forall_forall _ _) F' (k', v') I).
  - destruct I as [->|I]; [congruence|]. now apply IH.
Qed.

(** X5: From the empty catalogue of a new service, whatever operations are
    run: the ids are distinct, every template is stored under its own id and
    has been used at least once, a verified template at least ten times, and
    every recorded persistence call is for a catalogued template. *)
Theorem catalogue_stays_consistent `{Host} {num} `{Number num} (ops : list Op) :
  let s : Service num := run ops Sample.emptyService in
  NoDup (map fst (templates s)) /\
  Forall (fun kv => fst kv = id (snd kv) /\ (1 <= usageCount (snd kv))%Z /\
                    (isVerified (snd kv) = true -> (10 <= usageCount (snd kv))%Z))
         (templates s) /\
  Forall (fun call => In (match call with
                          | SavedTemplate i | UpdatedTemplateInDB i => i
                          end) (map fst (templates s)))
         (dbCalls s).
Proof. exact (run_keeps_catalogue ops). Qed.

End CatalogueOperations.

(* ================================================================== *)
(** * Template identifiers *)
(* ================================================================== *)

Section TemplateIds.
Import TemplateService.

Lemma txt_inj (a b : string) : txt a = txt b -> a = b.
Proof.
  unfold txt. intro E.
  rewrite <- (string_of_list_ascii_of_string a), <- (string_of_list_ascii_of_string b).
  now rewrite E.
Qed.

Lemma Z_to_jsstring_inj (a b : Z) : Z_to_jsstring a = Z_to_jsstring b -> a = b.
Proof.
  unfold Z_to_jsstring. intro E. apply txt_inj in E.
  apply DecimalZ.to_int_inj.
  assert (R : forall z, NilZero.int_of_string (NilZero.string_of_int (Z.to_int z))
                        = Some (Z.to_int z)).
  { intro z. apply NilZero.isi; destruct z as [|p|p]; cbn; try discriminate;
      intro X; injection X as X; now apply DecimalPos.Unsigned.to_uint_nonnil in X. }
  pose proof (R a) as Ra. rewrite E, R in Ra. now injection Ra.
Qed.

Lemma string_of_uint_plain (d : Decimal.uint) :
  forallb (fun c => negb (is_char "_" c)) (txt (NilEmpty.string_of_uint d)) = true.
Proof. induction d; cbn; trivial. Qed.

Lemma Z_to_jsstring_plain (z : Z) :
  forallb (fun c => negb (is_char "_" c)) (Z_to_jsstring z) = true.
Proof.
  unfold Z_to_jsstring, NilZero.string_of_int, NilZero.string_of_uint.
  destruct (Z.to_int z) as [d|d]; destruct d; cbn; trivial;
    apply string_of_uint_plain.
Qed.

(** Two texts that agree up to and after their first separator. *)
Lemma first_separator (sep : ascii -> bool) (x y r1 r2 : jsstring) (c1 c2 : ascii) :
  forallb (fun c => negb (sep c)) x = true ->
  forallb (fun c => negb (sep c)) y = true ->
  sep c1 = true -> sep c2 = true ->
  x ++ c1 :: r1 = y ++ c2 :: r2 -> x = y /\ r1 = r2.
Proof.
  revert y. induction x as [|a x IH]; intros [|b y] Fx Fy S1 S2 E; cbn in *.
  - injection E as _ E. now split.
  - injection E as -> E. apply andb_prop in Fy. destruct Fy as [Fb _].
    rewrite S1 in Fb. discriminate.
  - injection E as -> E. apply andb_prop in Fx. destruct Fx as [Fa _].
    rewrite S2 in Fa. discriminate.
  - injection E as -> E.
    apply andb_prop in Fx, Fy. destruct Fx as [_ Fx]. destruct Fy as [_ Fy].
    destruct (IH y Fx Fy S1 S2 E) as [-> ->]. now split.
Qed.

(** X6: Two identifiers of [generateTemplateId] are equal exactly when both the
    clock readings and the nine characters kept of the random text are
    equal: a template created at another millisecond never takes the id of
    an earlier one. *)
Theorem generateTemplateId_collides (e1 e2 : Entropy) :
  generateTemplateId e1 = generateTemplateId e2 <->
  Date_now e1 = Date_now e2 /\
  firstn 9 (skipn 2 (random36 e1)) = firstn 9 (skipn 2 (random36 e2)).
Proof.
  unfold generateTemplateId. split.
  - intro E. apply app_inv_head in E.
    change (txt "_") with ["_"%char] in E. cbn [app] in E.
    apply (first_separator (is_char "_")) in E;
      try apply Z_to_jsstring_plain; try reflexivity.
    destruct E as [E1 E2]. split; [now apply Z_to_jsstring_inj|exact E2].
  - intros [-> ->]. reflexivity.
Qed.

End TemplateIds.

(* ================================================================== *)
(** * What the AI instructions of a template disclose *)
(* ================================================================== *)

Section Instructions.
Import TemplateService.

(** Replacing every character of a class, one by one. *)
Lemma replace_global_class (p : ascii -> bool) (w s : jsstring) :
  replace_global (Chr p) w s = flat_map (fun c => if p c then w else [c]) s.
Proof.
  unfold replace_global.
  induction s as [|c s IH]; [reflexivity|].
  cbn [replace_global_from matchAt exec flat_map].
  destruct (p c); [|now rewrite IH].
  replace (length (c :: s) - length s) with 1 by (cbn [length]; lia).
  now rewrite IH.
Qed.

Lemma replaceDigits_mask (s : jsstring) :
  replaceDigits (txt "X") s = map (fun c => if isDigit c then "X"%char else c) s.
Proof.
  unfold replaceDigits. rewrite replace_global_class.
  induction s as [|c s IH]; [reflexivity|].
  cbn [flat_map map]. rewrite IH. now destruct (isDigit c).
Qed.

(** X7: The rules [generateValidationRules] writes: five of them; the second
    ends with the account number in which every digit is replaced by [X]
    and every other character is kept, so it has the length of the account
    number and holds none of its digits. *)
Theorem generateValidationRules_masks (data : PdfParser.BankStatementData) :
  let masked := map (fun c => if isDigit c then "X"%char else c)
                    (PdfParser.accountNumber data) in
  length (generateValidationRules data) = 5 /\
  nth_error (generateValidationRules data) 1
    = Some (txt "Account number should match pattern: " ++ masked) /\
  length masked = length (PdfParser.accountNumber data) /\
  forallb (fun c => negb (isDigit c)) masked = true.
Proof.
  cbv zeta. unfold generateValidationRules. cbn [length nth_error].
  rewrite replaceDigits_mask. repeat split.
  - apply length_map.
  - induction (PdfParser.accountNumber data) as [|c s IH]; [reflexivity|].
    cbn [map forallb]. rewrite IH.
    destruct (isDigit c) eqn:D; [reflexivity|now rewrite D].
Qed.

(** X8: The keys [generateCategoryMappings] writes: each is the lower-cased
    description of a categorised transaction cut to twenty characters, is
    written once, and maps to the category of a transaction with that key. *)
Theorem generateCategoryMappings_keys (transactions : list PdfParser.ParsedTransaction) :
  NoDup (map fst (generateCategoryMappings transactions)) /\
  Forall
    (fun kv =>
       length (fst kv) <= 20 /\
       exists t,
         In t transactions /\
         PdfParser.description t <> [] /\
         fst kv = firstn 20 (toLowerCase (PdfParser.description t)) /\
         PdfParser.category t = Some (snd kv) /\ truthy (Some (snd kv)) = true)
    (generateCategoryMappings transactions).
Proof.
  unfold generateCategoryMappings.
  set (Good := fun kv : jsstring * json =>
         length (fst kv) <= 20 /\
         exists t,
           In t transactions /\
           PdfParser.description t <> [] /\
           fst kv = firstn 20 (toLowerCase (PdfParser.description t)) /\
           PdfParser.category t = Some (snd kv) /\ truthy (Some (snd kv)) = true).
  assert (G : forall (l : list PdfParser.ParsedTransaction) mappings,
            (forall t, In t l -> In t transactions) ->
            NoDup (map fst mappings) /\ Forall Good mappings ->
            let m := fold_left
                       (fun mappings t =>
                          match PdfParser.category t, PdfParser.description t with
                          | Some c, _ :: _ =>
                              if truthy (Some c)
                              then Map_set (substring0 20 (toLowerCase (PdfParser.description t)))
                                           c mappings
                              else mappings
                          | _, _ => mappings
                          end) l mappings in
            NoDup (map fst m) /\ Forall Good m).
  { induction l as [|t l IH]; intros mappings Sub [ND F]; cbn [fold_left]; [now split|].
    apply IH; [intros t' I; apply Sub; now right|].
    destruct (PdfParser.category t) as [c|] eqn:C; [|now split].
    destruct (PdfParser.description t) as [|d ds] eqn:D; [now split|].
    destruct (truthy (Some c)) eqn:T; [|now split].
    split; [now apply Map_set_NoDup|].
    apply Forall_forall. intros kv I.
    destruct (Map_set_In _ _ _ _ I) as [->|I'].
    + split; [apply firstn_le_length|].
      exists t. cbn [fst snd]. rewrite D, C. repeat split; trivial.
      * apply Sub. now left.
      * discriminate.
    + now apply (proj1 (Forall_forall _ _) F). }
  apply G; [trivial|split; constructor].
Qed.

End Instructions.

(* ================================================================== *)
(** * The features reported with a match *)
(* ================================================================== *)

Section MatchedFeatures.
Import TemplateService.

(** X9: [getMatchedFeatures] names the bank-name and the account-number
    signals, in this order, exactly when [calculateTemplateMatch] counted
    them; so a match reported with no feature has a confidence of at most
    0.5, and one reported with both features a confidence of at least 0.5. *)
Theorem getMatchedFeatures_explains_score (statementText : jsstring)
    (template : BankTemplate float) :
  let features := getMatchedFeatures statementText template in
  let g := signalsOf statementText template in
  let c := calculateTemplateMatch statementText template in
  features =
    (if bankNameFound g then [txt "Bank Name"] else []) ++
    (if accountNumberFound g then [txt "Account Number Format"] else []) /\
  (features = [] -> PrimFloat.leb c 0.5 = true) /\
  (length features = 2 -> PrimFloat.leb 0.5 c = true).
Proof.
  cbv zeta. split; [reflexivity|].
  rewrite calculateTemplateMatch_points.
  pose proof (points_range (signalsOf statementText template)) as R.
  assert (Half : 0.5%float = (@of_Z float binary64 50 / @of_Z float binary64 100)%num)
    by (vm_compute; reflexivity).
  rewrite Half.
  change (getMatchedFeatures statementText template)
    with ((if bankNameFound (signalsOf statementText template)
           then [txt "Bank Name"] else []) ++
          (if accountNumberFound (signalsOf statementText template)
           then [txt "Account Number Format"] else [])).
  split; intro F.
  - destruct (score_compare (points (signalsOf statementText template)) 50 R ltac:(lia))
      as (_ & _ & -> & _).
    apply Z.leb_le. unfold points.
    destruct (bankNameFound _); [cbn in F; discriminate F|].
    destruct (accountNumberFound _); [cbn in F; discriminate F|].
    destruct (dateFormatFound _); destruct (creditWordFound _);
      destruct (debitWordFound _); cbn; lia.
  - destruct (score_compare 50 (points (signalsOf statementText template)) ltac:(lia) R)
      as (_ & _ & -> & _).
    apply Z.leb_le. unfold points.
    destruct (bankNameFound _);
      [|destruct (accountNumberFound _); cbn in F; discriminate F].
    destruct (accountNumberFound _); [|cbn in F; discriminate F].
    destruct (dateFormatFound _); destruct (creditWordFound _);
      destruct (debitWordFound _); cbn; lia.
Qed.

End MatchedFeatures.

(* ================================================================== *)
(** * The keyword classifier *)
(* ================================================================== *)

Section Classifier.
Import PdfParser.

Lemma toLower_twice (c : ascii) : toLower (toLower c) = toLower c.
Proof. destruct c as [[] [] [] [] [] [] [] []]; reflexivity. Qed.

Lemma toLowerCase_twice (s : jsstring) : toLowerCase (toLowerCase s) = toLowerCase s.
Proof.
  unfold toLowerCase. rewrite map_map. apply map_ext. exact toLower_twice.
Qed.

Lemma toLower_space (c : ascii) : isSpace (toLower c) = isSpace c.
Proof. destruct c as [[] [] [] [] [] [] [] []]; reflexivity. Qed.

Lemma ascii_eqb_eq (a b : ascii) : ascii_eqb a b = true <-> a = b.
Proof.
  unfold ascii_eqb, code. rewrite N.eqb_eq. split; [|now intros ->].
  intro E. rewrite <- (ascii_N_embedding a), <- (ascii_N_embedding b). now rewrite E.
Qed.

Lemma startsWith_spec (s p : jsstring) :
  startsWith s p = true <-> exists post, s = p ++ post.
Proof.
  revert s. induction p as [|x p IH]; intros s.
  - split; [intros _; now exists s|now destruct s].
  - destruct s as [|c s]; cbn [startsWith].
    + split; [discriminate|intros [post E]; discriminate E].
    + rewrite andb_true_iff, ascii_eqb_eq, IH. split.
      * intros [-> [post ->]]. now exists post.
      * intros [post E]. injection E as -> ->. split; [trivial|now exists post].
Qed.

Lemma includes_spec (s sub : jsstring) :
  includes s sub = true <-> exists pre post, s = pre ++ sub ++ post.
Proof.
  induction s as [|c s IH]; cbn [includes]; rewrite orb_true_iff, startsWith_spec.
  - split.
    + intros [[post E]|E]; [|discriminate]. now exists [], post.
    + intros (pre & post & E). left.
      destruct pre; [now exists post|discriminate E].
  - rewrite IH. split.
    + intros [[post E]|(pre & post & E)].
      * now exists [], post.
      * exists (c :: pre), post. now rewrite E.
    + intros (pre & post & E). destruct pre as [|c' pre].
      * left. now exists post.
      * right. injection E as -> E. now exists pre, post.
Qed.

Lemma dropWhile_split (p : ascii -> bool) (s : jsstring) :
  exists pre, s = pre ++ dropWhile p s /\ forallb p pre = true.
Proof.
  induction s as [|c s (pre & E & F)]; cbn [dropWhile]; [now exists []|].
  destruct (p c) eqn:P; [|now exists []].
  exists (c :: pre). cbn [app forallb]. now rewrite P, F, <- E.
Qed.

Lemma dropWhile_head (p : ascii -> bool) (s : jsstring) c r :
  dropWhile p s = c :: r -> p c = false.
Proof.
  induction s as [|a s IH]; cbn [dropWhile]; [discriminate|].
  destruct (p a) eqn:P; [exact IH|]. intro E. now injection E as <- _.
Qed.

Lemma dropWhile_fixed (p : ascii -> bool) (s : jsstring) :
  match s with c :: _ => p c = false | [] => True end -> dropWhile p s = s.
Proof. destruct s as [|c s]; [trivial|]. cbn [dropWhile]. now intros ->. Qed.

(** What [trim] removes and what it leaves. *)
Lemma trim_split (s : jsstring) :
  exists pre post,
    s = pre ++ trim s ++ post /\
    forallb isSpace pre = true /\ forallb isSpace post = true /\
    match trim s with c :: _ => isSpace c = false | [] => True end /\
    match rev (trim s) with c :: _ => isSpace c = false | [] => True end.
Proof.
  unfold trim.
  destruct (dropWhile_split isSpace s) as (pre & E1 & F1).
  destruct (dropWhile_split isSpace (rev (dropWhile isSpace s))) as (post & E2 & F2).
  remember (dropWhile isSpace s) as a eqn:Da.
  remember (dropWhile isSpace (rev a)) as b eqn:Db.
  assert (Ea : a = rev b ++ rev post).
  { rewrite <- rev_app_distr, <- E2. now rewrite rev_involutive. }
  exists pre, (rev post). repeat split.
  - now rewrite <- Ea.
  - exact F1.
  - rewrite forallb_forall in *. intros c I. apply F2. now apply in_rev.
  - destruct (rev b) as [|c r]; [trivial|].
    cbn [app] in Ea. rewrite Ea in Da. symmetry in Da.
    now apply dropWhile_head in Da.
  - rewrite rev_involutive. destruct b as [|c r]; [trivial|].
    symmetry in Db. now apply dropWhile_head in Db.
Qed.

Lemma trim_twice (s : jsstring) : trim (trim s) = trim s.
Proof.
  destruct (trim_split s) as (_ & _ & _ & _ & _ & A & B).
  unfold trim at 1.
  rewrite (dropWhile_fixed isSpace (trim s) A).
  rewrite (dropWhile_fixed isSpace (rev (trim s)) B).
  apply rev_involutive.
Qed.

(** A word that starts with no space starts after the spaces a text
    starts with. *)
Lemma spaces_before_word (pre w : jsstring) :
  forallb isSpace pre = true ->
  match w with c :: _ => isSpace c = false | [] => False end ->
  forall x rest1 rest2,
    x ++ w ++ rest1 = pre ++ rest2 -> exists x', x = pre ++ x'.
Proof.
  intros Fpre Wh. induction pre as [|c pre IH]; intros x rest1 rest2 E; [now exists x|].
  cbn [forallb] in Fpre. apply andb_prop in Fpre. destruct Fpre as [Sc Fpre].
  destruct x as [|c' x].
  - destruct w as [|k w]; [contradiction|]. cbn [app] in E.
    injection E as -> _. congruence.
  - cbn [app] in E. injection E as -> E.
    destruct (IH Fpre x rest1 rest2 E) as [x' ->]. now exists x'.
Qed.

(** A word that neither starts nor ends with a space is found in a text
    exactly when it is found in the trimmed text. *)
Lemma includes_trim (s w : jsstring) :
  match w with c :: _ => isSpace c = false | [] => False end ->
  match rev w with c :: _ => isSpace c = false | [] => False end ->
  includes (trim s) w = includes s w.
Proof.
  intros Wh Wl.
  destruct (trim_split s) as (pre & post & E & Fpre & Fpost & _).
  remember (trim s) as T eqn:DT. clear DT.
  apply eq_true_iff_eq. rewrite !includes_spec. split.
  - intros (x & y & ET). exists (pre ++ x), (y ++ post).
    rewrite E, ET. now rewrite <- !app_assoc.
  - intros (x & y & S0). subst s. symmetry in S0.
    destruct (spaces_before_word pre w Fpre Wh x y _ S0) as [x' ->].
    rewrite <- !app_assoc in S0. apply app_inv_head in S0.
    assert (Fr : forallb isSpace (rev post) = true).
    { rewrite forallb_forall in *. intros c I. apply Fpost. now apply in_rev. }
    assert (E' : rev y ++ rev w ++ rev x' = rev post ++ rev T).
    { rewrite <- !rev_app_distr. rewrite <- !app_assoc. now rewrite S0. }
    destruct (spaces_before_word (rev post) (rev w) Fr Wl (rev y) _ _ E') as [z Q].
    assert (Ey : y = rev z ++ post).
    { rewrite <- (rev_involutive y), Q, rev_app_distr. now rewrite rev_involutive. }
    subst y. rewrite !app_assoc in S0. apply app_inv_tail in S0.
    exists x', (rev z). now rewrite <- S0, <- app_assoc.
Qed.

Lemma toLowerCase_trim (s : jsstring) : toLowerCase (trim s) = trim (toLowerCase s).
Proof.
  assert (D : forall l, map toLower (dropWhile isSpace l)
                        = dropWhile isSpace (map toLower l)).
  { induction l as [|c l IH]; [reflexivity|].
    cbn [dropWhile map]. rewrite toLower_space.
    destruct (isSpace c); [exact IH|reflexivity]. }
  unfold toLowerCase, trim. now rewrite map_rev, D, map_rev, D.
Qed.

(** Keywords that neither start nor end with a space. *)
Lemma any_of_trim (s : jsstring) (keywords : list string) :
  forallb (fun k => match txt k, rev (txt k) with
                    | c :: _, d :: _ => negb (isSpace c) && negb (isSpace d)
                    | _, _ => false
                    end) keywords = true ->
  any_of (trim s) keywords = any_of s keywords.
Proof.
  unfold any_of. induction keywords as [|k ks IH]; [reflexivity|].
  cbn [forallb existsb]. intro F. apply andb_prop in F. destruct F as [Sk F].
  rewrite (IH F). f_equal.
  apply includes_trim.
  - destruct (txt k); [discriminate|]. destruct (rev (a :: j)); [discriminate|].
    apply andb_prop in Sk. now destruct (isSpace a).
  - destruct (txt k); [discriminate|]. destruct (rev (a :: j)); [discriminate|].
    apply andb_prop in Sk. destruct Sk as [_ Sk]. now destruct (isSpace a0).
Qed.

Lemma categorizeTransaction_trim (description : jsstring) :
  categorizeTransaction (trim description) = categorizeTransaction description.
Proof.
  unfold categorizeTransaction. cbv zeta. rewrite toLowerCase_trim.
  now rewrite !any_of_trim by reflexivity.
Qed.

(** X10: [categorizeTransaction] answers one of its ten category names, and the
    answer does not depend on the letter case of the description nor on
    white space around it. *)
Theorem categorizeTransaction_total (description : jsstring) :
  In (categorizeTransaction description)
     (map txt ["Income"; "Food & Dining"; "Transportation"; "Cash & ATM";
               "Transfers"; "Fees & Charges"; "Bills & Utilities"; "Shopping";
               "Healthcare"; "Other"]%string) /\
  categorizeTransaction (toLowerCase description) = categorizeTransaction description /\
  categorizeTransaction (trim description) = categorizeTransaction description.
Proof.
  split; [|split; [|apply categorizeTransaction_trim]].
  - unfold categorizeTransaction. cbv zeta.
    repeat match goal with
           | |- context [if ?b then _ else _] => destruct b
           end; cbn; tauto.
  - unfold categorizeTransaction. cbv zeta. now rewrite toLowerCase_twice.
Qed.

End Classifier.

(* ================================================================== *)
(** * What the recognizer returns *)
(* ================================================================== *)

Section RecognizerOutput.
Import PdfParser.

(** *** Amounts *)

Lemma not_nan_spec (x : float) :
  PrimFloat.is_nan x = false -> Prim2SF x <> S754_nan.
Proof.
  unfold PrimFloat.is_nan. rewrite FloatAxioms.eqb_spec. intros N E.
  rewrite E in N. discriminate N.
Qed.

Lemma abs_not_nan (x : float) :
  PrimFloat.is_nan x = false -> PrimFloat.is_nan (PrimFloat.abs x) = false.
Proof.
  intro N. apply not_nan_spec in N.
  unfold PrimFloat.is_nan. rewrite FloatAxioms.eqb_spec, FloatAxioms.abs_spec.
  destruct (Prim2SF x) as [s|s| |s m e].
  - reflexivity.
  - reflexivity.
  - contradiction.
  - unfold SFeqb. cbn. rewrite Z.compare_refl. now rewrite Pos.compare_cont_refl.
Qed.

Lemma abs_nonneg (x : float) :
  PrimFloat.is_nan x = false -> PrimFloat.leb 0 (PrimFloat.abs x) = true.
Proof.
  intro N. apply not_nan_spec in N.
  rewrite FloatAxioms.leb_spec, FloatAxioms.abs_spec.
  change (Prim2SF 0) with (S754_zero false).
  destruct (Prim2SF x) as [s|s| |s m e]; [reflexivity|reflexivity|contradiction|reflexivity].
Qed.

Lemma abs_positive (x : float) :
  PrimFloat.is_nan x = false -> PrimFloat.eqb x 0 = false ->
  PrimFloat.ltb 0 (PrimFloat.abs x) = true.
Proof.
  intros N Z0. apply not_nan_spec in N.
  rewrite FloatAxioms.eqb_spec in Z0.
  rewrite FloatAxioms.ltb_spec, FloatAxioms.abs_spec.
  change (Prim2SF 0) with (S754_zero false) in *.
  destruct (Prim2SF x) as [s|s| |s m e].
  - discriminate Z0.
  - reflexivity.
  - contradiction.
  - reflexivity.
Qed.

(** *** The transactions a strategy pushes *)

(** A transaction as both strategies build it, from the date text [d], the
    description text [desc], the parsed amount [a] and the category
    information [info]. *)
Local Abbreviation built t d desc a info :=
  (PrimFloat.is_nan a = false /\
   categoryInfo desc = Ok info /\
   date t = normalizeDate d /\
   description t = trim desc /\
   amount t = PrimFloat.abs a /\
   type t = (if PrimFloat.ltb a 0 then debit else credit) /\
   category t = fst info /\ confidence t = snd info /\ currency t = None).

Lemma primaryLine_built `{Host} (line : jsstring) ts :
  primaryLine line = Ok ts ->
  length ts <= 1 /\
  Forall (fun t => exists d desc a info, built t d desc a info) ts.
Proof.
  unfold primaryLine.
  destruct (match_global transactionPattern line) as [|m0 m];
    [intro E; injection E as <-; split; [cbn; lia|constructor]|].
  destruct (present _) as [d|]; [|intro E; injection E as <-; split; [cbn; lia|constructor]].
  destruct (present _) as [desc|]; [|intro E; injection E as <-; split; [cbn; lia|constructor]].
  destruct (present _) as [am|]; [|intro E; injection E as <-; split; [cbn; lia|constructor]].
  cbv zeta.
  destruct (PrimFloat.is_nan (parseFloat (stripMoney am))) eqn:N;
    [intro E; injection E as <-; split; [cbn; lia|constructor]|].
  destruct (categoryInfo desc) as [info|msg] eqn:C; cbn [bind]; [|discriminate].
  intro E. injection E as <-. split; [cbn; lia|].
  constructor; [|constructor].
  exists d, desc, (parseFloat (stripMoney am)), info. cbn. now repeat split.
Qed.

Lemma alternativeAt_built `{Host} (from_i : list jsstring) ts :
  alternativeAt from_i = Ok ts ->
  length ts <= 1 /\
  Forall (fun t => exists d desc a info,
                     built t d desc a info /\
                     PrimFloat.eqb a 0 = false /\ trim desc <> []) ts.
Proof.
  unfold alternativeAt.
  destruct from_i as [|line_i rest];
    [intro E; injection E as <-; split; [cbn; lia|constructor]|].
  destruct (match_first datePattern (trim line_i)) as [d|];
    [|intro E; injection E as <-; split; [cbn; lia|constructor]].
  destruct (lookahead d [] (firstn 3 (line_i :: rest))) as [[desc a] bal].
  destruct (PrimFloat.is_nan a) eqn:N; cbn [negb andb];
    [intro E; injection E as <-; split; [cbn; lia|constructor]|].
  destruct (PrimFloat.eqb a 0) eqn:Z0; cbn [negb andb];
    [intro E; injection E as <-; split; [cbn; lia|constructor]|].
  destruct (trim desc) as [|c r] eqn:T; cbn [negb];
    [intro E; injection E as <-; split; [cbn; lia|constructor]|].
  destruct (categoryInfo desc) as [info|msg] eqn:C; cbn [bind]; [|discriminate].
  intro E. injection E as <-. split; [cbn; lia|].
  constructor; [|constructor].
  exists d, desc, a, info. cbn. rewrite T. repeat split; trivial. discriminate.
Qed.

Lemma primaryLines_built `{Host} (lines : list jsstring) : forall ts,
  primaryLines lines = Ok ts ->
  length ts <= length lines /\
  Forall (fun t => exists d desc a info, built t d desc a info) ts.
Proof.
  induction lines as [|line rest IH]; intros ts; cbn [primaryLines].
  - intro E. injection E as <-. split; [cbn; lia|constructor].
  - destruct (primaryLine line) as [t1|] eqn:P; cbn [bind]; [|discriminate].
    destruct (primaryLines rest) as [more|]; cbn [bind]; [|discriminate].
    intro E. injection E as <-.
    destruct (primaryLine_built line t1 P) as [L1 F1].
    destruct (IH more eq_refl) as [L2 F2].
    split; [rewrite length_app; cbn [length]; lia|now apply Forall_app].
Qed.

Lemma alternativeLines_built `{Host} (lines : list jsstring) : forall ts,
  alternativeLines lines = Ok ts ->
  length ts <= length lines /\
  Forall (fun t => exists d desc a info,
                     built t d desc a info /\
                     PrimFloat.eqb a 0 = false /\ trim desc <> []) ts.
Proof.
  induction lines as [|line rest IH]; intros ts; cbn [alternativeLines].
  - intro E. injection E as <-. split; [cbn; lia|constructor].
  - destruct (alternativeAt (line :: rest)) as [t1|] eqn:P; cbn [bind]; [|discriminate].
    destruct (alternativeLines rest) as [more|]; cbn [bind]; [|discriminate].
    intro E. injection E as <-.
    destruct (alternativeAt_built _ t1 P) as [L1 F1].
    destruct (IH more eq_refl) as [L2 F2].
    split; [rewrite length_app; cbn [length]; lia|now apply Forall_app].
Qed.

Lemma sortByDate_keeps `{Host} (P : ParsedTransaction -> Prop) l :
  Forall P l -> Forall P (sortByDate l) /\ length (sortByDate l) = length l.
Proof.
  intro F. unfold sortByDate. split.
  - apply Forall_forall. intros t I. apply sort_In in I.
    now apply (proj1 (Forall_forall _ _) F).
  - apply Permutation_length, sort_perm.
Qed.

Lemma parseTransactionsAlternative_built `{Host} (text : jsstring) out :
  parseTransactionsAlternative text = Ok out ->
  length out <= length (lines_of text) /\
  Forall (fun t => exists d desc a info,
                     built t d desc a info /\
                     PrimFloat.eqb a 0 = false /\ trim desc <> []) out.
Proof.
  unfold parseTransactionsAlternative.
  destruct (alternativeLines (lines_of text)) as [ts|] eqn:A; cbn [bind]; [|discriminate].
  intro E. injection E as <-.
  destruct (alternativeLines_built _ ts A) as [L F].
  destruct (sortByDate_keeps _ ts F) as [F' L']. split; [lia|exact F'].
Qed.

Lemma parseTransactions_built `{Host} (text : jsstring) out :
  parseTransactions text = Ok out ->
  length out <= length (lines_of text) /\
  Forall (fun t => exists d desc a info, built t d desc a info) out.
Proof.
  unfold parseTransactions.
  destruct (primaryLines (lines_of text)) as [ts|] eqn:P; cbn [bind]; [|discriminate].
  destruct ts as [|t ts].
  - intro A. destruct (parseTransactionsAlternative_built text out A) as [L F].
    split; [exact L|]. eapply Forall_impl; [|exact F].
    intros t (d & desc & a & info & B & _). now exists d, desc, a, info.
  - intro E. injection E as <-.
    destruct (primaryLines_built _ _ P) as [L F].
    destruct (sortByDate_keeps _ _ F) as [F' L']. split; [|exact F'].
    change (length (sortByDate (t :: ts)) <= length (lines_of text)). lia.
Qed.

(** X11: Every transaction [parseTransactions] returns has an amount that is a
    number and is not negative, and a description without white space
    around it; there are at most as many transactions as lines.  Those of
    the alternative strategy have a positive amount and a description that
    is not empty. *)
Theorem parseTransactions_amounts `{Host} (text : jsstring) :
  (forall out,
     parseTransactions text = Ok out ->
     length out <= length (lines_of text) /\
     Forall (fun t => PrimFloat.is_nan (amount t) = false /\
                      PrimFloat.leb 0 (amount t) = true /\
                      trim (description t) = description t) out)
  /\
  (forall out,
     parseTransactionsAlternative text = Ok out ->
     length out <= length (lines_of text) /\
     Forall (fun t => PrimFloat.is_nan (amount t) = false /\
                      PrimFloat.ltb 0 (amount t) = true /\
                      trim (description t) = description t /\
                      description t <> []) out).
Proof.
  split; intros out E.
  - destruct (parseTransactions_built text out E) as [L F]. split; [exact L|].
    eapply Forall_impl; [|exact F].
    intros t (d & desc & a & info & N & _ & _ & D & A & _).
    rewrite A, D. split; [now apply abs_not_nan|].
    split; [now apply abs_nonneg|apply trim_twice].
  - destruct (parseTransactionsAlternative_built text out E) as [L F]. split; [exact L|].
    eapply Forall_impl; [|exact F].
    intros t (d & desc & a & info & (N & _ & _ & D & A & _) & Z0 & T).
    rewrite A, D. split; [now apply abs_not_nan|].
    split; [now apply abs_positive|]. split; [apply trim_twice|exact T].
Qed.

(** *** Errors *)

Lemma categoryInfo_throws `{Host} (description : jsstring) message :
  categoryInfo description = Throw message ->
  exists response,
    callAI (txt "Categorize this transaction description: " ++ dquote ++
            description ++ dquote ++
            txt ". Return the category (like Food, Travel, Income) and confidence score between 0 and 1 as JSON.")
      = Ok response /\
    JSON_parse response = Ok JNull /\
    message = "TypeError: Cannot read properties of null"%string.
Proof.
  unfold categoryInfo, categorizeTransactionAI.
  destruct (callAI _) as [response|e]; cbn [bind]; [|discriminate].
  destruct (JSON_parse response) as [info|e] eqn:J; [|discriminate].
  destruct info; cbn; try discriminate.
  intro E. injection E as <-. now exists response.
Qed.

Lemma primaryLines_throws `{Host} (lines : list jsstring) message :
  primaryLines lines = Throw message ->
  exists description, categoryInfo description = Throw message.
Proof.
  induction lines as [|line rest IH]; cbn [primaryLines]; [discriminate|].
  destruct (primaryLine line) as [t1|e] eqn:P; cbn [bind].
  - destruct (primaryLines rest) as [more|e]; cbn [bind]; [discriminate|].
    intro E. injection E as <-. now apply IH.
  - intro E. injection E as <-. clear IH.
    unfold primaryLine in P.
    destruct (match_global transactionPattern line) as [|m0 m]; [discriminate|].
    destruct (present _) as [d|]; [|discriminate].
    destruct (present _) as [desc|]; [|discriminate].
    destruct (present _) as [am|]; [|discriminate].
    cbv zeta in P. destruct (PrimFloat.is_nan _); [discriminate|].
    destruct (categoryInfo desc) as [info|msg] eqn:C; cbn [bind] in P; [discriminate|].
    injection P as <-. now exists desc.
Qed.

Lemma alternativeLines_throws `{Host} (lines : list jsstring) message :
  alternativeLines lines = Throw message ->
  exists description, categoryInfo description = Throw message.
Proof.
  induction lines as [|line rest IH]; cbn [alternativeLines]; [discriminate|].
  destruct (alternativeAt (line :: rest)) as [t1|e] eqn:P; cbn [bind].
  - destruct (alternativeLines rest) as [more|e]; cbn [bind]; [discriminate|].
    intro E. injection E as <-. now apply IH.
  - intro E. injection E as <-. clear IH.
    unfold alternativeAt in P.
    destruct (match_first datePattern (trim line)) as [d|]; [|discriminate].
    destruct (lookahead d [] (firstn 3 (line :: rest))) as [[desc a] bal].
    destruct (_ && _); [|discriminate].
    destruct (categoryInfo desc) as [info|msg] eqn:C; cbn [bind] in P; [discriminate|].
    injection P as <-. now exists desc.
Qed.

Lemma parseTransactions_throws `{Host} (text : jsstring) message :
  parseTransactions text = Throw message ->
  exists description, categoryInfo description = Throw message.
Proof.
  unfold parseTransactions, parseTransactionsAlternative.
  destruct (primaryLines (lines_of text)) as [ts|e] eqn:P; cbn [bind].
  - destruct ts; [|discriminate].
    destruct (alternativeLines (lines_of text)) as [ts|e] eqn:A; cbn [bind]; [discriminate|].
    intro E. injection E as <-. now apply alternativeLines_throws in A.
  - intro E. injection E as <-. now apply primaryLines_throws in P.
Qed.

(** X12: [parseTransactions] throws in one case only: the AI service answered
    a categorisation request with a text that [JSON.parse] reads as [null];
    reading [category] of it, outside the [try], is a [TypeError]. *)
Theorem parseTransactions_throws_on_null `{Host} (text : jsstring) (message : string) :
  parseTransactions text = Throw message ->
  exists prompt response,
    generateContent prompt = Ok (Some response) /\
    JSON_parse response = Ok JNull.
Proof.
  intro E. destruct (parseTransactions_throws text message E) as [d C].
  destruct (categoryInfo_throws d message C) as (response & A & J & M).
  unfold callAI in A.
  destruct (generateContent _) as [[[|c r]|]|e] eqn:G; cbn in A; try discriminate.
  injection A as <-. eauto.
Qed.

(** X13: When the AI service gives no answer (it throws, or answers with no
    text), [parseTransactions] returns, and every transaction carries the
    category the keyword classifier gives its description, with confidence
    0.5. *)
Theorem parseTransactions_without_AI `{Host} (text : jsstring) :
  (forall prompt,
     match generateContent prompt with
     | Ok (Some (_ :: _)) => False
     | _ => True
     end) ->
  exists out,
    parseTransactions text = Ok out /\
    Forall (fun t => category t = Some (JStr (categorizeTransaction (description t))) /\
                     confidence t = Some (JNum 0.5)) out.
Proof.
  intro Down.
  assert (C : forall d, categoryInfo d
                        = Ok (Some (JStr (categorizeTransaction d)), Some (JNum 0.5%float))).
  { intro d. unfold categoryInfo, categorizeTransactionAI, callAI.
    match goal with |- context [generateContent ?p] => specialize (Down p);
      destruct (generateContent p) as [[[|c r]|]|e] end; cbn; reflexivity || contradiction. }
  destruct (parseTransactions text) as [out|message] eqn:E.
  - exists out. split; [reflexivity|].
    destruct (parseTransactions_built text out E) as [_ F].
    eapply Forall_impl; [|exact F].
    intros t (d & desc & a & info & _ & I & _ & D & _ & _ & Ca & Co & _).
    rewrite C in I. injection I as <-.
    rewrite Ca, Co, D. cbn [fst snd]. now rewrite categorizeTransaction_trim.
  - destruct (parseTransactions_throws text message E) as [d X].
    rewrite C in X. discriminate X.
Qed.

(** *** Texts without a date *)

Lemma no_date_at (s : jsstring) :
  match s with c :: _ => isDigit c = false | [] => True end ->
  matchAt transactionPattern s = None /\ matchAt datePattern s = None.
Proof.
  destruct s as [|c s]; [now split|].
  intro D. unfold matchAt, transactionPattern, datePattern.
  cbn [exec rep_greedy]. now rewrite D.
Qed.

Lemma no_date_in (s : jsstring) :
  forallb (fun c => negb (isDigit c)) s = true ->
  match_global transactionPattern s = [] /\ match_first datePattern s = None.
Proof.
  unfold match_global.
  induction s as [|c s IH]; intro F.
  - now split.
  - cbn [forallb] in F. apply andb_prop in F. destruct F as [Dc F].
    apply negb_true_iff in Dc.
    destruct (no_date_at (c :: s) Dc) as [T D].
    destruct (IH F) as [IT ID].
    cbn [match_global_from match_first]. now rewrite T, D.
Qed.

Lemma split_chars (sep : ascii -> bool) (p : ascii -> bool) (s : jsstring) :
  forallb p s = true -> Forall (fun part => forallb p part = true) (split sep s).
Proof.
  induction s as [|c s IH]; intro F; cbn [split].
  - now constructor.
  - cbn [forallb] in F. apply andb_prop in F. destruct F as [Pc F].
    specialize (IH F). destruct (sep c); [now constructor|].
    destruct (split sep s) as [|h t]; [constructor; [cbn; now rewrite Pc|constructor]|].
    inversion IH as [|? ? Ph Pt]; subst. constructor; [|exact Pt].
    cbn [forallb]. now rewrite Pc, Ph.
Qed.

Lemma trim_chars (p : ascii -> bool) (s : jsstring) :
  forallb p s = true -> forallb p (trim s) = true.
Proof.
  intro F. destruct (trim_split s) as (pre & post & E & _).
  rewrite E in F. rewrite !forallb_app in F.
  apply andb_prop in F. destruct F as [_ F].
  apply andb_prop in F. now destruct F as [F _].
Qed.

(** X14: A text that holds no digit gives no transaction: neither strategy
    finds a date in it. *)
Theorem parseTransactions_without_digits `{Host} (text : jsstring) :
  forallb (fun c => negb (isDigit c)) text = true ->
  parseTransactions text = Ok [].
Proof.
  intro F.
  pose proof (split_chars (is_char "010") _ text F) as L.
  fold (lines_of text) in L.
  unfold parseTransactions, parseTransactionsAlternative.
  assert (PA : primaryLines (lines_of text) = Ok [] /\
               alternativeLines (lines_of text) = Ok []).
  { induction L as [|line rest Fl _ [IP IA]]; [now split|]. split.
    - cbn [primaryLines]. unfold primaryLine.
      rewrite (proj1 (no_date_in line Fl)). cbn [bind]. now rewrite IP.
    - cbn [alternativeLines alternativeAt].
      rewrite (proj2 (no_date_in (trim line) (trim_chars _ line Fl))).
      cbn [bind]. now rewrite IA. }
  destruct PA as [P A]. rewrite P. cbn [bind]. now rewrite A.
Qed.

End RecognizerOutput.

(* ================================================================== *)
(** * Reading a statement file *)
(* ================================================================== *)

Section StatementFile.
Import PdfParser Re Statement.

(** *** What a match consumed *)

Lemma rep_greedy_takes {R} (p : ascii -> bool) (s : jsstring) :
  forall lo hi (k : jsstring -> option R) x,
    rep_greedy p lo hi s k = Some x ->
    exists pre rest,
      s = pre ++ rest /\ forallb p pre = true /\ lo <= length pre /\ k rest = Some x.
Proof.
  induction s as [|c s IH]; intros lo hi k x; cbn [rep_greedy].
  - destruct (Nat.eqb_spec lo 0) as [->|]; [|discriminate].
    intro K. now exists [], [].
  - destruct (p c && can_take hi) eqn:T.
    + destruct (rep_greedy p (pred lo) (one_less hi) s k) as [r|] eqn:G.
      * intro E. injection E as ->.
        destruct (IH _ _ _ _ G) as (pre & rest & -> & F & L & K).
        exists (c :: pre), rest. apply andb_prop in T. destruct T as [Pc _].
        cbn [app forallb length]. rewrite Pc, F. repeat split; trivial. lia.
      * destruct (Nat.eqb_spec lo 0) as [->|]; [|discriminate].
        intro K. now exists [], (c :: s).
    + destruct (Nat.eqb_spec lo 0) as [->|]; [|discriminate].
      intro K. now exists [], (c :: s).
Qed.

Lemma rep_lazy_takes {R} (p : ascii -> bool) (s : jsstring) :
  forall lo hi (k : jsstring -> option R) x,
    rep_lazy p lo hi s k = Some x ->
    exists pre rest,
      s = pre ++ rest /\ forallb p pre = true /\ lo <= length pre /\ k rest = Some x.
Proof.
  induction s as [|c s IH]; intros lo hi k x; cbn [rep_lazy].
  - destruct (Nat.eqb_spec lo 0) as [->|]; [|discriminate].
    destruct (k []) as [r|] eqn:K; [|discriminate].
    intro E. injection E as ->. now exists [], [].
  - destruct (if (lo =? 0)%nat then k (c :: s) else None) as [r|] eqn:K.
    + intro E. injection E as ->.
      destruct (Nat.eqb_spec lo 0) as [->|]; [|discriminate].
      now exists [], (c :: s).
    + destruct (p c && can_take hi) eqn:T; [|discriminate].
      intro G. destruct (IH _ _ _ _ G) as (pre & rest & -> & F & L & K').
      exists (c :: pre), rest. apply andb_prop in T. destruct T as [Pc _].
      cbn [app forallb length]. rewrite Pc, F. repeat split; trivial. lia.
Qed.

(** A match ends by calling its continuation. *)
Lemma exec_result {R} (r : pattern) :
  forall s caps (k : jsstring -> captures -> option R) x,
    exec r s caps k = Some x -> exists rest caps', k rest caps' = Some x.
Proof.
  induction r as [|p|p lo hi lazy|r1 IH1 r2 IH2|r1 IH1 r2 IH2|index r1 IH1|];
    intros s caps k x; cbn [exec].
  - eauto.
  - destruct s as [|c s]; [discriminate|]. destruct (p c); [eauto|discriminate].
  - destruct lazy; intro E;
      [apply rep_lazy_takes in E|apply rep_greedy_takes in E];
      destruct E as (pre & rest & _ & _ & _ & K); eauto.
  - intro E. destruct (IH1 _ _ _ _ E) as (s1 & c1 & E1). now apply IH2 in E1.
  - destruct (exec r1 s caps k) as [y|] eqn:E1.
    + intro E. injection E as ->. now apply IH1 in E1.
    + apply IH2.
  - intro E. destruct (IH1 _ _ _ _ E) as (rest & c1 & K). eauto.
  - destruct s; [eauto|discriminate].
Qed.

Lemma search_matchAt (r : pattern) (s : jsstring) m :
  search r s = Some m -> exists s', Re.matchAt r s' = Some m.
Proof.
  induction s as [|c s IH]; cbn [search].
  - destruct (Re.matchAt r []) eqn:M; [|discriminate]. intro E. injection E as ->. eauto.
  - destruct (Re.matchAt r (c :: s)) eqn:M; [intro E; injection E as ->; eauto|exact IH].
Qed.

Lemma matched_prefix (pre rest : jsstring) : matched (pre ++ rest) rest = pre.
Proof.
  unfold matched. rewrite length_app.
  replace (length pre + length rest - length rest) with (length pre) by lia.
  rewrite firstn_app, firstn_all.
  replace (length pre - length pre) with 0 by lia. cbn [firstn]. apply app_nil_r.
Qed.

(** The account number that [accountPattern] captures is a run of digits. *)
Lemma accountPattern_digits (text : jsstring) m :
  search accountPattern text = Some m ->
  exists a, group m 1 = Some a /\ a <> [] /\ forallb isDigit a = true.
Proof.
  intro S0. destruct (search_matchAt _ _ _ S0) as [s M]. clear S0.
  unfold Re.matchAt, accountPattern in M. cbn [exec] in M.
  assert (T : exists s1 c1,
            rep_greedy spaceHashColon 1 None s1
              (fun s' =>
                 rep_greedy isDigit 1 None s'
                   (fun rest =>
                      Some {| whole := matched s rest;
                              groups := (1, matched s' rest) :: c1 |})) = Some m).
  { match type of M with
    | match ?e with _ => _ end = _ => destruct e as [y|] eqn:A
    end.
    - injection M as ->. now apply exec_result in A.
    - now apply exec_result in M. }
  destruct T as (s1 & c1 & T).
  apply rep_greedy_takes in T. destruct T as (_ & s2 & _ & _ & _ & T).
  apply rep_greedy_takes in T. destruct T as (pre & rest & -> & F & L & K).
  injection K as <-. exists pre. unfold group. cbn.
  rewrite matched_prefix. repeat split; trivial.
  destruct pre; [cbn in L; lia|discriminate].
Qed.

Lemma firstBalance_number (patterns : list pattern) (text : jsstring) b :
  firstBalance patterns text = Some b -> PrimFloat.is_nan b = false.
Proof.
  induction patterns as [|r rest IH]; cbn [firstBalance]; [discriminate|].
  destruct (search r text) as [m|]; [|exact IH].
  cbv zeta.
  destruct (PrimFloat.is_nan (parseFloat (stripMoney (groupText m 1)))) eqn:N; [exact IH|].
  intro E. now injection E as <-.
Qed.

Lemma callAI_text `{Host} (prompt : jsstring) content :
  callAI prompt = Ok content -> content <> [].
Proof.
  unfold callAI. destruct (generateContent prompt) as [[[|c r]|]|e]; cbn; try discriminate.
  intro E. injection E as <-. discriminate.
Qed.

Lemma parsePDFStatement_shape `{Host} (pdf : result (list PdfPage)) :
  match parsePDFStatement pdf with
  | Ok data =>
      exists pages,
        pdf = Ok pages /\ parseTransactions (fullTextOf pages) = Ok (transactions data)
  | Throw message => exists cause, message = failedToParse cause
  end.
Proof.
  unfold parsePDFStatement.
  destruct pdf as [pages|e]; cbn [bind try_catch]; [|now exists e].
  destruct (detectBankNameAI (fullTextOf pages)) as [name|e];
    cbn [bind try_catch]; [|now exists e].
  destruct (columnsFor (headerLineOf pages)) as [columns|e];
    cbn [bind try_catch]; [|now exists e].
  destruct (parseTransactions (fullTextOf pages)) as [ts|e] eqn:P;
    cbn [bind try_catch]; [|now exists e].
  unfold extractBalances. cbn [try_catch transactions]. now exists pages.
Qed.

(** X15: [parsePDFStatement] returns only when the file was read and the AI
    service named the bank; the account number it reports is ["Unknown"] or
    a run of digits, the balances it reports are numbers, the transactions
    are those of [parseTransactions] on the text of the pages; every error
    is rethrown with the message ["Failed to parse PDF statement: ..."]. *)
Theorem parsePDFStatement_result `{Host} (pdf : result (list PdfPage)) :
  match parsePDFStatement pdf with
  | Ok data =>
      exists pages,
        pdf = Ok pages /\
        bankName data <> [] /\
        (accountNumber data = txt "Unknown" \/
         accountNumber data <> [] /\ forallb isDigit (accountNumber data) = true) /\
        statementPeriod data = extractStatementPeriod (fullTextOf pages) /\
        parseTransactions (fullTextOf pages) = Ok (transactions data) /\
        (forall b, openingBalance data = Some b -> PrimFloat.is_nan b = false) /\
        (forall b, closingBalance data = Some b -> PrimFloat.is_nan b = false)
  | Throw message => exists cause, message = failedToParse cause
  end.
Proof.
  unfold parsePDFStatement.
  destruct pdf as [pages|e]; cbn [bind try_catch]; [|now exists e].
  destruct (detectBankNameAI (fullTextOf pages)) as [name|e] eqn:B;
    cbn [bind try_catch]; [|now exists e].
  destruct (columnsFor (headerLineOf pages)) as [columns|e];
    cbn [bind try_catch]; [|now exists e].
  destruct (parseTransactions (fullTextOf pages)) as [ts|e] eqn:P;
    cbn [bind try_catch]; [|now exists e].
  unfold extractBalances.
  cbn [try_catch bankName accountNumber statementPeriod transactions
       openingBalance closingBalance].
  exists pages. split; [reflexivity|].
  split; [now apply callAI_text in B|].
  split; [|repeat split; trivial; intros b E; now apply firstBalance_number in E].
  destruct (search accountPattern (fullTextOf pages)) as [m|] eqn:A; [|now left].
  right. destruct (accountPattern_digits _ _ A) as (a & G & N & D).
  unfold groupText. now rewrite G.
Qed.

(** *** One line per page *)

Lemma fullTextOf_app (pages : list PdfPage) : forall start,
  fold_left (fun fullText page => fullText ++ pageText page ++ TemplateService.nl)
            pages start
  = start ++ flat_map (fun page => pageText page ++ TemplateService.nl) pages.
Proof.
  induction pages as [|page pages IH]; intro start; cbn [fold_left flat_map].
  - now rewrite app_nil_r.
  - rewrite IH. now rewrite <- !app_assoc.
Qed.

Lemma join_chars (p : ascii -> bool) (sep : jsstring) (parts : list jsstring) :
  forallb p sep = true -> Forall (fun part => forallb p part = true) parts ->
  forallb p (Statement.join sep parts) = true.
Proof.
  intros Fs F. induction F as [|part parts Fp _ IH]; [reflexivity|].
  cbn [Statement.join]. destruct parts as [|q parts]; [exact Fp|].
  rewrite !forallb_app. now rewrite Fp, Fs, IH.
Qed.

(** When no text item holds a line break, the text of the pages has one
    line for each page, and an empty line after the last. *)
Lemma lines_of_fullText (pages : list PdfPage) :
  Forall (Forall (fun item => match item with
                              | Some str => forallb (fun c => negb (is_char "010" c)) str = true
                              | None => True
                              end)) pages ->
  lines_of (fullTextOf pages) = map pageText pages ++ [[]].
Proof.
  intro F. unfold fullTextOf. rewrite fullTextOf_app. cbn [app]. unfold lines_of.
  induction F as [|page pages Fp _ IH]; [reflexivity|].
  cbn [flat_map map app]. rewrite <- app_assoc.
  unfold TemplateService.nl at 1. cbn [app].
  rewrite split_at_sep; [now rewrite IH| |reflexivity].
  unfold pageText. apply join_chars; [reflexivity|].
  apply Forall_map. eapply Forall_impl; [|exact Fp].
  intros [str|]; trivial.
Qed.

Lemma primaryLines_nonempty `{Host} (lines : list jsstring) : forall ts,
  primaryLines lines = Ok ts ->
  length ts <= length (filter (fun line => match line with [] => false | _ => true end) lines).
Proof.
  induction lines as [|line rest IH]; intros ts; cbn [primaryLines].
  - intro E. injection E as <-. cbn. lia.
  - destruct (primaryLine line) as [t1|] eqn:P; cbn [bind]; [|discriminate].
    destruct (primaryLines rest) as [more|]; cbn [bind]; [|discriminate].
    intro E. injection E as <-. specialize (IH more eq_refl).
    rewrite length_app. cbn [filter].
    destruct line as [|c line].
    + cbn in P. injection P as <-. cbn [length]. lia.
    + destruct (primaryLine_built _ t1 P) as [L1 _]. cbn [length]. lia.
Qed.

Lemma alternativeLines_nonempty `{Host} (lines : list jsstring) : forall ts,
  alternativeLines lines = Ok ts ->
  length ts <= length (filter (fun line => match line with [] => false | _ => true end) lines).
Proof.
  induction lines as [|line rest IH]; intros ts; cbn [alternativeLines].
  - intro E. injection E as <-. cbn. lia.
  - destruct (alternativeAt (line :: rest)) as [t1|] eqn:P; cbn [bind]; [|discriminate].
    destruct (alternativeLines rest) as [more|]; cbn [bind]; [|discriminate].
    intro E. injection E as <-. specialize (IH more eq_refl).
    rewrite length_app. cbn [filter].
    destruct line as [|c line].
    + cbn in P. injection P as <-. cbn [length]. lia.
    + destruct (alternativeAt_built _ t1 P) as [L1 _]. cbn [length]. lia.
Qed.

(** X16: A statement whose text items hold no line break gives at most one
    transaction for each page: the recognizer works line by line, and the
    items of a page are joined by spaces into one line. *)
Theorem parsePDFStatement_one_per_page `{Host} (pages : list PdfPage)
    (data : BankStatementData) :
  Forall (Forall (fun item => match item with
                              | Some str => forallb (fun c => negb (is_char "010" c)) str = true
                              | None => True
                              end)) pages ->
  parsePDFStatement (Ok pages) = Ok data ->
  length (transactions data) <= length pages.
Proof.
  intros F E.
  pose proof (parsePDFStatement_shape (Ok pages)) as S0.
  rewrite E in S0. destruct S0 as (pages' & Ep & P). injection Ep as <-.
  pose proof (lines_of_fullText pages F) as L.
  assert (C : length (filter (fun line => match line with [] => false | _ => true end)
                             (lines_of (fullTextOf pages))) <= length pages).
  { rewrite L, filter_app. cbn [filter]. rewrite app_nil_r.
    etransitivity; [apply filter_length_le|]. now rewrite length_map. }
  unfold parseTransactions, parseTransactionsAlternative in P.
  destruct (primaryLines (lines_of (fullTextOf pages))) as [ts|] eqn:Pr;
    cbn [bind] in P; [|discriminate].
  destruct ts as [|t ts].
  - destruct (alternativeLines (lines_of (fullTextOf pages))) as [ts|] eqn:Al;
      cbn [bind] in P; [|discriminate].
    injection P as <-. apply alternativeLines_nonempty in Al.
    destruct (sortByDate_keeps (fun _ => True) ts) as [_ Ls];
      [now apply Forall_forall|].
    lia.
  - injection P as P. apply primaryLines_nonempty in Pr.
    destruct (sortByDate_keeps (fun _ => True) (t :: ts)) as [_ Ls];
      [now apply Forall_forall|].
    rewrite <- P. change (length (sortByDate (t :: ts)) <= length pages). lia.
Qed.

End StatementFile.

(* ================================================================== *)
(** * Parsing with template selection *)
(* ================================================================== *)

Section TemplateSelection.
Import TemplateService EnhancedPDFParser.

Context `{Host} {num : Type} `{Number num}.
Variable extract : jsstring -> result PdfParser.BankStatementData.
Variable stringify : list (jsstring * json) -> jsstring.

Local Abbreviation parse := (parseWithTemplateSelection extract stringify).

Lemma selectedTemplate_unknown (selected : jsstring) (s : Service num) :
  (forall t, In t (Map_values (templates s)) -> id t <> selected) ->
  selectedTemplate (Some selected) s = None.
Proof.
  intro U. unfold selectedTemplate.
  destruct (PdfParser.present (Some selected)) as [sel|] eqn:P; [|reflexivity].
  assert (sel = selected) as -> by (destruct selected; [discriminate P|now injection P]).
  destruct (find _ _) as [t|] eqn:F; [|reflexivity].
  apply find_some in F. destruct F as [I E].
  apply sort_In in I. destruct (list_eq_dec ascii_dec (id t) selected) as [X|]; [|discriminate].
  now apply U in I.
Qed.

(** X17: A selected id that no catalogued template has is ignored: the parse
    goes on as if no template had been selected. *)
Theorem parseWithTemplateSelection_unknown_selection
    (pdf : result (list Statement.PdfPage)) (selected : jsstring)
    (userId : option jsstring) (now : Z) (e : Entropy) (s : Service num) :
  (forall t, In t (Map_values (templates s)) -> id t <> selected) ->
  parse pdf (Some selected) userId now e s = parse pdf None userId now e s.
Proof.
  intro U. unfold parseWithTemplateSelection, chosenTemplate.
  now rewrite (selectedTemplate_unknown selected s U).
Qed.

(** The template a parse goes on with is one of the catalogue. *)
Lemma chosenTemplate_In (fullText : jsstring) (selected : option jsstring)
    (s : Service num) t :
  chosenTemplate fullText selected s = Some t -> In t (Map_values (templates s)).
Proof.
  unfold chosenTemplate, selectedTemplate.
  destruct (PdfParser.present selected) as [sel|].
  - destruct (find _ _) as [t0|] eqn:F.
    + intro E. injection E as <-. apply find_some in F. destruct F as [F _].
      now apply sort_In in F.
    + unfold findBestTemplate.
      destruct (hd_error _) as [best|] eqn:Hd; [|discriminate].
      intro E. injection E as <-.
      assert (I : In best (candidatesFor fullText s)).
      { apply (sort_In (fun a b => (confidence b - confidence a >? of_Z 0)%num)).
        destruct (sort _ _); [discriminate Hd|]. injection Hd as ->. now left. }
      unfold candidatesFor in I. apply in_flat_map in I.
      destruct I as (t & It & I). destruct (_ >? _)%num; [|contradiction].
      destruct I as [<-|[]]. exact It.
  - unfold findBestTemplate.
    destruct (hd_error _) as [best|] eqn:Hd; [|discriminate].
    intro E. injection E as <-.
    assert (I : In best (candidatesFor fullText s)).
    { apply (sort_In (fun a b => (confidence b - confidence a >? of_Z 0)%num)).
      destruct (sort _ _); [discriminate Hd|]. injection Hd as ->. now left. }
    unfold candidatesFor in I. apply in_flat_map in I.
    destruct I as (t & It & I). destruct (_ >? _)%num; [|contradiction].
    destruct I as [<-|[]]. exact It.
Qed.

(** X18: A parse that goes on with a template [t] of the catalogue: when the
    extraction guided by the template succeeds, the outcome holds its data,
    the template's use is counted once with accuracy 0.9 and [templateUsed]
    shows the template after that update; when it fails, the data are
    those of the plain extraction, [templateUsed] is still [t], and the
    service is unchanged.  No template is created. *)
Theorem parseWithTemplateSelection_with_template
    (pages : list Statement.PdfPage) (selected userId : option jsstring)
    (now : Z) (e : Entropy) (s : Service num) (t : BankTemplate num)
    (outcome : Parsed num) (s' : Service num) :
  chosenTemplate (Statement.fullTextOf pages) selected s = Some t ->
  Map_get (id t) (templates s) = Some t ->
  parse (Ok pages) selected userId now e s = Ok (outcome, s') ->
  isNewTemplate outcome = false /\
  map fst (templates s') = map fst (templates s) /\
  match extract (enhancedPrompt stringify (Statement.fullTextOf pages) t) with
  | Ok guided =>
      data outcome = guided /\
      s' = updateTemplateMetrics (id t) (lit (9 # 10)) now s /\
      exists t',
        templateUsed outcome = Some t' /\
        Map_get (id t) (templates s') = Some t' /\
        usageCount t' = (usageCount t + 1)%Z /\
        avgAccuracy (metadata t') =
          ((avgAccuracy (metadata t) * of_Z (usageCount t) + lit (9 # 10))
           / of_Z (usageCount t + 1))%num
  | Throw _ =>
      extract (Statement.fullTextOf pages) = Ok (data outcome) /\
      s' = s /\ templateUsed outcome = Some t
  end.
Proof.
  intros C G. unfold parseWithTemplateSelection. cbn [bind]. rewrite C.
  unfold parseWithTemplate, callEnhancedAI, parseWithAI.
  destruct (extract (enhancedPrompt stringify _ t)) as [guided|msg].
  - intro E. injection E as <- <-.
    destruct (updateTemplateMetrics_found (id t) (lit (9 # 10)) now s t G)
      as (t' & G' & _ & _ & U & A & _).
    destruct (updateTemplateMetrics_keys (id t) (lit (9 # 10)) now s t G) as [K _].
    cbn [isNewTemplate data templateUsed]. rewrite G'.
    repeat split; trivial.
    exists t'. repeat split; trivial.
    rewrite A, U. now replace (usageCount t + 1 - 1)%Z with (usageCount t) by lia.
  - destruct (extract (Statement.fullTextOf pages)) as [plain|msg']; cbn [bind];
      [|discriminate].
    intro E. injection E as <- <-. now repeat split.
Qed.

(** X19: A parse creates a template exactly when it went on with no template,
    a user id was given and the extraction found a transaction.  The
    template created is the one reported: it is stored under its id, is
    not verified and has one use, and no other entry of the catalogue
    changes.  When no template is reported the service is unchanged. *)
Theorem parseWithTemplateSelection_new_template
    (pages : list Statement.PdfPage) (selected userId : option jsstring)
    (now : Z) (e : Entropy) (s : Service num)
    (outcome : Parsed num) (s' : Service num) :
  parse (Ok pages) selected userId now e s = Ok (outcome, s') ->
  (isNewTemplate outcome = true <->
   chosenTemplate (Statement.fullTextOf pages) selected s = None /\
   PdfParser.present userId <> None /\ PdfParser.transactions (data outcome) <> []) /\
  (isNewTemplate outcome = true ->
   exists t user,
     templateUsed outcome = Some t /\
     PdfParser.present userId = Some user /\ createdBy t = user /\
     id t = generateTemplateId e /\ usageCount t = 1%Z /\ isVerified t = false /\
     bankName t = PdfParser.bankName (data outcome) /\
     Map_get (id t) (templates s') = Some t /\
     (forall k, k <> id t -> Map_get k (templates s') = Map_get k (templates s)) /\
     dbCalls s' = dbCalls s ++ [SavedTemplate (id t)]) /\
  (templateUsed outcome = None -> s' = s).
Proof.
  unfold parseWithTemplateSelection. cbn [bind].
  destruct (chosenTemplate (Statement.fullTextOf pages) selected s) as [t|] eqn:C.
  - unfold parseWithTemplate, callEnhancedAI, parseWithAI.
    destruct (extract (enhancedPrompt stringify _ t)) as [guided|msg].
    + intro E. injection E as <- <-. cbn [isNewTemplate templateUsed].
      split; [split; [discriminate|now intros [X _]]|].
      split; [discriminate|].
      now destruct (Map_get _ _).
    + destruct (extract (Statement.fullTextOf pages)) as [plain|msg']; cbn [bind];
        [|discriminate].
      intro E. injection E as <- <-. cbn [isNewTemplate templateUsed].
      split; [split; [discriminate|now intros [X _]]|].
      split; discriminate.
  - unfold parseWithAI.
    destruct (extract (Statement.fullTextOf pages)) as [plain|msg']; cbn [bind];
      [|discriminate].
    destruct (PdfParser.present userId) as [user|] eqn:U.
    + destruct (PdfParser.transactions plain) as [|tx txs] eqn:T.
      * intro E. injection E as <- <-. cbn [isNewTemplate templateUsed data].
        rewrite T. split; [split; [discriminate|now intros (_ & _ & X)]|].
        split; [discriminate|reflexivity].
      * pose proof (createTemplateFromAI_Ok plain (Statement.fullTextOf pages) user e s) as Ok0.
        destruct (createTemplateFromAI plain _ user e s) as [[t s1]|msg] eqn:Cr;
          cbn [bind]; [|discriminate].
        intro E. injection E as <- <-. cbn [isNewTemplate templateUsed data fst snd].
        rewrite T.
        split; [split; [intros _; repeat split; discriminate|reflexivity]|].
        split; [|discriminate].
        intros _. destruct (Ok0 t s1 eq_refl) as (I & V & Us & _ & Tm & Db).
        exists t, user. rewrite Tm.
        unfold createTemplateFromAI in Cr.
        destruct (extractParsingPatterns _ plain) as [patterns|]; cbn [bind] in Cr;
          [|discriminate].
        injection Cr as Et _.
        repeat split; trivial.
        -- now rewrite <- Et.
        -- now rewrite <- Et.
        -- apply Map_get_set_same.
        -- intros k N. apply Map_get_set_other. congruence.
    + intro E. injection E as <- <-. cbn [isNewTemplate templateUsed].
      split; [split; [discriminate|now intros (_ & X & _)]|].
      split; [discriminate|reflexivity].
Qed.

(** X20: A parse changes the service as one service operation does, so a
    service built from the empty one by operations and parses is still
    such a service; and the template the parse reports is the one the
    catalogue holds under its id afterwards, with at least one use. *)
Theorem parseWithTemplateSelection_reports_catalogue
    (ops : list Op) (pages : list Statement.PdfPage)
    (selected userId : option jsstring) (now : Z) (e : Entropy)
    (outcome : Parsed num) (s' : Service num) :
  parse (Ok pages) selected userId now e (run ops Sample.emptyService)
    = Ok (outcome, s') ->
  (exists op, s' = run (ops ++ [op]) Sample.emptyService) /\
  (forall t, templateUsed outcome = Some t ->
             Map_get (id t) (templates s') = Some t /\ (1 <= usageCount t)%Z).
Proof.
  pose proof (run_keeps_catalogue (num := num) ops) as Inv. cbv zeta in Inv.
  set (s := run ops Sample.emptyService) in *.
  destruct Inv as (ND & F & _).
  assert (K : Forall (fun kv => fst kv = id (snd kv)) (templates s)).
  { apply Forall_forall. intros kv I. now apply (proj1 (Forall_forall _ _) F kv I). }
  assert (Used : forall t, In t (Map_values (templates s)) -> (1 <= usageCount t)%Z).
  { intros t I. unfold Map_values in I. apply in_map_iff in I.
    destruct I as (kv & <- & I). now apply (proj1 (Forall_forall _ _) F kv I). }
  assert (Same : forall op, step s op = s -> s = run (ops ++ [op]) Sample.emptyService).
  { intros op E. now rewrite run_snoc. }
  unfold parseWithTemplateSelection. cbn [bind].
  destruct (chosenTemplate (Statement.fullTextOf pages) selected s) as [t|] eqn:C.
  - pose proof (chosenTemplate_In _ _ _ _ C) as I.
    pose proof (stored_under_id _ _ K ND I) as G.
    unfold parseWithTemplate, callEnhancedAI, parseWithAI.
    destruct (extract (enhancedPrompt stringify _ t)) as [guided|msg].
    + intro E. injection E as <- <-. cbn [templateUsed]. split.
      * exists (OpUpdateTemplateMetrics (id t) (lit (9 # 10)) now).
        now rewrite run_snoc.
      * destruct (updateTemplateMetrics_found (id t) (lit (9 # 10)) now s t G)
          as (t' & G' & _ & I' & U & _).
        rewrite G'. intros t0 E. injection E as <-. rewrite I'.
        split; [exact G'|]. rewrite U. specialize (Used t I). lia.
    + destruct (extract (Statement.fullTextOf pages)) as [plain|msg']; cbn [bind];
        [|discriminate].
      intro E. injection E as <- <-. cbn [templateUsed]. split.
      * exists OpGetAvailableTemplates. now apply Same.
      * intros t0 E. injection E as <-. split; [exact G|now apply Used].
  - unfold parseWithAI.
    destruct (extract (Statement.fullTextOf pages)) as [plain|msg']; cbn [bind];
      [|discriminate].
    destruct (PdfParser.present userId) as [user|].
    + destruct (PdfParser.transactions plain) as [|tx txs].
      * intro E. injection E as <- <-. cbn [templateUsed]. split.
        -- exists OpGetAvailableTemplates. now apply Same.
        -- discriminate.
      * pose proof (createTemplateFromAI_Ok plain (Statement.fullTextOf pages) user e s) as Ok0.
        destruct (createTemplateFromAI plain _ user e s) as [[t s1]|msg] eqn:Cr;
          cbn [bind]; [|discriminate].
        intro E. injection E as <- <-. cbn [templateUsed fst snd]. split.
        -- exists (OpCreateTemplateFromAI plain (Statement.fullTextOf pages) user e).
           rewrite run_snoc. fold s. cbn [step]. now rewrite Cr.
        -- destruct (Ok0 t s1 eq_refl) as (_ & _ & Us & _ & Tm & _).
           intros t0 E. injection E as <-. rewrite Tm, Us.
           split; [apply Map_get_set_same|lia].
    + intro E. injection E as <- <-. cbn [templateUsed]. split.
      * exists OpGetAvailableTemplates. now apply Same.
      * discriminate.
Qed.

End TemplateSelection.

(* ================================================================== *)
(** * The day [normalizeDate] gives a local date *)
(* ================================================================== *)

Section LocalDates.
Import RefHost PdfParser.
Local Open Scope Z_scope.

Lemma usDate_is_no_iso_date (y m d : Z) : parseIsoDate (Inputs.usDate y m d) = None.
Proof.
  destruct (digitsFixed_spec 2 m) as (Lm & Dm & _).
  destruct (digitsFixed_spec 2 d) as (Ld & Dd & _).
  destruct (digitsFixed_spec 4 y) as (Ly & Dy & _).
  unfold parseIsoDate, Inputs.usDate.
  assert (S0 : forall rest, signedBody (digitsFixed 2 m ++ rest)
                            = (None, digitsFixed 2 m ++ rest)).
  { intro rest. destruct (digitsFixed 2 m) as [|c t]; [discriminate Lm|].
    cbn [forallb] in Dm. apply andb_prop in Dm. destruct Dm as [Dc _].
    cbn [app signedBody].
    now rewrite (digit_not_char "+" c), (digit_not_char "-" c). }
  rewrite S0. cbn [fst snd]. unfold parseIsoBody.
  rewrite split_no_sep; [reflexivity|].
  rewrite !forallb_app.
  rewrite (digits_no_sep "-" (digitsFixed 2 m)), (digits_no_sep "-" (digitsFixed 2 d)),
          (digits_no_sep "-" (digitsFixed 4 y)) by (try reflexivity; assumption).
  reflexivity.
Qed.

Lemma parseUsDate_usDate (tz y m d : Z) :
  validDay y m d = true -> 0 <= y <= 9999 ->
  parseUsDate tz (Inputs.usDate y m d)
  = inTimeRange (days_from_civil y m d * msPerDay - tz * 60000).
Proof.
  intros V Ry. destruct (validDay_bounds y m d V) as [Rm Rd].
  destruct (digitsFixed_spec 2 m) as (Lm & Dm & _).
  destruct (digitsFixed_spec 2 d) as (Ld & Dd & _).
  destruct (digitsFixed_spec 4 y) as (Ly & Dy & _).
  pose proof (digitsFixed_small 2 m ltac:(cbn; lia)) as Nm.
  pose proof (digitsFixed_small 2 d ltac:(cbn; lia)) as Nd.
  pose proof (digitsFixed_small 4 y ltac:(cbn; lia)) as Ny.
  unfold parseUsDate, Inputs.usDate.
  change (txt "/") with ["/"%char]. cbn [app].
  rewrite (split_at_sep _ (digitsFixed 2 m)) by (try reflexivity; now apply digits_no_sep).
  rewrite (split_at_sep _ (digitsFixed 2 d)) by (try reflexivity; now apply digits_no_sep).
  rewrite (split_no_sep _ (digitsFixed 4 y)) by now apply digits_no_sep.
  unfold allDigits. rewrite Dy, Dm, Dd, Ly, Lm, Ld, Ny, Nm, Nd, V. reflexivity.
Qed.

(** X21: On the reference host, [normalizeDate] reads a date written
    [MM/DD/YYYY] as local midnight and prints the UTC day of that instant:
    where local time is at or behind UTC this is the day written, where
    local time is ahead of UTC it is the day before. *)
Theorem normalizeDate_local_day (tz y m d : Z) :
  validDay y m d = true -> 0 <= y <= 9999 -> -720 <= tz <= 840 ->
  normalizeDate (H := host tz) (Inputs.usDate y m d) =
  if 0 <? tz
  then let '(y', m', d') := civil_from_days (days_from_civil y m d - 1) in
       isoDatePart y' m' d'
  else isoDatePart y m d.
Proof.
  intros V Ry Rtz.
  pose proof (days_from_civil_bound y m d Ry V) as B.
  unfold normalizeDate. cbn [Date_parse host]. unfold parseDate.
  rewrite usDate_is_no_iso_date, parseUsDate_usDate by assumption.
  unfold inTimeRange.
  replace (Z.abs (days_from_civil y m d * msPerDay - tz * 60000) <=? 8640000000000000)
    with true by (symmetry; apply Z.leb_le; unfold msPerDay; lia).
  rewrite isoDate_is_date_part.
  destruct (Z.ltb_spec 0 tz) as [P|P].
  - replace ((days_from_civil y m d * msPerDay - tz * 60000) / msPerDay)
      with (days_from_civil y m d - 1); [reflexivity|].
    apply Z.div_unique with (r := msPerDay - tz * 60000);
      unfold msPerDay; lia.
  - replace ((days_from_civil y m d * msPerDay - tz * 60000) / msPerDay)
      with (days_from_civil y m d).
    + now rewrite (days_from_civil_valid y m d V).
    + apply Z.div_unique with (r := - tz * 60000);
        unfold msPerDay; lia.
Qed.

(** *** Two-digit years *)

Lemma digit_in_radix_10 (c : ascii) : isDigit c = true -> isDigitIn 10 c = true.
Proof. destruct c as [[] [] [] [] [] [] [] []]; intro D; try discriminate D; reflexivity. Qed.

Lemma digit_is_plain (c : ascii) :
  isDigit c = true ->
  isSpace c = false /\ is_char "-" c = false /\ is_char "+" c = false /\
  is_char "x" c = false /\ is_char "X" c = false.
Proof.
  destruct c as [[] [] [] [] [] [] [] []]; intro D; try discriminate D; now repeat split.
Qed.

Lemma takeWhile_all (p : ascii -> bool) (s : jsstring) :
  forallb p s = true -> takeWhile p s = s.
Proof.
  induction s as [|c s IH]; [reflexivity|].
  cbn [forallb takeWhile]. intro F. apply andb_prop in F. destruct F as [-> F].
  now rewrite IH.
Qed.

(** [parseInt] of a text of decimal digits is the number they write. *)
Lemma parseInt_digits (s : jsstring) :
  s <> [] -> forallb isDigit s = true -> parseInt s = Some (num_of s).
Proof.
  intros N D. destruct s as [|c s]; [contradiction|].
  pose proof D as D0. cbn [forallb] in D0. apply andb_prop in D0. destruct D0 as [Dc Ds].
  destruct (digit_is_plain c Dc) as (Sc & Mc & Pc & _).
  unfold parseInt. cbn [dropWhile]. rewrite Sc. cbn [strip_sign]. rewrite Mc, Pc.
  assert (R : (let '(radix, s2) :=
                 match c :: s with
                 | z :: x :: t =>
                     if is_char "0" z && (is_char "x" x || is_char "X" x)
                     then (16%N, t) else (10%N, c :: s)
                 | _ => (10%N, c :: s)
                 end in
               match takeWhile (isDigitIn radix) s2 with
               | [] => None
               | d :: ds =>
                   let v := Z.of_N (digits_value radix (d :: ds)) in
                   Some (if false then - v else v)
               end) = Some (num_of (c :: s))).
  { destruct s as [|x t].
    - cbn [takeWhile]. now rewrite (digit_in_radix_10 c Dc).
    - cbn [forallb] in Ds. apply andb_prop in Ds. destruct Ds as [Dx Dt].
      destruct (digit_is_plain x Dx) as (_ & _ & _ & Xl & Xu).
      rewrite Xl, Xu, andb_false_r.
      rewrite takeWhile_all; [reflexivity|].
      rewrite forallb_forall in D |- *. intros a I. now apply digit_in_radix_10, D. }
  exact R.
Qed.

(** X22: A date written [MM/DD/YY] that the host's own parser rejects takes the
    second attempt of [normalizeDate], whatever the host: the year is read
    as 20YY below 50 and as 19YY from 50 on, and the result is the ISO day
    of [new Date(year, MM - 1, DD)], or the text as it was when that date is
    invalid. *)
Theorem normalizeDate_two_digit_year `{Host} (yy m d : Z) :
  0 <= yy <= 99 -> 0 <= m <= 99 -> 0 <= d <= 99 ->
  Date_parse (Inputs.shortDate yy m d) = None ->
  normalizeDate (Inputs.shortDate yy m d) =
  match Date_fromYMD (if yy <? 50 then 2000 + yy else 1900 + yy) (m - 1) d with
  | Some t => isoDate t
  | None => Inputs.shortDate yy m d
  end.
Proof.
  intros Ryy Rm Rd P.
  destruct (digitsFixed_spec 2 m) as (Lm & Dm & _).
  destruct (digitsFixed_spec 2 d) as (Ld & Dd & _).
  destruct (digitsFixed_spec 2 yy) as (Ly & Dy & _).
  pose proof (digitsFixed_small 2 m ltac:(cbn; lia)) as Nm.
  pose proof (digitsFixed_small 2 d ltac:(cbn; lia)) as Nd.
  pose proof (digitsFixed_small 2 yy ltac:(cbn; lia)) as Ny.
  unfold normalizeDate. rewrite P.
  assert (F : fromParts (Inputs.shortDate yy m d)
              = Date_fromYMD (if yy <? 50 then 2000 + yy else 1900 + yy) (m - 1) d).
  { unfold fromParts, Inputs.shortDate.
    change (txt "/") with ["/"%char]. cbn [app].
    assert (Sep : forall s, forallb isDigit s = true ->
                            forallb (fun c => negb (slashDash c)) s = true).
    { intros s D. rewrite forallb_forall in D |- *. intros c I.
      unfold slashDash.
      now rewrite (digit_not_char "/" c eq_refl (D c I)),
                  (digit_not_char "-" c eq_refl (D c I)). }
    rewrite (split_at_sep _ (digitsFixed 2 m)) by (try reflexivity; now apply Sep).
    rewrite (split_at_sep _ (digitsFixed 2 d)) by (try reflexivity; now apply Sep).
    rewrite (split_no_sep _ (digitsFixed 2 yy)) by now apply Sep.
    cbv zeta.
    rewrite !parseInt_digits
      by (trivial; intro X; rewrite X in *; discriminate).
    rewrite Nm, Nd, Ny. cbn [option_map newDate].
    replace (yy <? 100) with true by (symmetry; apply Z.ltb_lt; lia).
    now replace (yy + (if yy <? 50 then 2000 else 1900))
      with (if yy <? 50 then 2000 + yy else 1900 + yy)
      by (destruct (yy <? 50); lia). }
  now rewrite F.
Qed.

End LocalDates.

(* ================================================================== *)
(** * The processing run of the file hook *)
(* ================================================================== *)

Section ProcessingRun.
Import FileProcessor.

(** X23: The state a run of [processFiles] ends in.  With no uploaded file
    nothing changes.  Otherwise the first file is parsed.  On success all
    six steps are completed, the data are kept, and the files with the id
    of the first are completed with the bank's name.  On failure the
    message is kept, the files that were being processed are in error, and
    the steps stay as they were when the parse began: the step in progress
    is looked up in the list [initializeSteps] returned, which has none, so
    no step is marked failed and the parsing step is left in progress. *)
Theorem processFiles_outcome `{Host} (st : State) :
  let st' := processFiles st in
  match uploadedFiles st with
  | [] => st' = st
  | first :: _ =>
      isProcessing st' = false /\
      map id (uploadedFiles st') = map id (uploadedFiles st) /\
      match Statement.parsePDFStatement (file first) with
      | Ok parsedData =>
          bankData st' = Some parsedData /\ isComplete st' = true /\
          errorMessage st' = None /\
          map stepStatus (processingSteps st')
            = [Completed; Completed; Completed; Completed; Completed; Completed] /\
          map (fun f => (status f, progress f, bankDetected f)) (uploadedFiles st')
            = map (fun f => if same (id f) (id first)
                            then (completed, 100%Z, Some (PdfParser.bankName parsedData))
                            else (status f, progress f, bankDetected f))
                  (uploadedFiles st)
      | Throw message =>
          bankData st' = None /\ isComplete st' = false /\
          errorMessage st' = Some message /\
          map stepStatus (processingSteps st')
            = [Completed; Completed; Completed; Processing; Pending; Pending] /\
          map status (uploadedFiles st')
            = map (fun f => if same (id f) (id first) then error
                            else match status f with
                                 | processing => error
                                 | other => other
                                 end)
                  (uploadedFiles st)
      end
  end.
Proof.
  cbv zeta. unfold processFiles.
  destruct (uploadedFiles st) as [|first rest] eqn:U; [reflexivity|].
  assert (Step : forall f : UploadedFile,
            (same (id f) (id first) = true \/ same (id f) (id first) = false)) by
    (intro f; destruct (same (id f) (id first)); tauto).
  destruct (Statement.parsePDFStatement (file first)) as [parsedData|message];
    cbn [isProcessing uploadedFiles bankData isComplete errorMessage processingSteps];
    (split; [reflexivity|]); rewrite !map_map; (split; [|repeat split]);
    apply map_ext; intro f; destruct (Step f) as [S0|S0];
    repeat (rewrite ?S0; cbn [withStatus id status progress bankDetected file]);
    trivial; destruct (status f) eqn:St; cbn [withStatus id status]; now rewrite ?St.
Qed.

End ProcessingRun.

(* ================================================================== *)
(** * The transactions sheet of the exporter *)
(* ================================================================== *)

Section SheetRows.
Import PdfParser TransactionsSheet.

Context `{Host}.
Variable toLocaleDateString : option jsstring -> option Z -> jsstring.
Variable formatCurrency : float -> jsstring -> jsstring.
Variable toFixed2 : float -> jsstring.
Variable Number_toString : float -> jsstring.

Local Abbreviation sheet := (createTransactionsSheet toLocaleDateString formatCurrency toFixed2).
Local Abbreviation rowOf := (row toLocaleDateString formatCurrency toFixed2).
Local Abbreviation rowsOf := (rows toLocaleDateString formatCurrency toFixed2).

Lemma headers_length (o : ExportOptions) :
  length (headers o) = length (colWidths o).
Proof.
  unfold headers, colWidths. rewrite length_map.
  destruct (includeBalance o), (includeCategories o), (useAICategorization o); reflexivity.
Qed.

Lemma row_shape (o : ExportOptions) (t : ParsedTransaction) (r : list json) :
  rowOf o t = Ok r ->
  nth_error r 1 = Some (JStr (description t)) /\
  length r =
    if includeCategories o && useAICategorization o &&
       match confidence t with None => true | Some _ => false end
    then length (headers o) - 1 else length (headers o).
Proof.
  unfold row, headers. rewrite length_map.
  destruct (formatDate _ _ _) as [day|msg]; cbn [bind]; [|discriminate].
  destruct (includeCategories o).
  - destruct (useAICategorization o).
    + destruct (confidence t) as [c|].
      * destruct (confidenceCell toFixed2 c) as [cell|msg]; cbn [bind]; [|discriminate].
        intro E. injection E as <-. split; [reflexivity|].
        destruct (includeBalance o); [destruct (balance t)|]; reflexivity.
      * cbn [bind]. intro E. injection E as <-. split; [reflexivity|].
        destruct (includeBalance o); [destruct (balance t)|]; reflexivity.
    + cbn [bind]. intro E. injection E as <-. split; [reflexivity|].
      destruct (includeBalance o); [destruct (balance t)|]; reflexivity.
  - cbn [bind]. intro E. injection E as <-. split; [reflexivity|].
    destruct (includeBalance o); [destruct (balance t)|]; reflexivity.
Qed.

(** X24: A sheet that is built has the header row first and then one row per
    transaction, in order, with the description in its second cell, and as
    many column widths as headers.  A row is as wide as the header row,
    except that it is one cell short when categories are included, AI
    categorisation is on and the transaction has no confidence. *)
Theorem createTransactionsSheet_rows (transactions : list ParsedTransaction)
    (o : ExportOptions) (built : WorkSheet) :
  sheet transactions o = Ok built ->
  length (cols built) = length (headers o) /\
  exists data,
    cells built = headers o :: data /\
    Forall2 (fun t r =>
               nth_error r 1 = Some (JStr (description t)) /\
               length r =
                 if includeCategories o && useAICategorization o &&
                    match confidence t with None => true | Some _ => false end
                 then length (headers o) - 1 else length (headers o))
            transactions data.
Proof.
  unfold createTransactionsSheet.
  destruct (rowsOf o transactions) as [data|msg] eqn:R; cbn [bind]; [|discriminate].
  intro E. injection E as <-. cbn [cols cells].
  split; [now rewrite headers_length|].
  exists data. split; [reflexivity|].
  revert data R. induction transactions as [|t ts IH]; intros data R.
  - cbn [rows] in R. injection R as <-. constructor.
  - cbn [rows] in R.
    destruct (rowOf o t) as [r|msg] eqn:Rt; cbn [bind] in R; [|discriminate].
    destruct (rowsOf o ts) as [more|msg] eqn:Rs; cbn [bind] in R; [|discriminate].
    injection R as <-. constructor; [now apply row_shape|now apply IH].
Qed.

Lemma row_throws (o : ExportOptions) (t : ParsedTransaction) :
  (exists message, rowOf o t = Throw message) <->
  (dateFormat o = txt "YYYY-MM-DD" /\ Date_parse (date t) = None) \/
  (includeCategories o = true /\ useAICategorization o = true /\
   exists c, confidence t = Some c /\ forall x, c <> JNum x).
Proof.
  unfold row, formatDate.
  destruct (list_eq_dec ascii_dec (dateFormat o) (txt "YYYY-MM-DD")) as [Y|Y].
  - rewrite Y.
    destruct (list_eq_dec ascii_dec (txt "YYYY-MM-DD") (txt "MM/DD/YYYY")) as [X|_];
      [discriminate X|].
    destruct (list_eq_dec ascii_dec (txt "YYYY-MM-DD") (txt "DD/MM/YYYY")) as [X|_];
      [discriminate X|].
    destruct (Date_parse (date t)) as [time|]; cbn [bind].
    + destruct (includeCategories o); cbn [bind].
      * destruct (useAICategorization o).
        -- destruct (confidence t) as [c|]; cbn [bind].
           ++ destruct c as [|b|x|s|items|fields]; cbn [confidenceCell bind]; split;
                try (intros _; right; repeat split; eexists; split;
                     [reflexivity|discriminate]);
                try (intros _; now eexists).
              ** intros [m X]. discriminate X.
              ** intros [[_ X]|(_ & _ & c & E & N)]; [discriminate X|].
                 injection E as <-. now destruct (N x).
           ++ split; [intros [m X]; discriminate X|].
              intros [[_ X]|(_ & _ & c & E & _)]; discriminate.
        -- split; [intros [m X]; discriminate X|].
           intros [[_ X]|(_ & X & _)]; discriminate.
      * split; [intros [m X]; discriminate X|].
        intros [[_ X]|(X & _)]; discriminate.
    + split; [intros _; now left|intros _; now eexists].
  - assert (D : exists day,
               (if list_eq_dec ascii_dec (dateFormat o) (txt "MM/DD/YYYY")
                then Ok (toLocaleDateString (Some (txt "en-US")) (Date_parse (date t)))
                else if list_eq_dec ascii_dec (dateFormat o) (txt "DD/MM/YYYY")
                then Ok (toLocaleDateString (Some (txt "en-GB")) (Date_parse (date t)))
                else Ok (toLocaleDateString None (Date_parse (date t)))) = Ok day).
    { destruct (list_eq_dec _ _ _); [now eexists|].
      destruct (list_eq_dec _ _ _); now eexists. }
    destruct D as [day D].
    destruct (list_eq_dec ascii_dec (dateFormat o) (txt "MM/DD/YYYY")) as [M|M].
    2: destruct (list_eq_dec ascii_dec (dateFormat o) (txt "DD/MM/YYYY")) as [G|G].
    all: cbn [bind].
    all: destruct (includeCategories o); cbn [bind];
      [destruct (useAICategorization o);
       [destruct (confidence t) as [c|]; cbn [bind];
        [destruct c as [|b|x|s|items|fields]; cbn [confidenceCell bind]|]|]|].
    all: split;
      try (intros _; right; repeat split; eexists; split; [reflexivity|discriminate]);
      try (intros _; now eexists);
      try (intros [m X]; discriminate X);
      try (intros [[X _]|(_ & _ & c & E & N)]; [contradiction|];
           injection E as <-; now destruct (N x));
      try (intros [[X _]|(_ & _ & c & E & _)]; [contradiction|discriminate E]);
      try (intros [[X _]|(_ & X & _)]; [contradiction|discriminate X]);
      try (intros [[X _]|(X & _)]; [contradiction|discriminate X]).
Qed.

(** X25: Building the sheet throws exactly when some transaction's date cannot
    be parsed while the format is YYYY-MM-DD, or when categories are
    included with AI categorisation and some transaction's confidence is
    present but is not a number. *)
Theorem createTransactionsSheet_throws (transactions : list ParsedTransaction)
    (o : ExportOptions) :
  (exists message, sheet transactions o = Throw message) <->
  Exists (fun t =>
            (dateFormat o = txt "YYYY-MM-DD" /\ Date_parse (date t) = None) \/
            (includeCategories o = true /\ useAICategorization o = true /\
             exists c, confidence t = Some c /\ forall x, c <> JNum x))
         transactions.
Proof.
  unfold createTransactionsSheet.
  assert (R : (exists message, rowsOf o transactions = Throw message) <->
              Exists (fun t =>
                (dateFormat o = txt "YYYY-MM-DD" /\ Date_parse (date t) = None) \/
                (includeCategories o = true /\ useAICategorization o = true /\
                 exists c, confidence t = Some c /\ forall x, c <> JNum x))
              transactions).
  { induction transactions as [|t ts IH]; cbn [rows].
    - split; [intros [m X]; discriminate X|intro X; inversion X].
    - pose proof (row_throws o t) as Rt.
      destruct (rowOf o t) as [r|msg]; cbn [bind].
      + destruct (rowsOf o ts) as [more|msg]; cbn [bind].
        * split; [intros [m X]; discriminate X|].
          intro X. inversion X as [? ? B|? ? B]; subst.
          -- apply Rt in B. destruct B as [m B]. discriminate B.
          -- apply IH in B. destruct B as [m B]. discriminate B.
        * split; [|intros _; now eexists].
          intros _. apply Exists_cons_tl. apply IH. now eexists.
      + split; [|intros _; now eexists].
        intros _. apply Exists_cons_hd. apply Rt. now eexists. }
  destruct (rowsOf o transactions) as [data|msg]; cbn [bind].
  - rewrite <- R. split; intros [m X]; discriminate X.
  - rewrite <- R. split; intros _; now eexists.
Qed.

(** X26: The transactions handed to the sheets are the statement's, one for
    one and in order.  Each one keeps all but its category and confidence.
    It is the very transaction of the statement when AI categorisation is
    off, and whenever an AI call fails, the first answer cannot be parsed
    or is [null]; otherwise its category is the text, not empty, that the
    second AI call answered, and its confidence what the first answer
    carried. *)
Theorem exportedTransactions_keeps (data : BankStatementData) (o : ExportOptions) :
  Forall2 (fun t t' =>
             date t' = date t /\ description t' = description t /\
             amount t' = amount t /\ balance t' = balance t /\
             type t' = type t /\ PdfParser.currency t' = PdfParser.currency t /\
             (useAICategorization o = false -> t' = t) /\
             (forall message, categorizeTransactionAI (description t) = Throw message ->
                              t' = t) /\
             (categorizeTransactionAI (description t) = Ok JNull -> t' = t) /\
             (t' = t \/
              exists info given refined,
                categorizeTransactionAI (description t) = Ok info /\
                get_prop info (txt "category") = Ok given /\
                refineCategoryName Number_toString given (description t) = Ok refined /\
                refined <> [] /\
                category t' = Some (JStr refined) /\
                get_prop info (txt "confidence") = Ok (confidence t')))
          (transactions data) (exportedTransactions Number_toString data o).
Proof.
  unfold exportedTransactions.
  assert (One : forall t,
    let t' := recategorized Number_toString t in
    date t' = date t /\ description t' = description t /\
    amount t' = amount t /\ balance t' = balance t /\
    type t' = type t /\ PdfParser.currency t' = PdfParser.currency t /\
    (forall message, categorizeTransactionAI (description t) = Throw message -> t' = t) /\
    (categorizeTransactionAI (description t) = Ok JNull -> t' = t) /\
    (t' = t \/
     exists info given refined,
       categorizeTransactionAI (description t) = Ok info /\
       get_prop info (txt "category") = Ok given /\
       refineCategoryName Number_toString given (description t) = Ok refined /\
       refined <> [] /\
       category t' = Some (JStr refined) /\
       get_prop info (txt "confidence") = Ok (confidence t'))).
  { intro t. cbv zeta. unfold recategorized.
    destruct (categorizeTransactionAI (description t)) as [info|msg]; cbn [bind].
    2: { repeat split; trivial; try (intros; congruence); now left. }
    destruct (get_prop info (txt "category")) as [given|msg] eqn:G; cbn [bind].
    2: { repeat split; trivial; try (intros; congruence); now left. }
    assert (NN : info <> JNull) by (intros ->; discriminate G).
    destruct (get_prop info (txt "confidence")) as [conf|msg] eqn:C; cbn [bind].
    2: { repeat split; trivial; try (intros; congruence); now left. }
    destruct (refineCategoryName Number_toString given (description t))
      as [refined|msg] eqn:Rf; cbn [bind].
    2: { repeat split; trivial; try (intros; congruence); now left. }
    cbn [date description amount balance type PdfParser.currency category confidence].
    repeat split; trivial; try discriminate; try (intro X; congruence).
    right. exists info, given, refined. repeat split; trivial.
    unfold refineCategoryName, ExcelExporter.callAI, try_catch in Rf.
    destruct (generateContent _) as [[[|c s]|]|]; cbn [bind] in Rf; try discriminate Rf.
    injection Rf as <-. discriminate. }
  destruct (useAICategorization o).
  - induction (transactions data) as [|t ts IH]; cbn [map]; constructor; [|exact IH].
    destruct (One t) as (A & B & C & D & E & F & G & J & K).
    repeat split; trivial. discriminate.
  - induction (transactions data) as [|t ts IH]; constructor; [|exact IH].
    repeat split; trivial. now left.
Qed.

End SheetRows.

(* ================================================================== *)
(** * The properties on sample inputs *)
(* ================================================================== *)

Section Samples.
Import TemplateService.

(** A poor use of the verified sample template. *)
Lemma updateTemplateMetrics_frame_witness :
  exists t,
    Map_get Sample.templateId (templates Sample.verifiedService) = Some t /\
    map fst (templates (updateTemplateMetrics Sample.templateId 0.5%float 1710460800004%Z
                          Sample.verifiedService))
      = map fst (templates Sample.verifiedService).
Proof.
  destruct (lookup_holds (fun _ => true)
              (Map_get Sample.templateId (templates Sample.verifiedService)))
    as (t & G & _); [vm_compute; reflexivity|].
  exists t. split; [exact G|].
  exact (proj1 (updateTemplateMetrics_frame Sample.templateId 0.5%float
                  1710460800004%Z Sample.verifiedService t G)).
Defined.

(** The three sample lines, on the reference host. *)
Lemma parseTransactions_amounts_witness :
  exists out,
    PdfParser.parseTransactions (H := RefHost.host 0) Sample.statementText = Ok out /\
    length out <= 3 /\
    Forall (fun t => PrimFloat.is_nan (PdfParser.amount t) = false /\
                     PrimFloat.leb 0 (PdfParser.amount t) = true /\
                     trim (PdfParser.description t) = PdfParser.description t) out.
Proof.
  destruct (returns_holds (fun _ => true)
              (PdfParser.parseTransactions (H := RefHost.host 0) Sample.statementText))
    as (out & E & _); [vm_compute; reflexivity|].
  exists out. split; [exact E|].
  exact (proj1 (parseTransactions_amounts (H := RefHost.host 0) Sample.statementText) out E).
Defined.

(** The scenario line, with an AI service that answers [null]. *)
Lemma parseTransactions_throws_on_null_witness :
  PdfParser.parseTransactions (H := NullAnswerHost.host) Sample.starbucksLine
    = Throw "TypeError: Cannot read properties of null" /\
  exists prompt response,
    generateContent (Host := NullAnswerHost.host) prompt = Ok (Some response) /\
    JSON_parse (Host := NullAnswerHost.host) response = Ok JNull.
Proof.
  assert (E : PdfParser.parseTransactions (H := NullAnswerHost.host) Sample.starbucksLine
              = Throw "TypeError: Cannot read properties of null")
    by (vm_compute; reflexivity).
  split; [exact E|].
  exact (parseTransactions_throws_on_null (H := NullAnswerHost.host) _ _ E).
Defined.

(** The three sample lines, on the reference host, whose AI service is out
    of reach. *)
Lemma parseTransactions_without_AI_witness :
  exists out,
    PdfParser.parseTransactions (H := RefHost.host 0) Sample.statementText = Ok out /\
    Forall (fun t => PdfParser.category t
                       = Some (JStr (PdfParser.categorizeTransaction (PdfParser.description t))) /\
                     PdfParser.confidence t = Some (JNum 0.5)) out.
Proof.
  apply (parseTransactions_without_AI (H := RefHost.host 0) Sample.statementText).
  intro prompt. exact I.
Defined.

Lemma parseTransactions_without_digits_witness :
  PdfParser.parseTransactions (H := RefHost.host 0) (txt "No transactions this month.")
  = Ok [].
Proof.
  apply (parseTransactions_without_digits (H := RefHost.host 0)). reflexivity.
Defined.

(** The two sample pages, with an AI service that names the bank. *)
Lemma parsePDFStatement_one_per_page_witness :
  exists data,
    Statement.parsePDFStatement (H := BankNameHost.host) (Ok Inputs.pages) = Ok data /\
    length (PdfParser.transactions data) <= 2.
Proof.
  destruct (returns_holds (fun _ => true)
              (Statement.parsePDFStatement (H := BankNameHost.host) (Ok Inputs.pages)))
    as (data & E & _); [vm_compute; reflexivity|].
  exists data. split; [exact E|].
  apply (parsePDFStatement_one_per_page (H := BankNameHost.host) Inputs.pages data);
    [|exact E].
  repeat constructor.
Defined.

(** A selected id that the sample catalogue does not hold. *)
Lemma parseWithTemplateSelection_unknown_selection_witness :
  EnhancedPDFParser.parseWithTemplateSelection (H := RefHost.host 0)
    (fun _ => Ok Inputs.extracted) (fun _ => txt "{}")
    (Ok Inputs.pages) (Some (txt "template_0_missing")) (Some (txt "user-1"))
    1710460800004%Z Sample.laterEntropy (Sample.serviceWithTemplate (num := float))
  = EnhancedPDFParser.parseWithTemplateSelection (H := RefHost.host 0)
      (fun _ => Ok Inputs.extracted) (fun _ => txt "{}")
      (Ok Inputs.pages) None (Some (txt "user-1"))
      1710460800004%Z Sample.laterEntropy (Sample.serviceWithTemplate (num := float)).
Proof.
  apply parseWithTemplateSelection_unknown_selection.
  intros t I E.
  assert (Ids : map id (Map_values (templates (Sample.serviceWithTemplate (num := float))))
                = [Sample.templateId]) by (vm_compute; reflexivity).
  apply (in_map id) in I. rewrite Ids, E in I.
  destruct I as [X|[]]. discriminate X.
Defined.

(** The sample template is selected and the guided extraction succeeds. *)
Lemma parseWithTemplateSelection_with_template_witness :
  exists outcome s',
    EnhancedPDFParser.parseWithTemplateSelection (H := RefHost.host 0)
      (fun _ => Ok Inputs.extracted) (fun _ => txt "{}")
      (Ok Inputs.pages) (Some Sample.templateId) None
      1710460800004%Z Sample.laterEntropy (Sample.serviceWithTemplate (num := float))
    = Ok (outcome, s') /\
    EnhancedPDFParser.isNewTemplate outcome = false /\
    map fst (templates s') = map fst (templates (Sample.serviceWithTemplate (num := float))).
Proof.
  set (s := Sample.serviceWithTemplate (num := float)).
  destruct (lookup_holds (fun _ => true)
              (EnhancedPDFParser.chosenTemplate (Statement.fullTextOf Inputs.pages)
                 (Some Sample.templateId) s))
    as (t & C & _); [vm_compute; reflexivity|].
  destruct (returns_holds (fun _ => true)
              (EnhancedPDFParser.parseWithTemplateSelection (H := RefHost.host 0)
                 (fun _ => Ok Inputs.extracted) (fun _ => txt "{}")
                 (Ok Inputs.pages) (Some Sample.templateId) None
                 1710460800004%Z Sample.laterEntropy s))
    as ([outcome s'] & E & _); [vm_compute; reflexivity|].
  exists outcome, s'. split; [exact E|].
  assert (G : Map_get (id t) (templates s) = Some t).
  { destruct (run_keeps_catalogue (H := RefHost.host 0) (num := float)
                [OpCreateTemplateFromAI Sample.statement (txt "Acme Bank statement")
                   (txt "user-1") Sample.entropy]) as (ND & F & _).
    apply stored_under_id; [|exact ND|].
    - eapply Forall_impl; [|exact F]. now intros kv (K & _).
    - exact (chosenTemplate_In _ _ _ _ C). }
  destruct (parseWithTemplateSelection_with_template (H := RefHost.host 0)
              (fun _ => Ok Inputs.extracted) (fun _ => txt "{}")
              Inputs.pages (Some Sample.templateId) None
              1710460800004%Z Sample.laterEntropy s t outcome s' C G E)
    as (New & Keys & _).
  now split.
Defined.

(** The first parse of a new service creates a template. *)
Lemma parseWithTemplateSelection_new_template_witness :
  exists outcome s' t,
    EnhancedPDFParser.parseWithTemplateSelection (H := RefHost.host 0)
      (fun _ => Ok Inputs.extracted) (fun _ => txt "{}")
      (Ok Inputs.pages) None (Some (txt "user-1"))
      1710460800000%Z Sample.entropy (Sample.emptyService (num := float))
    = Ok (outcome, s') /\
    EnhancedPDFParser.isNewTemplate outcome = true /\
    EnhancedPDFParser.templateUsed outcome = Some t /\
    id t = Sample.templateId /\
    Map_get (id t) (templates s') = Some t.
Proof.
  destruct (returns_holds
              (fun r => EnhancedPDFParser.isNewTemplate (fst r))
              (EnhancedPDFParser.parseWithTemplateSelection (H := RefHost.host 0)
                 (fun _ => Ok Inputs.extracted) (fun _ => txt "{}")
                 (Ok Inputs.pages) None (Some (txt "user-1"))
                 1710460800000%Z Sample.entropy (Sample.emptyService (num := float))))
    as ([outcome s'] & E & New); [vm_compute; reflexivity|].
  cbn [fst] in New.
  destruct (parseWithTemplateSelection_new_template (H := RefHost.host 0)
              (fun _ => Ok Inputs.extracted) (fun _ => txt "{}")
              Inputs.pages None (Some (txt "user-1"))
              1710460800000%Z Sample.entropy (Sample.emptyService (num := float))
              outcome s' E)
    as (_ & Created & _).
  destruct (Created New) as (t & user & Used & _ & _ & Id & _ & _ & _ & Stored & _).
  exists outcome, s', t. repeat split; trivial.
Defined.

(** One hour ahead of UTC, the 15th of March is printed as the 14th. *)
Lemma normalizeDate_local_day_witness :
  PdfParser.normalizeDate (H := RefHost.host 60) (txt "03/15/2024") = txt "2024-03-14" /\
  PdfParser.normalizeDate (H := RefHost.host (-300)) (txt "03/15/2024") = txt "2024-03-15".
Proof.
  split.
  - exact (normalizeDate_local_day 60 2024 3 15 eq_refl ltac:(lia) ltac:(lia)).
  - exact (normalizeDate_local_day (-300) 2024 3 15 eq_refl ltac:(lia) ltac:(lia)).
Defined.

(** The sample template is selected in the service that has just created
    it. *)
Lemma parseWithTemplateSelection_reports_catalogue_witness :
  exists outcome s' t,
    EnhancedPDFParser.parseWithTemplateSelection (H := RefHost.host 0)
      (fun _ => Ok Inputs.extracted) (fun _ => txt "{}")
      (Ok Inputs.pages) (Some Sample.templateId) None
      1710460800004%Z Sample.laterEntropy
      (run (H := RefHost.host 0)
           [OpCreateTemplateFromAI Sample.statement (txt "Acme Bank statement")
              (txt "user-1") Sample.entropy]
           (Sample.emptyService (num := float)))
    = Ok (outcome, s') /\
    EnhancedPDFParser.templateUsed outcome = Some t /\
    Map_get (id t) (templates s') = Some t /\ (1 <= usageCount t)%Z.
Proof.
  set (ops := [OpCreateTemplateFromAI Sample.statement (txt "Acme Bank statement")
                 (txt "user-1") Sample.entropy]).
  destruct (returns_holds
              (fun r => match EnhancedPDFParser.templateUsed (fst r) with
                        | Some _ => true
                        | None => false
                        end)
              (EnhancedPDFParser.parseWithTemplateSelection (H := RefHost.host 0)
                 (fun _ => Ok Inputs.extracted) (fun _ => txt "{}")
                 (Ok Inputs.pages) (Some Sample.templateId) None
                 1710460800004%Z Sample.laterEntropy
                 (run (H := RefHost.host 0) ops (Sample.emptyService (num := float)))))
    as ([outcome s'] & E & Used); [vm_compute; reflexivity|].
  cbn [fst] in Used.
  destruct (EnhancedPDFParser.templateUsed outcome) as [t|] eqn:T; [|discriminate Used].
  exists outcome, s', t. split; [exact E|]. split; [exact T|].
  destruct (parseWithTemplateSelection_reports_catalogue (H := RefHost.host 0)
              (fun _ => Ok Inputs.extracted) (fun _ => txt "{}")
              ops Inputs.pages (Some Sample.templateId) None
              1710460800004%Z Sample.laterEntropy outcome s' E) as [_ R].
  exact (R t T).
Defined.

(** On the reference host at UTC, the year 75 is 1975 and the year 24 is
    2024. *)
Lemma normalizeDate_two_digit_year_witness :
  PdfParser.normalizeDate (H := RefHost.host 0) (txt "03/15/75") = txt "1975-03-15" /\
  PdfParser.normalizeDate (H := RefHost.host 0) (txt "03/15/24") = txt "2024-03-15".
Proof.
  split.
  - exact (normalizeDate_two_digit_year (H := RefHost.host 0) 75 3 15
             ltac:(lia) ltac:(lia) ltac:(lia) eq_refl).
  - exact (normalizeDate_two_digit_year (H := RefHost.host 0) 24 3 15
             ltac:(lia) ltac:(lia) ltac:(lia) eq_refl).
Defined.

(** The sample transaction has no confidence: with categories and AI
    categorisation its row is one cell short of the seven headers. *)
Lemma createTransactionsSheet_rows_witness :
  exists built,
    TransactionsSheet.createTransactionsSheet (H := RefHost.host 0)
      SheetInputs.toLocaleDateString SheetInputs.formatCurrency SheetInputs.toFixed2
      (PdfParser.transactions Inputs.extracted) SheetInputs.options = Ok built /\
    map (@length json) (TransactionsSheet.cells built) = [7; 6] /\
    length (TransactionsSheet.cols built) = 7.
Proof.
  destruct (returns_holds
              (fun built =>
                 if list_eq_dec Nat.eq_dec
                      (map (@length json) (TransactionsSheet.cells built)) [7; 6]
                 then true else false)
              (TransactionsSheet.createTransactionsSheet (H := RefHost.host 0)
                 SheetInputs.toLocaleDateString SheetInputs.formatCurrency
                 SheetInputs.toFixed2
                 (PdfParser.transactions Inputs.extracted) SheetInputs.options))
    as (built & E & W); [vm_compute; reflexivity|].
  exists built. split; [exact E|].
  split; [now destruct (list_eq_dec _ _ _)|].
  destruct (createTransactionsSheet_rows (H := RefHost.host 0)
              SheetInputs.toLocaleDateString SheetInputs.formatCurrency
              SheetInputs.toFixed2
              (PdfParser.transactions Inputs.extracted) SheetInputs.options built E)
    as [C _].
  exact C.
Defined.

End Samples.
